(** * ClusteringTickerSelection: clustering strategies and the efficiency-ratio pipeline

    A shallow embedding of [function_cluster.py] and [efr_classification.py].

    Conventions of the embedding.
    - Python integers are [Z]; an argument that may be [None] is an [option].
    - A float is a [cell]: either [NaN] or a number, the number idealised as a
      rational (rounding error of the floating-point operations is not modelled).
    - An ndarray or the values of a DataFrame are a row-major [list (list cell)].
    - A method of a Python object is a function in the monad [M self]: it takes the
      object before the call and returns the object after the call together with
      either the returned value or the raised exception.  An exception keeps the
      mutations done before it was raised.
    - scikit-learn, yellowbrick, pandas_ta and the MetaTrader feed are outside the
      repository: they are the fields of the classes [Sklearn] and [MarketData]. *)

From Stdlib Require Import String DecimalString ZArith QArith Qabs Qround List Bool Lia Lqa.
Import ListNotations.

Local Open Scope Z_scope.

(* ------------------------------------------------------------------------- *)
(** ** Python values, exceptions and the object monad *)

Inductive exn : Type :=
| ValueError (msg : string)
| IndexError (msg : string)
| AttributeError (msg : string)
| NotFittedError (msg : string)
| TypeError (msg : string)
| KeyError (msg : string)
| LibraryError (name msg : string).

Inductive res (A : Type) : Type :=
| Ok (a : A)
| Raise (e : exn).

Arguments Ok {A} a.
Arguments Raise {A} e.

Definition M (S A : Type) : Type := S -> S * res A.

Definition ret {S A : Type} (a : A) : M S A := fun s => (s, Ok a).

Definition raise {S A : Type} (e : exn) : M S A := fun s => (s, Raise e).

Definition bind {S A B : Type} (m : M S A) (k : A -> M S B) : M S B :=
  fun s =>
    match m s with
    | (s', Ok a) => k a s'
    | (s', Raise e) => (s', Raise e)
    end.

Definition lift {S A : Type} (r : res A) : M S A := fun s => (s, r).

Definition get {S : Type} : M S S := fun s => (s, Ok s).

Definition modify {S : Type} (f : S -> S) : M S unit := fun s => (f s, Ok tt).

Declare Scope py_scope.
Delimit Scope py_scope with py.

Notation "x <- c1 ;; c2" := (bind c1 (fun x => c2))
  (at level 100, c1 at next level, right associativity) : py_scope.
Notation "c1 ;;; c2" := (bind c1 (fun _ => c2))
  (at level 100, right associativity) : py_scope.

(** The error monad without an object, for plain functions. *)
Definition rbind {A B : Type} (r : res A) (k : A -> res B) : res B :=
  match r with
  | Ok a => k a
  | Raise e => Raise e
  end.

Fixpoint mapM {A B : Type} (f : A -> res B) (l : list A) : res (list B) :=
  match l with
  | [] => Ok []
  | x :: r => rbind (f x) (fun y => rbind (mapM f r) (fun ys => Ok (y :: ys)))
  end.

(** [range(a, b)]. *)
Definition py_range (a b : Z) : list Z :=
  map (fun i => a + Z.of_nat i) (seq 0 (Z.to_nat (b - a))).

(* ------------------------------------------------------------------------- *)
(** ** Floats and numpy *)

Inductive cell : Type :=
| NaN
| Flt (q : Q).

Definition Matrix : Type := list (list cell).

Definition is_nan (c : cell) : bool :=
  match c with NaN => true | Flt _ => false end.

Definition cadd (a b : cell) : cell :=
  match a, b with Flt x, Flt y => Flt (x + y) | _, _ => NaN end.

Definition csub (a b : cell) : cell :=
  match a, b with Flt x, Flt y => Flt (x - y) | _, _ => NaN end.

Definition cmul (a b : cell) : cell :=
  match a, b with Flt x, Flt y => Flt (x * y) | _, _ => NaN end.

(** Division.  [0/0] is NaN.  A non-zero number over zero is an infinity in
    IEEE arithmetic; the divisions of this program never have that shape (a mean
    divides by a count that is zero only when the sum is the empty sum, and see
    [minmax_zero_over_zero] for the normalisation), so the cell type has no
    infinity and that case is mapped to NaN as well. *)
Definition cdiv (a b : cell) : cell :=
  match a, b with
  | Flt x, Flt y => if Qeq_bool y 0%Q then NaN else Flt (x / y)
  | _, _ => NaN
  end.

Definition Qltb (x y : Q) : bool :=
  match (x ?= y)%Q with Lt => true | _ => false end.

(** The order [numpy.argmin] uses: a NaN is below every number, and nothing is
    below a NaN, so the first NaN is the answer when there is one. *)
Definition cell_ltb (a b : cell) : bool :=
  match a, b with
  | NaN, NaN => false
  | NaN, Flt _ => true
  | Flt _, NaN => false
  | Flt x, Flt y => Qltb x y
  end.

Fixpoint argmin_from (best : cell) (bi i : nat) (l : list cell) : nat :=
  match l with
  | [] => bi
  | x :: r =>
      if cell_ltb x best then argmin_from x i (S i) r
      else argmin_from best bi (S i) r
  end.

(** [numpy.argmin] on a one-dimensional sequence: the index of the first
    occurrence of the minimum. *)
Definition np_argmin (l : list cell) : res Z :=
  match l with
  | [] => Raise (ValueError "attempt to get argmin of an empty sequence")
  | x :: r => Ok (Z.of_nat (argmin_from x 0%nat 1%nat r))
  end.

(** The same order as propositions: [cell_le a b] says that [b] is not below [a]. *)
Definition cell_lt (a b : cell) : Prop := cell_ltb a b = true.
Definition cell_le (a b : cell) : Prop := cell_ltb b a = false.

(** A cell that holds a number, and one that holds a number not below zero. *)
Definition number (c : cell) : Prop := exists q, c = Flt q.
Definition nonneg_number (c : cell) : Prop := exists q, c = Flt q /\ (0 <= q)%Q.

(** [numpy.diff]: [out[i] = a[i+1] - a[i]]. *)
Fixpoint np_diff (l : list cell) : list cell :=
  match l with
  | [] => []
  | x :: r =>
      match r with
      | [] => []
      | y :: _ => csub y x :: np_diff r
      end
  end.

Definition csum (l : list cell) : cell := fold_left cadd l (Flt 0).

Definition column (j : nat) (rows : Matrix) : list cell :=
  map (fun r => nth j r NaN) rows.

Definition ncols (data : Matrix) : nat := length (hd [] data).

(** [a.mean(axis=0)] of the rows [rows] of an array with [d] columns. *)
Definition mean_axis0 (d : nat) (rows : Matrix) : list cell :=
  map (fun j => cdiv (csum (column j rows)) (Flt (inject_Z (Z.of_nat (length rows)))))
      (seq 0 d).

Fixpoint vsub (r c : list cell) : list cell :=
  match r, c with
  | x :: r', y :: c' => csub x y :: vsub r' c'
  | _, _ => []
  end.

(** [numpy.linalg.norm(a) ** 2] for a two-dimensional [a]: the square of the
    Frobenius norm, that is the sum of the squares of the entries. *)
Definition frobenius_sq (a : Matrix) : cell :=
  csum (map (fun r => csum (map (fun x => cmul x x) r)) a).

(** [data[labels == i]]: boolean-mask row selection; the mask must be as long as
    the array. *)
Definition mask_rows (data : Matrix) (labels : list Z) (i : Z) : Matrix :=
  map fst (filter (fun p => Z.eqb (snd p) i) (combine data labels)).

(* ------------------------------------------------------------------------- *)
(** ** The external libraries

    What the program asks of scikit-learn and yellowbrick.  A fitted model is
    opaque; fitting is a function of the hyper-parameters, the seed and the data
    (the libraries are deterministic once [random_state] is fixed), and
    predicting or scoring reads the fitted model without changing it.

    A [fit] that raises may have set attributes on the estimator before it
    raised (scikit-learn records [n_features_in_] when it has validated the
    array, and rejects a count larger than the number of samples only after
    that).  What the estimator holds then is the library's business as well:
    [sk_kmeans_fit_leftover] and [sk_gmm_fit_leftover] give the attributes on
    the estimator after such a [fit], from those it had before; [None] stands
    for an estimator without any fitted attribute. *)

Class Sklearn : Type := {
  (** the attributes [fit] sets on a [sklearn.cluster.KMeans] *)
  KMeansModel : Type;
  (** [KMeans(n_clusters, random_state, init='k-means++', n_init='auto',
      max_iter=300, tol=0.0001).fit(X)] *)
  sk_kmeans_fit : option Z -> Z -> Matrix -> res KMeansModel;
  sk_kmeans_fit_leftover :
    option KMeansModel -> option Z -> Z -> Matrix -> option KMeansModel;
  sk_kmeans_predict : KMeansModel -> Matrix -> res (list Z);
  (** [KElbowVisualizer(KMeans(random_state=...), k=(lo, hi)).fit(X).elbow_value_],
      which is [None] when no knee is detected *)
  yb_elbow_value : Z -> Z * Z -> Matrix -> res (option Z);
  (** the attributes [fit] sets on a [sklearn.mixture.GaussianMixture] *)
  GaussianModel : Type;
  sk_gmm_fit : Z -> Z -> Matrix -> res GaussianModel;
  sk_gmm_fit_leftover : option GaussianModel -> Z -> Z -> Matrix -> option GaussianModel;
  sk_gmm_predict : GaussianModel -> Matrix -> res (list Z);
  sk_gmm_aic : GaussianModel -> Matrix -> cell;
  sk_gmm_bic : GaussianModel -> Matrix -> cell;
  (** [AgglomerativeClustering(n_clusters).fit(X).labels_] *)
  sk_agglomerative_labels : Z -> Matrix -> res (list Z)
}.

(** The estimator objects: hyper-parameters and the attributes [fit] has set, if
    any.  [fit] mutates the estimator.  [predict] starts with
    [check_is_fitted], which raises [NotFittedError] on an estimator without any
    fitted attribute; on an estimator that has some, the library's [predict]
    runs on them (and raises where a failed [fit] left only part of them). *)
Module KMeans.
Section Estimator.
Context `{L : Sklearn}.

Record t : Type := mk {
  n_clusters : option Z;
  random_state : Z;
  fitted : option KMeansModel
}.

Definition new (n_clusters : option Z) (random_state : Z) : t :=
  mk n_clusters random_state None.

Definition fit (X : Matrix) : M t unit :=
  fun self =>
    match sk_kmeans_fit (n_clusters self) (random_state self) X with
    | Ok m => (mk (n_clusters self) (random_state self) (Some m), Ok tt)
    | Raise e =>
        (mk (n_clusters self) (random_state self)
            (sk_kmeans_fit_leftover (fitted self) (n_clusters self) (random_state self) X),
         Raise e)
    end.

Definition predict (self : t) (X : Matrix) : res (list Z) :=
  match fitted self with
  | Some m => sk_kmeans_predict m X
  | None => Raise (NotFittedError "This KMeans instance is not fitted yet.")
  end.
End Estimator.
End KMeans.

Module GaussianMixture.
Section Estimator.
Context `{L : Sklearn}.

Record t : Type := mk {
  n_components : Z;
  random_state : Z;
  fitted : option GaussianModel
}.

Definition new (n_components random_state : Z) : t :=
  mk n_components random_state None.

Definition fit (X : Matrix) : M t unit :=
  fun self =>
    match sk_gmm_fit (n_components self) (random_state self) X with
    | Ok m => (mk (n_components self) (random_state self) (Some m), Ok tt)
    | Raise e =>
        (mk (n_components self) (random_state self)
            (sk_gmm_fit_leftover (fitted self) (n_components self) (random_state self) X),
         Raise e)
    end.

Definition predict (self : t) (X : Matrix) : res (list Z) :=
  match fitted self with
  | Some m => sk_gmm_predict m X
  | None => Raise (NotFittedError "This GaussianMixture instance is not fitted yet.")
  end.

Definition aic (self : t) (X : Matrix) : res cell :=
  match fitted self with
  | Some m => Ok (sk_gmm_aic m X)
  | None => Raise (NotFittedError "This GaussianMixture instance is not fitted yet.")
  end.

Definition bic (self : t) (X : Matrix) : res cell :=
  match fitted self with
  | Some m => Ok (sk_gmm_bic m X)
  | None => Raise (NotFittedError "This GaussianMixture instance is not fitted yet.")
  end.
End Estimator.
End GaussianMixture.

Module AgglomerativeClustering.
Record t : Type := mk {
  n_clusters : Z;
  labels_ : option (list Z)
}.

Definition new (n_clusters : Z) : t := mk n_clusters None.

(** [est.fit(X)] sets [labels_] and returns the estimator itself. *)
Definition fit `{L : Sklearn} (X : Matrix) : M t t :=
  fun self =>
    match sk_agglomerative_labels (n_clusters self) X with
    | Ok l => let self' := mk (n_clusters self) (Some l) in (self', Ok self')
    | Raise e => (self, Raise e)
    end.
End AgglomerativeClustering.

(** What a strategy method hands back to its caller: an array of labels, or an
    estimator object. *)
Inductive pyval : Type :=
| Ndarray (labels : list Z)
| Estimator (e : AgglomerativeClustering.t).

(** Attribute access [v.labels_]. *)
Definition get_labels_ (v : pyval) : res pyval :=
  match v with
  | Estimator e =>
      match AgglomerativeClustering.labels_ e with
      | Some l => Ok (Ndarray l)
      | None =>
          Raise (AttributeError "'AgglomerativeClustering' object has no attribute 'labels_'")
      end
  | Ndarray _ => Raise (AttributeError "'numpy.ndarray' object has no attribute 'labels_'")
  end.

Definition unfitted_predict_message : string :=
  "El modelo debe ser ajustado antes de hacer predicciones. Llama a fit(X) primero.".

(* ------------------------------------------------------------------------- *)
(** ** function_cluster.py: class KMeansClustering *)

Module KMeansClustering.
Section Strategy.
Context `{L : Sklearn}.

Record t : Type := mk {
  max_clusters : Z;
  random_state : Z;
  n_clusters : option Z;
  optimal_clusters : option Z;
  kmeans : option KMeans.t
}.

(** [__init__(max_clusters=10, random_state=42, n_clusters=None)] *)
Definition init (max_clusters random_state : Z) (n_clusters : option Z) : t :=
  mk max_clusters random_state n_clusters None None.

Definition set_optimal_clusters (v : option Z) (self : t) : t :=
  mk (max_clusters self) (random_state self) (n_clusters self) v (kmeans self).

Definition set_kmeans (v : option KMeans.t) (self : t) : t :=
  mk (max_clusters self) (random_state self) (n_clusters self)
     (optimal_clusters self) v.

(** [self.kmeans.fit(X)]: the estimator held in the field is mutated in place. *)
Definition kmeans_fit (X : Matrix) : M t unit :=
  fun self =>
    match kmeans self with
    | Some est =>
        let (est', r) := KMeans.fit X est in (set_kmeans (Some est') self, r)
    | None => (self, Raise (AttributeError "'NoneType' object has no attribute 'fit'"))
    end.

Definition fit (X : Matrix) : M t unit :=
  (self <- get ;;
   match n_clusters self with
   | None =>
       elbow <- lift (yb_elbow_value (random_state self) (2, max_clusters self) X) ;;
       modify (set_optimal_clusters elbow)
   | Some k => modify (set_optimal_clusters (Some k))
   end ;;;
   self <- get ;;
   modify (set_kmeans (Some (KMeans.new (optimal_clusters self) (random_state self)))) ;;;
   kmeans_fit X)%py.

Definition predict (X : Matrix) : M t pyval :=
  (self <- get ;;
   match kmeans self with
   | None => raise (ValueError unfitted_predict_message)
   | Some est => labels <- lift (KMeans.predict est X) ;; ret (Ndarray labels)
   end)%py.

Definition fit_predict (X : Matrix) : M t pyval :=
  (fit X ;;; predict X)%py.

Definition get_optimal_clusters : M t Z :=
  (self <- get ;;
   match optimal_clusters self with
   | None =>
       raise (ValueError
         "El modelo debe ser ajustado antes de obtener el número óptimo de clusters.")
   | Some k => ret k
   end)%py.
End Strategy.
End KMeansClustering.

(* ------------------------------------------------------------------------- *)
(** ** function_cluster.py: class GMMClustering *)

Module GMMClustering.
Section Strategy.
Context `{L : Sklearn}.

Record t : Type := mk {
  max_components : Z;
  criterion : string;
  n_components : option Z;
  random_state : Z;
  optimal_components : option Z;
  gmm : option GaussianMixture.t
}.

(** [__init__(max_components=10, criterion='bic', n_components=None, random_state=42)] *)
Definition init (max_components : Z) (criterion : string) (n_components : option Z)
    (random_state : Z) : t :=
  mk max_components criterion n_components random_state None None.

Definition set_optimal_components (v : option Z) (self : t) : t :=
  mk (max_components self) (criterion self) (n_components self) (random_state self)
     v (gmm self).

Definition set_gmm (v : option GaussianMixture.t) (self : t) : t :=
  mk (max_components self) (criterion self) (n_components self) (random_state self)
     (optimal_components self) v.

(** One turn of the sweep: fit a mixture with [n] components and score it. *)
Definition score (self : t) (X : Matrix) (n : Z) : res cell :=
  match GaussianMixture.fit X (GaussianMixture.new n (random_state self)) with
  | (est, Ok _) =>
      if String.eqb (criterion self) "aic" then GaussianMixture.aic est X
      else if String.eqb (criterion self) "bic" then GaussianMixture.bic est X
      else Raise (ValueError "El criterio debe ser 'aic' o 'bic'")
  | (_, Raise e) => Raise e
  end.

(** The list [criterions] at the end of the loop. *)
Definition criterions (self : t) (X : Matrix) : res (list cell) :=
  mapM (score self X) (py_range 1 (max_components self + 1)).

Definition gmm_fit (X : Matrix) : M t unit :=
  fun self =>
    match gmm self with
    | Some est =>
        let (est', r) := GaussianMixture.fit X est in (set_gmm (Some est') self, r)
    | None => (self, Raise (AttributeError "'NoneType' object has no attribute 'fit'"))
    end.

Definition fit (X : Matrix) : M t unit :=
  (self <- get ;;
   n <- match n_components self with
        | None =>
            cs <- lift (criterions self X) ;;
            i <- lift (np_argmin cs) ;;
            ret (i + 1)
        | Some n => ret n
        end ;;
   modify (set_optimal_components (Some n)) ;;;
   modify (set_gmm (Some (GaussianMixture.new n (random_state self)))) ;;;
   gmm_fit X)%py.

Definition predict (X : Matrix) : M t pyval :=
  (self <- get ;;
   match gmm self with
   | None => raise (ValueError unfitted_predict_message)
   | Some est => labels <- lift (GaussianMixture.predict est X) ;; ret (Ndarray labels)
   end)%py.

Definition fit_predict (X : Matrix) : M t pyval :=
  (fit X ;;; predict X)%py.

Definition get_optimal_components : M t Z :=
  (self <- get ;;
   match optimal_components self with
   | None =>
       raise (ValueError
         "El modelo debe ser ajustado antes de obtener el número óptimo de componentes.")
   | Some k => ret k
   end)%py.
End Strategy.
End GMMClustering.

(* ------------------------------------------------------------------------- *)
(** ** function_cluster.py: class AgglomerativeClusteringOptimal *)

Module AgglomerativeClusteringOptimal.
Section Strategy.
Context `{L : Sklearn}.

Record t : Type := mk {
  max_clusters : Z;
  n_clusters : option Z;
  optimal_clusters : option Z;
  model : option AgglomerativeClustering.t
}.

(** [__init__(max_clusters=10, n_clusters=None)] *)
Definition init (max_clusters : Z) (n_clusters : option Z) : t :=
  mk max_clusters n_clusters None None.

Definition set_optimal_clusters (v : option Z) (self : t) : t :=
  mk (max_clusters self) (n_clusters self) v (model self).

Definition set_model (v : option AgglomerativeClustering.t) (self : t) : t :=
  mk (max_clusters self) (n_clusters self) (optimal_clusters self) v.

(** The body of the comprehension for one cluster [i]:
    [np.linalg.norm(data[cluster_labels == i] - centroids[i]) ** 2]. *)
Definition cluster_ss (data : Matrix) (cluster_labels : list Z)
    (centroids : list (list cell)) (i : Z) : cell :=
  frobenius_sq
    (map (fun r => vsub r (nth (Z.to_nat i) centroids []))
         (mask_rows data cluster_labels i)).

(** The within-cluster sum of squares of the partition [cluster_labels] of
    [data] into the clusters [0 .. n_clusters - 1]. *)
Definition wcss_of (data : Matrix) (n_clusters : Z) (cluster_labels : list Z) : cell :=
  let centroids :=
    map (fun i => mean_axis0 (ncols data) (mask_rows data cluster_labels i))
        (py_range 0 n_clusters) in
  csum (map (cluster_ss data cluster_labels centroids) (py_range 0 n_clusters)).

(** One turn of the loop of [calculate_wcss]. *)
Definition wcss_step (data : Matrix) (n_clusters : Z) : res cell :=
  match AgglomerativeClustering.fit data (AgglomerativeClustering.new n_clusters) with
  | (_, Ok clustering) =>
      match AgglomerativeClustering.labels_ clustering with
      | Some cluster_labels =>
          if Nat.eqb (length cluster_labels) (length data)
          then Ok (wcss_of data n_clusters cluster_labels)
          else Raise (IndexError "boolean index did not match indexed array")
      | None =>
          Raise (AttributeError
                   "'AgglomerativeClustering' object has no attribute 'labels_'")
      end
  | (_, Raise e) => Raise e
  end.

Definition calculate_wcss (self : t) (data : Matrix) : res (list cell) :=
  mapM (wcss_step data) (py_range 1 (max_clusters self + 1)).

Definition find_optimal_clusters (self : t) (data : Matrix) : res Z :=
  rbind (calculate_wcss self data) (fun wcss =>
    let first_derivative := np_diff wcss in
    let second_derivative := np_diff first_derivative in
    rbind (np_argmin second_derivative) (fun i =>
      let elbow_point := i + 2 in
      Ok elbow_point)).

(** [self.model.fit(X)]: re-fits the estimator held in the field, in place,
    and evaluates to that estimator. *)
Definition model_fit (X : Matrix) : M t AgglomerativeClustering.t :=
  fun self =>
    match model self with
    | Some est =>
        let (est', r) := AgglomerativeClustering.fit X est in
        (set_model (Some est') self, r)
    | None => (self, Raise (AttributeError "'NoneType' object has no attribute 'fit'"))
    end.

Definition fit (X : Matrix) : M t unit :=
  (self <- get ;;
   k <- match n_clusters self with
        | None => lift (find_optimal_clusters self X)
        | Some k => ret k
        end ;;
   modify (set_optimal_clusters (Some k)) ;;;
   modify (set_model (Some (AgglomerativeClustering.new k))) ;;;
   model_fit X ;;;
   ret tt)%py.

Definition predict (X : Matrix) : M t pyval :=
  (self <- get ;;
   match model self with
   | None => raise (ValueError unfitted_predict_message)
   | Some _ => est <- model_fit X ;; ret (Estimator est)
   end)%py.

Definition fit_predict (X : Matrix) : M t pyval :=
  (fit X ;;;
   v <- predict X ;;
   lift (get_labels_ v))%py.

Definition get_optimal_clusters : M t Z :=
  (self <- get ;;
   match optimal_clusters self with
   | None =>
       raise (ValueError
         "El modelo debe ser ajustado antes de obtener el número óptimo de clusters.")
   | Some k => ret k
   end)%py.
End Strategy.
End AgglomerativeClusteringOptimal.

(* ------------------------------------------------------------------------- *)
(** ** pandas

    A DataFrame is column-major and every column has one dtype, as in pandas.
    The price table of [load_data] is indexed by timestamp and holds floats
    only; it has a record of its own. *)

Inductive series : Type :=
| FloatS (l : list cell)
| IntS (l : list Z)
| StrS (l : list string)
| ObjS (l : list pyval).

Definition series_length (s : series) : nat :=
  match s with
  | FloatS l => length l
  | IntS l => length l
  | StrS l => length l
  | ObjS l => length l
  end.

Record DataFrame : Type := mkDataFrame {
  index : series;
  columns : list (string * series)
}.

Record PriceFrame : Type := mkPriceFrame {
  p_index : list Z;
  p_columns : list (string * list cell)
}.

(** The numbers of a float column, NaN skipped ([skipna=True], the default of
    every pandas reduction used here). *)
Definition numbers (l : list cell) : list Q :=
  flat_map (fun c => match c with Flt x => [x] | NaN => [] end) l.

Definition qmin (a b : Q) : Q := if Qle_bool a b then a else b.
Definition qmax (a b : Q) : Q := if Qle_bool a b then b else a.

Definition min_skipna (l : list cell) : cell :=
  match numbers l with
  | [] => NaN
  | x :: r => Flt (fold_left qmin r x)
  end.

Definition max_skipna (l : list cell) : cell :=
  match numbers l with
  | [] => NaN
  | x :: r => Flt (fold_left qmax r x)
  end.

Definition qsum (l : list Q) : Q := fold_left Qplus l 0%Q.

Definition mean_skipna (l : list cell) : cell :=
  match numbers l with
  | [] => NaN
  | x :: r => Flt (qsum (x :: r) / inject_Z (Z.of_nat (length (x :: r))))
  end.

(** Rounding to the nearest integer, ties to even, as [numpy.round] does. *)
Definition round_half_even (x : Q) : Z :=
  let f := Qfloor x in
  match (x - inject_Z f ?= 1 # 2)%Q with
  | Lt => f
  | Gt => f + 1
  | Eq => if Z.even f then f else f + 1
  end.

(** [.round(5)] *)
Definition round5 (c : cell) : cell :=
  match c with
  | NaN => NaN
  | Flt x => Flt (inject_Z (round_half_even (x * inject_Z 100000)) / inject_Z 100000)
  end.

(** [df[k] = v] on the columns: replace the column called [k], else append. *)
Fixpoint set_col {A : Type} (k : string) (v : A) (cols : list (string * A))
    : list (string * A) :=
  match cols with
  | [] => [(k, v)]
  | (k', v') :: r =>
      if String.eqb k' k then (k', v) :: r else (k', v') :: set_col k v r
  end.

(** The column labels left by assigning the labels [ks] one after the other:
    each label once, in the order of its first occurrence. *)
Definition add_key (ks : list string) (k : string) : list string :=
  if existsb (String.eqb k) ks then ks else ks ++ [k].

Definition unique_keys (ks : list string) : list string := fold_left add_key ks [].

Fixpoint get_col {A : Type} (k : string) (cols : list (string * A)) : option A :=
  match cols with
  | [] => None
  | (k', v) :: r => if String.eqb k' k then Some v else get_col k r
  end.

(** *** Joining the close series of the instruments: [pd.concat(frames, axis=1)] *)

Fixpoint insert_sorted (t : Z) (l : list Z) : list Z :=
  match l with
  | [] => [t]
  | x :: r =>
      if t <? x then t :: l
      else if t =? x then l
      else x :: insert_sorted t r
  end.

Definition union_index (frames : list (list (Z * cell))) : list Z :=
  fold_left (fun acc fr => fold_left (fun a p => insert_sorted (fst p) a) fr acc)
            frames [].

Definition lookup (t : Z) (fr : list (Z * cell)) : cell :=
  match find (fun p => fst p =? t) fr with
  | Some p => snd p
  | None => NaN
  end.

Fixpoint list_eqb {A : Type} (eqb : A -> A -> bool) (a b : list A) : bool :=
  match a, b with
  | [], [] => true
  | x :: a', y :: b' => eqb x y && list_eqb eqb a' b'
  | _, _ => false
  end.

Definition same_timestamps (frames : list (list (Z * cell))) : bool :=
  match frames with
  | [] => true
  | f :: r => forallb (fun g => list_eqb Z.eqb (map fst g) (map fst f)) r
  end.

(** The outer join on the timestamp.  Frames with one and the same index are put
    side by side; otherwise the index is the sorted union of the timestamps and
    a frame without a sample at a timestamp gets NaN there.  (Timestamps are
    taken to be unique within a series, as a price feed delivers them.) *)
Definition concat_close (frames : list (list (Z * cell)))
    : res (list Z * list (list cell)) :=
  match frames with
  | [] => Raise (ValueError "No objects to concatenate")
  | f :: _ =>
      if same_timestamps frames then Ok (map fst f, map (map snd) frames)
      else
        let idx := union_index frames in
        Ok (idx, map (fun fr => map (fun t => lookup t fr) idx) frames)
  end.

Definition keep_rows {A : Type} (keep : list bool) (l : list A) : list A :=
  map fst (filter snd (combine l keep)).

Definition row_complete (cols : list (list cell)) (i : nat) : bool :=
  forallb (fun c => negb (is_nan (nth i c NaN))) cols.

(** [df.dropna(inplace=True)]: the rows with a NaN in some column go. *)
Definition dropna (df : PriceFrame) : PriceFrame :=
  let keep := map (row_complete (map snd (p_columns df))) (seq 0 (length (p_index df))) in
  mkPriceFrame (keep_rows keep (p_index df))
               (map (fun c => (fst c, keep_rows keep (snd c))) (p_columns df)).

(** *** Frames of features *)

Definition series_eqb (a b : series) : bool :=
  match a, b with
  | StrS x, StrS y => list_eqb String.eqb x y
  | IntS x, IntS y => list_eqb Z.eqb x y
  | _, _ => false
  end.

(** [pd.concat(frames, axis=1)] for frames that carry one and the same index:
    the columns are put side by side.  The frames [calculate_er] builds always
    do (lemma [er_mean_aligned]); the outer join of frames with different
    string indexes is outside this development and reported as such. *)
Definition pd_concat_columns (frames : list DataFrame) : res DataFrame :=
  match frames with
  | [] => Raise (ValueError "No objects to concatenate")
  | f :: r =>
      if forallb (fun g => series_eqb (index g) (index f)) r
      then Ok (mkDataFrame (index f) (flat_map columns frames))
      else Raise (LibraryError "pandas" "outer join of different indexes")
  end.

Definition as_floats (s : series) : res (list cell) :=
  match s with
  | FloatS l => Ok l
  | IntS l => Ok (map (fun z => Flt (inject_Z z)) l)
  | StrS _ => Raise (TypeError "unsupported operand type(s) for -: 'str' and 'float'")
  | ObjS _ =>
      Raise (TypeError "unsupported operand type(s) for -: 'AgglomerativeClustering' and 'float'")
  end.

(** One column of [(df - df.min()) / (df.max() - df.min())]. *)
Definition minmax_column (l : list cell) : list cell :=
  map (fun x => cdiv (csub x (min_skipna l)) (csub (max_skipna l) (min_skipna l))) l.

Definition minmax_normalize (df : DataFrame) : res (list (string * list cell)) :=
  mapM (fun c => rbind (as_floats (snd c)) (fun l => Ok (fst c, minmax_column l)))
       (columns df).

(** The values of float columns as the row-major array scikit-learn sees. *)
Definition to_matrix (n : nat) (cols : list (list cell)) : Matrix :=
  map (fun i => map (fun c => nth i c NaN) cols) (seq 0 n).

(** [df[name] = values]: the values must be as many as the rows. *)
Definition setitem (name : string) (values : series) (df : DataFrame) : res DataFrame :=
  if Nat.eqb (series_length values) (series_length (index df))
  then Ok (mkDataFrame (index df) (set_col name values (columns df)))
  else Raise (ValueError "Length of values does not match length of index").

(** [df.iloc[:, :-1]] *)
Definition iloc_drop_last_column (df : DataFrame) : DataFrame :=
  mkDataFrame (index df) (removelast (columns df)).

(** [df.mean(axis=1)]: per row, the mean of the defined values. *)
Definition mean_axis1 (df : DataFrame) : res (list cell) :=
  rbind (mapM (fun c => as_floats (snd c)) (columns df)) (fun cols =>
    Ok (map (fun i => mean_skipna (map (fun c => nth i c NaN) cols))
            (seq 0 (series_length (index df))))).

(** The row means of a list of named float columns with [n] rows: for row
    [i], the mean over the columns. *)
Definition period_means (n : nat) (periods : list (string * list cell)) : list cell :=
  map (fun i => mean_skipna (map (fun c => nth i (snd c) NaN) periods)) (seq 0 n).

(** [df.reset_index(inplace=True)]: the index becomes the first column, called
    ["index"], and the rows are numbered from 0. *)
Definition reset_index (df : DataFrame) : DataFrame :=
  mkDataFrame (IntS (py_range 0 (Z.of_nat (series_length (index df)))))
              (("index"%string, index df) :: columns df).

(** [df.columns.values[0] = name] *)
Definition rename_first_column (name : string) (df : DataFrame) : res DataFrame :=
  match columns df with
  | [] => Raise (IndexError "index 0 is out of bounds for axis 0 with size 0")
  | (_, v) :: r => Ok (mkDataFrame (index df) ((name, v) :: r))
  end.

(** [df[[n1, n2, ...]]] *)
Definition getitem_list (names : list string) (df : DataFrame) : res DataFrame :=
  rbind (mapM (fun n => match get_col n (columns df) with
                        | Some v => Ok (n, v)
                        | None => Raise (KeyError n)
                        end) names)
        (fun cols => Ok (mkDataFrame (index df) cols)).

(** [str(n)] for an integer. *)
Definition str (n : Z) : string := NilZero.string_of_int (Z.to_int n).

(* ------------------------------------------------------------------------- *)
(** ** The market-data collaborators: the MetaTrader feed and pandas_ta *)

Class MarketData : Type := {
  (** [DataLoader().load_from_MT5(symbol, start_date, end_date, time_frame)]
      followed by [get_data()[['Close']]]: the close series by timestamp *)
  load_close : string -> string -> string -> string -> res (list (Z * cell));
  (** [ta.er(series, length=length)]: the rolling efficiency ratio, a series
      over the same rows.  (For a series shorter than the window pandas_ta hands
      back no series at all; the column the program then stores has no defined
      value, which is the all-NaN series here.) *)
  ta_er : list cell -> Z -> list cell
}.

(* ------------------------------------------------------------------------- *)
(** ** efr_classification.py: class EfficiencyRatioAnalysis *)

Module EfficiencyRatioAnalysis.
Section Analysis.
Context `{L : Sklearn} `{D : MarketData}.

Record t : Type := mk {
  tickers : list string;
  start_date : string;
  end_date : string;
  time_frame : string;
  init_period : Z;
  end_period : Z;
  n_clusters : option Z;
  df_tickers : option PriceFrame;
  df_er : option DataFrame;
  clusters_er : option DataFrame
}.

Definition set_df_tickers (v : PriceFrame) (self : t) : t :=
  mk (tickers self) (start_date self) (end_date self) (time_frame self)
     (init_period self) (end_period self) (n_clusters self)
     (Some v) (df_er self) (clusters_er self).

Definition set_df_er (v : DataFrame) (self : t) : t :=
  mk (tickers self) (start_date self) (end_date self) (time_frame self)
     (init_period self) (end_period self) (n_clusters self)
     (df_tickers self) (Some v) (clusters_er self).

Definition set_clusters_er (v : DataFrame) (self : t) : t :=
  mk (tickers self) (start_date self) (end_date self) (time_frame self)
     (init_period self) (end_period self) (n_clusters self)
     (df_tickers self) (df_er self) (Some v).

Definition load_data (self : t) : res PriceFrame :=
  rbind (mapM (fun symbol =>
                 load_close symbol (start_date self) (end_date self) (time_frame self))
              (tickers self))
        (fun frames =>
  rbind (concat_close frames) (fun df =>
    Ok (dropna (mkPriceFrame (fst df) (combine (tickers self) (snd df)))))).

(** The inner loop of [calculate_er] for one [length]: the frame [df_er]. *)
Definition er_frame (df_tickers : PriceFrame) (length : Z) : list (string * list cell) :=
  fold_left (fun df_er kv => set_col (fst kv) (ta_er (snd kv) length) df_er)
            (p_columns df_tickers) [].

(** [pd.DataFrame(value.mean().round(5), columns=[f'period_{key}'])] *)
Definition er_mean_frame (key : string) (value : list (string * list cell)) : DataFrame :=
  mkDataFrame (StrS (map fst value))
              [(("period_" ++ key)%string,
                FloatS (map (fun c => round5 (mean_skipna (snd c))) value))].

Definition calculate_er (self : t) : res DataFrame :=
  match df_tickers self with
  | None => Raise (AttributeError "'EfficiencyRatioAnalysis' object has no attribute 'df_tickers'")
  | Some prices =>
      let er_join :=
        map (fun length => (str length, er_frame prices length))
            (py_range (init_period self) (end_period self)) in
      let er_mean := map (fun kv => er_mean_frame (fst kv) (snd kv)) er_join in
      pd_concat_columns er_mean
  end.

Definition put_df_er (v : DataFrame) : M t unit := modify (set_df_er v).

Definition tickers_clusters_er : M t DataFrame :=
  (self <- get ;;
   match df_er self with
   | None => raise (AttributeError "'EfficiencyRatioAnalysis' object has no attribute 'df_er'")
   | Some df =>
       df_er_norm <- lift (minmax_normalize df) ;;
       let kmeans := KMeansClustering.init 10 42 (n_clusters self) in
       let X := to_matrix (series_length (index df)) (map snd df_er_norm) in
       cluster_labels <- lift (snd (KMeansClustering.fit_predict X kmeans)) ;;
       df1 <- lift (match cluster_labels with
                    | Ndarray labels => setitem "cluster_label" (IntS labels) df
                    | Estimator _ =>
                        (* a value that is not an array is repeated down the column *)
                        setitem "cluster_label"
                                (ObjS (repeat cluster_labels (series_length (index df)))) df
                    end) ;;
       put_df_er df1 ;;;
       means <- lift (mean_axis1 (iloc_drop_last_column df1)) ;;
       df2 <- lift (setitem "mean_er" (FloatS means) df1) ;;
       put_df_er df2 ;;;
       let df3 := reset_index df2 in
       put_df_er df3 ;;;
       df4 <- lift (rename_first_column "symbol" df3) ;;
       put_df_er df4 ;;;
       lift (getitem_list ["symbol"; "mean_er"; "cluster_label"]%string df4)
   end)%py.

(** [__init__]: the object under construction, and whether construction
    returned. *)
Definition init (tickers : list string) (start_date end_date time_frame : string)
    (init_period end_period : Z) (n_clusters : option Z) : t * res unit :=
  (prices <- (fun self => (self, load_data self)) ;;
   modify (set_df_tickers prices) ;;;
   features <- (fun self => (self, calculate_er self)) ;;
   modify (set_df_er features) ;;;
   table <- tickers_clusters_er ;;
   modify (set_clusters_er table))%py
    (mk tickers start_date end_date time_frame init_period end_period n_clusters
        None None None).
End Analysis.
End EfficiencyRatioAnalysis.

(* ------------------------------------------------------------------------- *)
(** ** efr_classification.py: the colour table of [graph_clusters_er]

    The chart itself is drawn by matplotlib; what the method computes on its
    own is the colour of each cluster. *)

(** [l[i]] on a Python list: a negative index counts from the end. *)
Definition py_getitem {A : Type} (l : list A) (i : Z) : res A :=
  let n := Z.of_nat (length l) in
  let j := if i <? 0 then n + i else i in
  if (0 <=? j) && (j <? n) then
    match nth_error l (Z.to_nat j) with
    | Some x => Ok x
    | None => Raise (IndexError "list index out of range")
    end
  else Raise (IndexError "list index out of range").

Definition colors : list string :=
  ["#1f77b4"; "#ff7f0e"; "#2ca02c"; "#d62728"; "#9467bd"]%string.

(** [{i: colors[i] for i in range(self.n_clusters)}] *)
Definition cluster_colors (n_clusters : option Z) : res (list (Z * string)) :=
  match n_clusters with
  | None => Raise (TypeError "'NoneType' object cannot be interpreted as an integer")
  | Some n => mapM (fun i => rbind (py_getitem colors i) (fun c => Ok (i, c)))
                   (py_range 0 n)
  end.

(** [d[k]] on a dict with integer keys. *)
Fixpoint dict_getitem {A : Type} (d : list (Z * A)) (k : Z) : res A :=
  match d with
  | [] => Raise (KeyError (str k))
  | (k', v) :: r => if k' =? k then Ok v else dict_getitem r k
  end.

(* ------------------------------------------------------------------------- *)
(** ** data_loader.py

    The loader talks to the MetaTrader terminal, to Yahoo Finance, to the file
    system and to the clock; those answers are the fields of [LoaderEnv].  What
    the loader does to the terminal and to the console is kept as a trace of
    events, in the order of the calls. *)

Inductive Timeframe : Type :=
| TIMEFRAME_M1 | TIMEFRAME_M2 | TIMEFRAME_M3 | TIMEFRAME_M4 | TIMEFRAME_M5
| TIMEFRAME_M6 | TIMEFRAME_M10 | TIMEFRAME_M12 | TIMEFRAME_M15 | TIMEFRAME_M20
| TIMEFRAME_M30 | TIMEFRAME_H1 | TIMEFRAME_H2 | TIMEFRAME_H3 | TIMEFRAME_H4
| TIMEFRAME_H6 | TIMEFRAME_H8 | TIMEFRAME_H12 | TIMEFRAME_D1 | TIMEFRAME_W1
| TIMEFRAME_MN1.

(** The integers behind the names, as the MetaTrader5 package defines them:
    minutes as they are, hours with bit [0x4000] set ([TIMEFRAME_D1] is 24
    hours), the week with [0x8000] and the month with [0xC000].  The terminal
    receives this integer. *)
Definition mt5_value (tf : Timeframe) : Z :=
  match tf with
  | TIMEFRAME_M1 => 1 | TIMEFRAME_M2 => 2 | TIMEFRAME_M3 => 3 | TIMEFRAME_M4 => 4
  | TIMEFRAME_M5 => 5 | TIMEFRAME_M6 => 6 | TIMEFRAME_M10 => 10 | TIMEFRAME_M12 => 12
  | TIMEFRAME_M15 => 15 | TIMEFRAME_M20 => 20 | TIMEFRAME_M30 => 30
  | TIMEFRAME_H1 => Z.lor 1 0x4000 | TIMEFRAME_H2 => Z.lor 2 0x4000
  | TIMEFRAME_H3 => Z.lor 3 0x4000 | TIMEFRAME_H4 => Z.lor 4 0x4000
  | TIMEFRAME_H6 => Z.lor 6 0x4000 | TIMEFRAME_H8 => Z.lor 8 0x4000
  | TIMEFRAME_H12 => Z.lor 12 0x4000 | TIMEFRAME_D1 => Z.lor 24 0x4000
  | TIMEFRAME_W1 => Z.lor 1 0x8000 | TIMEFRAME_MN1 => Z.lor 1 0xC000
  end.

Definition timeframe_mapping : list (string * Timeframe) :=
  [("1m", TIMEFRAME_M1); ("2m", TIMEFRAME_M2); ("3m", TIMEFRAME_M3);
   ("4m", TIMEFRAME_M4); ("5m", TIMEFRAME_M5); ("6m", TIMEFRAME_M6);
   ("10m", TIMEFRAME_M10); ("12m", TIMEFRAME_M12); ("15m", TIMEFRAME_M15);
   ("20m", TIMEFRAME_M20); ("30m", TIMEFRAME_M30); ("1h", TIMEFRAME_H1);
   ("2h", TIMEFRAME_H2); ("3h", TIMEFRAME_H3); ("4h", TIMEFRAME_H4);
   ("6h", TIMEFRAME_H6); ("8h", TIMEFRAME_H8); ("12h", TIMEFRAME_H12);
   ("1d", TIMEFRAME_D1); ("1w", TIMEFRAME_W1); ("1M", TIMEFRAME_MN1)]%string.

(** [str(e)] of an exception: its message; for a [KeyError] the quoted key. *)
Definition exn_str (e : exn) : string :=
  match e with
  | ValueError msg => msg
  | IndexError msg => msg
  | AttributeError msg => msg
  | NotFittedError msg => msg
  | TypeError msg => msg
  | KeyError key => ("'" ++ key ++ "'")%string
  | LibraryError _ msg => msg
  end.

(** *** Dates

    A date is its proleptic Gregorian ordinal, as in Python's [datetime]: day 1
    is 0001-01-01.  [ord2ymd] is the conversion [datetime] uses (cycles of 400,
    100, 4 and 1 years, then the month from the day of the year). *)
Definition days_in_month : list Z := [-1; 31; 28; 31; 30; 31; 30; 31; 31; 30; 31; 30; 31].

Definition days_before_month : list Z :=
  [-1; 0; 31; 59; 90; 120; 151; 181; 212; 243; 273; 304; 334].

Definition ord2ymd (n : Z) : Z * Z * Z :=
  let n := n - 1 in
  let n400 := n / 146097 in
  let n := n mod 146097 in
  let year := n400 * 400 + 1 in
  let n100 := n / 36524 in
  let n := n mod 36524 in
  let n4 := n / 1461 in
  let n := n mod 1461 in
  let n1 := n / 365 in
  let n := n mod 365 in
  let year := year + n100 * 100 + n4 * 4 + n1 in
  if (n1 =? 4) || (n100 =? 4) then (year - 1, 12, 31)
  else
    let leapyear := (n1 =? 3) && (negb (n4 =? 24) || (n100 =? 3)) in
    let month := Z.shiftr (n + 50) 5 in
    let preceding :=
      nth (Z.to_nat month) days_before_month 0
      + (if (2 <? month) && leapyear then 1 else 0) in
    if n <? preceding then
      let month := month - 1 in
      let preceding :=
        preceding - (nth (Z.to_nat month) days_in_month 0
                     + (if (month =? 2) && leapyear then 1 else 0)) in
      (year, month, n - preceding + 1)
    else (year, month, n - preceding + 1).

Definition zero_padded (width : nat) (n : Z) : string :=
  let digits := NilZero.string_of_int (Z.to_int n) in
  (String.concat "" (repeat "0"%string (width - String.length digits)) ++ digits)%string.

(** [d.strftime('%Y-%m-%d')].  The year is printed with four digits (below the
    year 1000 the C library decides whether zeros are added; the clock of a
    running system does not read such a year). *)
Definition strftime_ymd (ordinal : Z) : string :=
  let '(y, m, d) := ord2ymd ordinal in
  (zero_padded 4 y ++ "-" ++ zero_padded 2 m ++ "-" ++ zero_padded 2 d)%string.

(** [d - timedelta(days=days)]: a date before 0001-01-01 does not exist. *)
Definition timedelta_sub (ordinal days : Z) : res Z :=
  if 1 <=? ordinal - days then Ok (ordinal - days)
  else Raise (LibraryError "OverflowError" "date value out of range").

(** The order of the calendar on (year, month, day), and the same day of the
    month ten years earlier (which need not exist: 29 February). *)
Definition ymd_ltb (a b : Z * Z * Z) : bool :=
  let '(y, m, d) := a in
  let '(y', m', d') := b in
  (y <? y') || ((y =? y') && ((m <? m') || ((m =? m') && (d <? d')))).

Definition ten_years_before (a : Z * Z * Z) : Z * Z * Z :=
  let '(y, m, d) := a in (y - 10, m, d).

(** [3650] days back is after the same day ten years earlier, and [3653] days
    back is not. *)
Definition short_of_ten_years (n : Z) : bool :=
  ymd_ltb (ten_years_before (ord2ymd n)) (ord2ymd (n - 3650))
  && negb (ymd_ltb (ten_years_before (ord2ymd n)) (ord2ymd (n - 3653))).

Fixpoint all_from (check : Z -> bool) (fuel : nat) (n : Z) : bool :=
  match fuel with
  | O => true
  | S fuel' => check n && all_from check fuel' (Z.succ n)
  end.

(** [try: body except Exception as e: raise ValueError(prefix + str(e))] *)
Definition reraise_as_ValueError {S A : Type} (prefix : string) (body : M S A) : M S A :=
  fun s =>
    match body s with
    | (s', Ok a) => (s', Ok a)
    | (s', Raise e) => (s', Raise (ValueError (prefix ++ exn_str e)))
    end.

Class LoaderEnv : Type := {
  (** a pandas DataFrame as the loader holds it; a [datetime]; the answer of
      [copy_rates_range] (an array of rates, or [None]) *)
  Frame : Type;
  Moment : Type;
  Rates : Type;
  (** [mt5.initialize()] *)
  mt5_initialize : bool;
  (** [mt5.copy_rates_range(symbol, time_frame, date_from, date_to)] *)
  mt5_copy_rates_range : string -> option Timeframe -> Moment -> Moment -> res Rates;
  (** [dt.datetime.strptime(s, '%Y-%m-%d')] and [.astimezone(dt.timezone.utc)] *)
  strptime_ymd : string -> res Moment;
  astimezone_utc : Moment -> Moment;
  (** [pd.DataFrame(rates)] *)
  frame_of_rates : Rates -> res Frame;
  (** [df['date'] = pd.to_datetime(df['time'], unit='s')] *)
  with_date_column : Frame -> res Frame;
  (** [df.set_index(df['date'])] *)
  set_index_date : Frame -> res Frame;
  (** [df.loc[:, ['open', 'high', 'low', 'close', 'spread']]] *)
  loc_ohlc_spread : Frame -> res Frame;
  (** [df.columns = ['Open', 'High', 'Low', 'Close', 'Spread']] *)
  rename_ohlc_spread : Frame -> res Frame;
  (** [df.copy()] *)
  frame_copy : Frame -> Frame;
  (** [pd.read_csv(filepath)] *)
  pd_read_csv : string -> res Frame;
  (** [df[c] = pd.to_datetime(df[c])] *)
  to_datetime_column : string -> Frame -> res Frame;
  (** [df.set_index(c, inplace=True)] *)
  set_index_column : string -> Frame -> res Frame;
  (** [yf.Ticker(symbol).history(period=period, interval=interval)] *)
  yf_history_period : string -> string -> string -> res Frame;
  (** [yf.Ticker(symbol).history(start=start, end=end, interval=interval)] *)
  yf_history_range : string -> string -> string -> string -> res Frame;
  (** [datetime.now()]: the local date the clock reads, as an ordinal.  The
      argument counts the readings made so far within one call: the clock may
      pass midnight between two of them. *)
  datetime_now : nat -> Z;
  (** [df.index.name = 'Date'] *)
  name_index_Date : Frame -> res Frame;
  (** [df[['Open', 'High', 'Low', 'Close', 'Volume']]] *)
  getitem_ohlcv : Frame -> res Frame
}.

Module DataLoader.
Section Loader.
Context `{E : LoaderEnv}.

Inductive event : Type :=
| Printed (line : string)
| Mt5Initialize
| Mt5Shutdown
| Mt5CopyRatesRange (symbol : string) (time_frame : option Timeframe)
                    (date_from date_to : Moment).

(** The loader object ([self.data]) and the trace of what it did so far. *)
Record t : Type := mk {
  data : option Frame;
  trace : list event
}.

(** [__init__] *)
Definition init : t := mk None [].

Definition emit (ev : event) : M t unit :=
  fun self => (mk (data self) (trace self ++ [ev]), Ok tt).

Definition set_data (v : Frame) : M t unit :=
  fun self => (mk (Some v) (trace self), Ok tt).

(** [self.data = f(self.data)] for a pandas step [f], and the same for a step
    that changes the frame in place. *)
Definition update_data (f : Frame -> res Frame) : M t unit :=
  fun self =>
    match data self with
    | Some df =>
        match f df with
        | Ok df' => (mk (Some df') (trace self), Ok tt)
        | Raise e => (self, Raise e)
        end
    | None => (self, Raise (TypeError "'NoneType' object is not subscriptable"))
    end.

(** [map_timeframes]: the table lookup; an unknown key is reported on the
    console and the function returns [None]. *)
Definition map_timeframes (time_frame : string) : M t (option Timeframe) :=
  match get_col time_frame timeframe_mapping with
  | Some tf => ret (Some tf)
  | None =>
      (emit (Printed ("Timeframe " ++ time_frame ++ " is not valid.")) ;;;
       ret None)%py
  end.

Definition load_from_csv (filepath date_column : string) : M t unit :=
  reraise_as_ValueError "Failed to load data from csv file: "
    (df <- lift (pd_read_csv filepath) ;;
     set_data df ;;;
     update_data (to_datetime_column date_column) ;;;
     update_data (set_index_column date_column))%py.

(** [if x:] on an optional string: [None] and the empty string are false. *)
Definition truthy (x : option string) : bool :=
  match x with
  | Some s => negb (String.eqb s "")
  | None => false
  end.

Definition load_from_yfinance (symbol : string) (start_date end_date period : option string)
    (interval : string) : M t unit :=
  reraise_as_ValueError "Failed to load data from Yahoo Finance: "
    (df <- lift (if truthy period then
                   yf_history_period symbol (match period with Some p => p | None => "" end)
                                     interval
                 else
                   let readings :=
                     match end_date with Some _ => 0%nat | None => 1%nat end in
                   let end_date :=
                     match end_date with
                     | Some d => d
                     | None => strftime_ymd (datetime_now 0)
                     end in
                   rbind (match start_date with
                          | Some d => Ok d
                          | None =>
                              rbind (timedelta_sub (datetime_now readings) (10 * 365))
                                    (fun day => Ok (strftime_ymd day))
                          end)
                         (fun start_date =>
                            yf_history_range symbol start_date end_date interval)) ;;
     set_data df ;;;
     update_data name_index_Date ;;;
     update_data getitem_ohlcv)%py.

Definition load_from_MT5 (symbol start_date end_date time_frame : string) : M t unit :=
  (emit Mt5Initialize ;;;
   (if mt5_initialize then ret tt
    else (emit (Printed "initialize() failed") ;;; emit Mt5Shutdown)) ;;;
   reraise_as_ValueError "Failed to load data from Metatrader: "
     (start_date <- lift (strptime_ymd start_date) ;;
      let start_utc := astimezone_utc start_date in
      end_date <- lift (strptime_ymd end_date) ;;
      let end_utc := astimezone_utc end_date in
      time_frame <- map_timeframes time_frame ;;
      emit (Mt5CopyRatesRange symbol time_frame start_utc end_utc) ;;;
      rates <- lift (mt5_copy_rates_range symbol time_frame start_utc end_utc) ;;
      df <- lift (frame_of_rates rates) ;;
      set_data df ;;;
      update_data with_date_column ;;;
      update_data set_index_date ;;;
      update_data loc_ohlc_spread ;;;
      update_data rename_ohlc_spread ;;;
      emit Mt5Shutdown))%py.

Definition get_data : M t Frame :=
  (self <- get ;;
   match data self with
   | Some df => ret (frame_copy df)
   | None => raise (AttributeError "'NoneType' object has no attribute 'copy'")
   end)%py.
End Loader.
End DataLoader.

(* ------------------------------------------------------------------------- *)
(** ** The within-cluster sum of squares, in the words of the specification

    "Within-cluster sum of squared distances to centroids recomputed post-hoc
    from the hierarchical partition."  Written from those words, over the
    rationals, for data without undefined entries: the points of a cluster,
    their centroid (the coordinate-wise arithmetic mean), the squared Euclidean
    distance of a point to it, the sum over the points of a cluster, and the
    sum over the clusters [0 .. k-1].  [AgglomerativeClusteringOptimal.wcss_of]
    is what the code computes; the two are compared in [wcss_of_holds]. *)
Module WCSS.
(** The points that the partition [labels] puts into cluster [i]. *)
Fixpoint members (points : list (list Q)) (labels : list Z) (i : Z) : list (list Q) :=
  match points, labels with
  | p :: points', l :: labels' =>
      if Z.eqb l i then p :: members points' labels' i else members points' labels' i
  | _, _ => []
  end.

(** The sum of a list of rationals. *)
Fixpoint total (l : list Q) : Q :=
  match l with
  | [] => 0%Q
  | x :: r => (x + total r)%Q
  end.

(** The centroid of a cluster of points of dimension [d]. *)
Definition centroid (d : nat) (points : list (list Q)) : list Q :=
  map (fun j => (total (map (fun p => nth j p 0%Q) points)
                 / inject_Z (Z.of_nat (length points)))%Q)
      (seq 0 d).

(** The squared Euclidean distance between two points. *)
Fixpoint squared_distance (p c : list Q) : Q :=
  match p, c with
  | x :: p', y :: c' => ((x - y) ^ 2 + squared_distance p' c')%Q
  | _, _ => 0%Q
  end.

(** The sum, over the points of one cluster, of the squared distance to the
    centroid of that cluster. *)
Definition cluster_sum_of_squares (d : nat) (points : list (list Q)) : Q :=
  total (map (fun p => squared_distance p (centroid d points)) points).

(** The sum of that over the clusters [0 .. k-1] of the partition. *)
Definition within_cluster_sum_of_squares
    (points : list (list Q)) (k : Z) (labels : list Z) : Q :=
  total (map (fun i => cluster_sum_of_squares (length (hd [] points))
                         (members points labels (Z.of_nat i)))
             (seq 0 (Z.to_nat k))).
End WCSS.

(** A cell that holds the rational [q], up to the equality of fractions. *)
Definition holds (c : cell) (q : Q) : Prop := exists x, c = Flt x /\ (x == q)%Q.


(** The two-step use of a strategy: [s.fit(X)] and then, if that returned,
    [s.predict(X)]. *)
Definition two_step {S : Type} (fit : Matrix -> M S unit)
    (predict : Matrix -> M S pyval) (X : Matrix) : M S pyval :=
  fun s =>
    match fit X s with
    | (s', Ok _) => predict X s'
    | (s', Raise e) => (s', Raise e)
    end.

(* ------------------------------------------------------------------------- *)
(** ** A small executable library instance

    A deterministic instance of [Sklearn], so that the strategies can be run on
    concrete inputs.  It validates its input the way scikit-learn does (no NaN,
    a positive number of clusters not above the number of samples); the
    partitions themselves are simple stand-ins: the first [k] rows serve as
    centres for the centroid and mixture models, and the hierarchical stand-in
    labels row [i] with [min i (k-1)]. *)

Module Demo.
Definition has_nan (X : Matrix) : bool := existsb (existsb is_nan) X.

Definition check_input (k : Z) (X : Matrix) : res unit :=
  if has_nan X then Raise (ValueError "Input X contains NaN.")
  else if k <=? 0 then
    Raise (LibraryError "InvalidParameterError"
                        "The 'n_clusters' parameter must be an int in the range [1, inf).")
  else if Z.of_nat (length X) <? k then
    Raise (ValueError "n_samples should be >= n_clusters.")
  else Ok tt.

Definition sqdist (r c : list cell) : cell :=
  csum (map (fun x => cmul x x) (vsub r c)).

Definition nearest (centers : Matrix) (r : list cell) : Z :=
  match np_argmin (map (sqdist r) centers) with
  | Ok i => i
  | Raise _ => 0
  end.

(** The attributes a failed [fit] leaves are modelled by an empty list of
    centres: [n_features_in_] is there, the centres are not. *)
Definition assign (missing : string) (centers : Matrix) (X : Matrix) : res (list Z) :=
  if has_nan X then Raise (ValueError "Input X contains NaN.")
  else match centers with
       | [] => Raise (AttributeError missing)
       | _ => Ok (map (nearest centers) X)
       end.

(** A [fit] that raises has set [n_features_in_] when the array and the
    parameters were valid and only the count exceeded the number of samples. *)
Definition leftover (k : Z) (X : Matrix) : option Matrix :=
  if has_nan X then None
  else if k <=? 0 then None
  else if Z.of_nat (length X) <? k then Some []
  else None.

Definition kmeans_leftover (before : option Matrix) (k : option Z) (seed : Z) (X : Matrix)
    : option Matrix :=
  match before, k with
  | Some m, _ => Some m
  | None, Some k => leftover k X
  | None, None => None
  end.

Definition gmm_leftover (before : option (Z * Matrix)) (n seed : Z) (X : Matrix)
    : option (Z * Matrix) :=
  match before with
  | Some m => Some m
  | None => option_map (fun c => (n, c)) (leftover n X)
  end.

Definition kmeans_fit (k : option Z) (seed : Z) (X : Matrix) : res Matrix :=
  match k with
  | Some k => rbind (check_input k X) (fun _ => Ok (firstn (Z.to_nat k) X))
  | None =>
      Raise (LibraryError "InvalidParameterError"
                          "The 'n_clusters' parameter must be an int in the range [1, inf).")
  end.

Definition elbow_value (seed : Z) (k : Z * Z) (X : Matrix) : res (option Z) :=
  rbind (check_input (fst k) X) (fun _ =>
    if (length X <? 3)%nat then Ok None else Ok (Some (fst k))).

Definition gmm_fit (n seed : Z) (X : Matrix) : res (Z * Matrix) :=
  rbind (check_input n X) (fun _ => Ok (n, firstn (Z.to_nat n) X)).

Definition gmm_aic (m : Z * Matrix) (X : Matrix) : cell :=
  Flt (inject_Z ((fst m - 2) * (fst m - 2))).

Definition gmm_bic (m : Z * Matrix) (X : Matrix) : cell :=
  Flt (inject_Z ((fst m - 1) * (fst m - 1))).

Definition agglomerative_labels (k : Z) (X : Matrix) : res (list Z) :=
  rbind (check_input k X) (fun _ =>
    Ok (map (fun i => Z.min i (k - 1)) (py_range 0 (Z.of_nat (length X))))).

#[global] Instance library : Sklearn := {|
  KMeansModel := Matrix;
  sk_kmeans_fit := kmeans_fit;
  sk_kmeans_fit_leftover := kmeans_leftover;
  sk_kmeans_predict := assign "'KMeans' object has no attribute 'cluster_centers_'";
  yb_elbow_value := elbow_value;
  GaussianModel := (Z * Matrix)%type;
  sk_gmm_fit := gmm_fit;
  sk_gmm_fit_leftover := gmm_leftover;
  sk_gmm_predict :=
    fun m X => assign "'GaussianMixture' object has no attribute 'means_'" (snd m) X;
  sk_gmm_aic := gmm_aic;
  sk_gmm_bic := gmm_bic;
  sk_agglomerative_labels := agglomerative_labels
|}.

Definition q (n : Z) : cell := Flt (inject_Z n).

(** Two one-dimensional samples. *)
Definition X2 : Matrix := [[q 0]; [q 1]].

(** Four one-dimensional samples in two tight pairs. *)
Definition X4 : Matrix := [[q 0]; [q 1]; [q 10]; [q 11]].

(** The feed: six hourly closes for [A], [C], [E] and [F], two for [B]. *)
Definition closes (l : list Z) : list (Z * cell) :=
  combine (py_range 0 (Z.of_nat (length l))) (map q l).

Definition feed (symbol start_date end_date time_frame : string)
    : res (list (Z * cell)) :=
  if String.eqb symbol "A" then Ok (closes [10; 11; 13; 12; 15; 16])
  else if String.eqb symbol "B" then Ok (closes [20; 21])
  else if String.eqb symbol "C" then Ok (closes [5; 4; 6; 5; 7; 6])
  else if String.eqb symbol "E" then Ok (closes [30; 31; 32; 33; 34; 35])
  else if String.eqb symbol "F" then Ok (closes [40; 42; 44; 46; 48; 50])
  else Raise (ValueError "Failed to load data from Metatrader: no rates returned").

Definition cabs (c : cell) : cell :=
  match c with NaN => NaN | Flt x => Flt (Qabs x) end.

(** The efficiency ratio as pandas_ta computes it: the absolute change over
    [length] bars divided by the sum of the absolute bar-to-bar changes over
    the same bars; undefined on the first [length] rows. *)
Definition efficiency_ratio (close : list cell) (length : Z) : list cell :=
  let w := Z.to_nat (if 0 <? length then length else 10) in
  map (fun t =>
         if (t <? w)%nat then NaN
         else cdiv (cabs (csub (nth t close NaN) (nth (t - w) close NaN)))
                   (csum (map (fun i => cabs (csub (nth i close NaN)
                                                   (nth (i - 1) close NaN)))
                              (seq (t - w + 1) w))))
      (seq 0 (List.length close)).

#[global] Instance market : MarketData := {|
  load_close := feed;
  ta_er := efficiency_ratio
|}.

(** [EfficiencyRatioAnalysis(tickers, "2015-01-01", "2015-01-02", "1h",
    init_period, end_period, n_clusters)] on the feed. *)
Definition analysis (tickers : list string) (init_period end_period : Z)
    (n_clusters : option Z) : EfficiencyRatioAnalysis.t * res unit :=
  EfficiencyRatioAnalysis.init tickers "2015-01-01" "2015-01-02" "1h"
                               init_period end_period n_clusters.

(** The feature frame of [A], [C] and [E] for the lookbacks 2 and 3, as
    [calculate_er] computes it from the feed. *)
Definition periods3 : list (string * list cell) :=
  [("period_2"%string, [Flt (70833 # 100000); Flt (33333 # 100000); Flt (100000 # 100000)]);
   ("period_3"%string, [Flt (58889 # 100000); Flt (20000 # 100000); Flt (100000 # 100000)])].

Definition featured : EfficiencyRatioAnalysis.t :=
  EfficiencyRatioAnalysis.mk ["A"; "C"; "E"]%string "2015-01-01" "2015-01-02" "1h"
    2 4 (Some 2) None
    (Some (mkDataFrame (StrS ["A"; "C"; "E"]%string)
                       (map (fun c => (fst c, FloatS (snd c))) periods3)))
    None.

(** The feature frame of the two pure trends [E] and [F]: every efficiency
    ratio is 1, so both columns are constant. *)
Definition periods_flat : list (string * list cell) :=
  [("period_2"%string, [Flt (100000 # 100000); Flt (100000 # 100000)]);
   ("period_3"%string, [Flt (100000 # 100000); Flt (100000 # 100000)])].

Definition flat : EfficiencyRatioAnalysis.t :=
  EfficiencyRatioAnalysis.mk ["E"; "F"]%string "2015-01-01" "2015-01-02" "1h"
    2 4 (Some 2)
    (Some (mkPriceFrame [0; 1; 2; 3; 4; 5]
             [("E"%string, map q [30; 31; 32; 33; 34; 35]);
              ("F"%string, map q [40; 42; 44; 46; 48; 50])]))
    (Some (mkDataFrame (StrS ["E"; "F"]%string)
                       (map (fun c => (fst c, FloatS (snd c))) periods_flat)))
    None.
End Demo.

(** A small world for the loader: a terminal that knows one symbol, one CSV
    file, and frames reduced to the name of their index and the names of their
    columns. *)
Module DemoLoader.
Definition frame : Type := (option string * list string)%type.

Definition has (c : string) (df : frame) : bool := existsb (String.eqb c) (snd df).

Definition need (c : string) (df : frame) (k : res frame) : res frame :=
  if has c df then k else Raise (KeyError c).

Definition rate_columns : list string :=
  ["time"; "open"; "high"; "low"; "close"; "tick_volume"; "spread"; "real_volume"]%string.

Definition parse_date (s : string) : res string :=
  if Nat.eqb (String.length s) 10 then Ok s
  else Raise (ValueError ("time data '" ++ s ++ "' does not match format '%Y-%m-%d'")).

Definition copy_rates (symbol : string) (tf : option Timeframe) (a b : string)
    : res (option (list string)) :=
  match tf with
  | Some _ => if String.eqb symbol "EURUSD" then Ok (Some rate_columns) else Ok None
  | None => Ok None
  end.

Definition history_columns : list string :=
  ["Open"; "High"; "Low"; "Close"; "Volume"; "Dividends"; "Stock Splits"]%string.

Definition env (terminal_up : bool) : LoaderEnv := {|
  Frame := frame;
  Moment := string;
  Rates := option (list string);
  mt5_initialize := terminal_up;
  mt5_copy_rates_range := copy_rates;
  strptime_ymd := parse_date;
  astimezone_utc := fun m => m;
  frame_of_rates := fun r => Ok (None, match r with Some cols => cols | None => [] end);
  with_date_column := fun df => need "time" df (Ok (fst df, snd df ++ ["date"%string]));
  set_index_date := fun df => need "date" df (Ok (Some "date"%string, snd df));
  loc_ohlc_spread := fun df =>
    need "open" df (need "high" df (need "low" df (need "close" df (need "spread" df
      (Ok (fst df, ["open"; "high"; "low"; "close"; "spread"]%string))))));
  rename_ohlc_spread := fun df =>
    if Nat.eqb (length (snd df)) 5
    then Ok (fst df, ["Open"; "High"; "Low"; "Close"; "Spread"]%string)
    else Raise (ValueError "Length mismatch");
  frame_copy := fun df => df;
  pd_read_csv := fun path =>
    if String.eqb path "prices.csv"
    then Ok (None, ["Date"; "Open"; "High"; "Low"; "Close"; "Volume"]%string)
    else Raise (LibraryError "FileNotFoundError" "[Errno 2] No such file or directory");
  to_datetime_column := fun c df => need c df (Ok df);
  set_index_column := fun c df =>
    need c df (Ok (Some c, filter (fun x => negb (String.eqb x c)) (snd df)));
  yf_history_period := fun symbol period interval => Ok (Some "Date"%string, history_columns);
  yf_history_range := fun symbol a b interval => Ok (Some "Date"%string, history_columns);
  datetime_now := fun _ => 739924;
  name_index_Date := fun df => Ok (Some "Date"%string, snd df);
  getitem_ohlcv := fun df =>
    need "Open" df (need "High" df (need "Low" df (need "Close" df (need "Volume" df
      (Ok (fst df, ["Open"; "High"; "Low"; "Close"; "Volume"]%string))))))
|}.
End DemoLoader.

(* ========================================================================= *)
(** * Properties of the clustering strategies *)

Lemma kmeans_fit_predict_two_step `{L : Sklearn} (X : Matrix) (s : KMeansClustering.t) :
  KMeansClustering.fit_predict X s
  = two_step KMeansClustering.fit KMeansClustering.predict X s.
Proof.
  unfold KMeansClustering.fit_predict, two_step, bind.
  destruct (KMeansClustering.fit X s) as [s' [[]|e]]; reflexivity.
Qed.

Lemma gmm_fit_predict_two_step `{L : Sklearn} (X : Matrix) (s : GMMClustering.t) :
  GMMClustering.fit_predict X s
  = two_step GMMClustering.fit GMMClustering.predict X s.
Proof.
  unfold GMMClustering.fit_predict, two_step, bind.
  destruct (GMMClustering.fit X s) as [s' [[]|e]]; reflexivity.
Qed.

Ltac run_py :=
  repeat (cbn [bind ret raise lift get modify fst snd] in *;
          unfold bind, ret, raise, lift, get, modify in * ).

(** C1 (hierarchical variant): whenever [fit(X)] followed by [predict(X)]
    returns, the value [predict] hands back is the estimator object and not an
    array of labels; the labels [fit_predict(X)] returns are the [labels_]
    attribute of that object.  The docstring of [predict] announces an ndarray
    of labels, which is what the two sibling classes return. *)
Theorem agglomerative_predict_returns_estimator `{L : Sklearn}
    (X : Matrix) (s s' : AgglomerativeClusteringOptimal.t) (v : pyval) :
  two_step AgglomerativeClusteringOptimal.fit AgglomerativeClusteringOptimal.predict X s
    = (s', Ok v) ->
  (forall labels, v <> Ndarray labels) /\
  exists e labels,
    v = Estimator e /\
    AgglomerativeClustering.labels_ e = Some labels /\
    AgglomerativeClusteringOptimal.fit_predict X s = (s', Ok (Ndarray labels)).
Proof.
  unfold two_step, AgglomerativeClusteringOptimal.fit_predict.
  unfold bind at 1.
  destruct (AgglomerativeClusteringOptimal.fit X s) as [s1 [[]|e]]; [|discriminate].
  unfold AgglomerativeClusteringOptimal.predict, AgglomerativeClusteringOptimal.model_fit.
  run_py.
  destruct (AgglomerativeClusteringOptimal.model s1) as [est|] eqn:Hm;
    [rewrite Hm|discriminate].
  unfold AgglomerativeClustering.fit.
  destruct (sk_agglomerative_labels (AgglomerativeClustering.n_clusters est) X)
    as [l|e]; [|discriminate].
  cbn. intros H. injection H as <- <-.
  split; [discriminate|].
  eexists _, l. repeat split.
Qed.

Lemma agglomerative_predict_returns_estimator_witness :
  two_step AgglomerativeClusteringOptimal.fit AgglomerativeClusteringOptimal.predict
           Demo.X2 (AgglomerativeClusteringOptimal.init 10 (Some 2))
    = (AgglomerativeClusteringOptimal.mk 10 (Some 2) (Some 2)
         (Some (AgglomerativeClustering.mk 2 (Some [0; 1]))),
       Ok (Estimator (AgglomerativeClustering.mk 2 (Some [0; 1]))))
  /\ AgglomerativeClusteringOptimal.fit_predict Demo.X2
       (AgglomerativeClusteringOptimal.init 10 (Some 2))
    = (AgglomerativeClusteringOptimal.mk 10 (Some 2) (Some 2)
         (Some (AgglomerativeClustering.mk 2 (Some [0; 1]))),
       Ok (Ndarray [0; 1]))
  /\ forall labels,
       Estimator (AgglomerativeClustering.mk 2 (Some [0; 1])) <> Ndarray labels.
Proof.
  assert (H : two_step AgglomerativeClusteringOptimal.fit
                AgglomerativeClusteringOptimal.predict Demo.X2
                (AgglomerativeClusteringOptimal.init 10 (Some 2))
              = (AgglomerativeClusteringOptimal.mk 10 (Some 2) (Some 2)
                   (Some (AgglomerativeClustering.mk 2 (Some [0; 1]))),
                 Ok (Estimator (AgglomerativeClustering.mk 2 (Some [0; 1])))))
    by reflexivity.
  split; [exact H|].
  destruct (agglomerative_predict_returns_estimator Demo.X2 _ _ _ H)
    as [Hne (e' & l & Hv & Hl & Hfp)].
  split; [|exact Hne].
  injection Hv as <-. cbn in Hl. injection Hl as <-. exact Hfp.
Defined.

(** C6: [predict] on a strategy whose model field is still [None] (as
    [__init__] leaves it) raises the [ValueError] whose message tells the caller
    to call [fit(X)] first, and the object is exactly as it was: nothing is
    fitted on the way.  This holds for the three variants. *)
Theorem predict_before_fit_raises `{L : Sklearn} (X : Matrix) :
  (forall s, KMeansClustering.kmeans s = None ->
     KMeansClustering.predict X s = (s, Raise (ValueError unfitted_predict_message)))
  /\ (forall s, GMMClustering.gmm s = None ->
     GMMClustering.predict X s = (s, Raise (ValueError unfitted_predict_message)))
  /\ (forall s, AgglomerativeClusteringOptimal.model s = None ->
     AgglomerativeClusteringOptimal.predict X s
     = (s, Raise (ValueError unfitted_predict_message)))
  /\ String.index 0 "fit(X)" unfitted_predict_message = Some 65%nat.
Proof.
  repeat split.
  - intros s H. unfold KMeansClustering.predict. run_py. now rewrite H.
  - intros s H. unfold GMMClustering.predict. run_py. now rewrite H.
  - intros s H. unfold AgglomerativeClusteringOptimal.predict. run_py. now rewrite H.
Qed.

Lemma predict_before_fit_raises_witness :
  KMeansClustering.predict Demo.X2 (KMeansClustering.init 10 42 None)
    = (KMeansClustering.init 10 42 None, Raise (ValueError unfitted_predict_message))
  /\ GMMClustering.predict Demo.X2 (GMMClustering.init 10 "bic" None 42)
    = (GMMClustering.init 10 "bic" None 42, Raise (ValueError unfitted_predict_message))
  /\ AgglomerativeClusteringOptimal.predict Demo.X2
       (AgglomerativeClusteringOptimal.init 10 None)
    = (AgglomerativeClusteringOptimal.init 10 None,
       Raise (ValueError unfitted_predict_message)).
Proof.
  destruct (predict_before_fit_raises (L := Demo.library) Demo.X2) as (Hk & Hg & Ha & _).
  split; [apply Hk; reflexivity|].
  split; [apply Hg; reflexivity|apply Ha; reflexivity].
Defined.

(** C10: for the centroid and the mixture variant [predict] leaves every field
    of the strategy as it was, whatever the strategy and the input, so a second
    [predict(X)] gives the same answer as the first.  The hierarchical variant
    is different: on a fitted strategy its [predict] fits the stored estimator
    again, on the argument, and stores the result. *)
Theorem predict_frame `{L : Sklearn} (X : Matrix) :
  (forall s, fst (KMeansClustering.predict X s) = s)
  /\ (forall s, snd (KMeansClustering.predict X (fst (KMeansClustering.predict X s)))
              = snd (KMeansClustering.predict X s))
  /\ (forall s, fst (GMMClustering.predict X s) = s)
  /\ (forall s, snd (GMMClustering.predict X (fst (GMMClustering.predict X s)))
              = snd (GMMClustering.predict X s))
  /\ (forall s est labels,
        AgglomerativeClusteringOptimal.model s = Some est ->
        sk_agglomerative_labels (AgglomerativeClustering.n_clusters est) X = Ok labels ->
        AgglomerativeClusteringOptimal.predict X s
        = (AgglomerativeClusteringOptimal.set_model
             (Some (AgglomerativeClustering.mk
                      (AgglomerativeClustering.n_clusters est) (Some labels))) s,
           Ok (Estimator (AgglomerativeClustering.mk
                            (AgglomerativeClustering.n_clusters est) (Some labels))))).
Proof.
  assert (Hk : forall s, fst (KMeansClustering.predict X s) = s).
  { intros s. unfold KMeansClustering.predict. run_py.
    destruct (KMeansClustering.kmeans s) as [est|]; [|reflexivity].
    destruct (KMeans.predict est X); reflexivity. }
  assert (Hg : forall s, fst (GMMClustering.predict X s) = s).
  { intros s. unfold GMMClustering.predict. run_py.
    destruct (GMMClustering.gmm s) as [est|]; [|reflexivity].
    destruct (GaussianMixture.predict est X); reflexivity. }
  split; [exact Hk|]. split; [intros s; now rewrite Hk|].
  split; [exact Hg|]. split; [intros s; now rewrite Hg|].
  intros s est labels Hm Hl.
  unfold AgglomerativeClusteringOptimal.predict,
    AgglomerativeClusteringOptimal.model_fit, AgglomerativeClustering.fit.
  run_py. rewrite Hm. cbn. rewrite Hm, Hl. reflexivity.
Qed.

(** A run of the hierarchical variant where [predict] changes the object: the
    strategy is fitted on four samples and asked about two. *)
Lemma predict_frame_witness :
  AgglomerativeClusteringOptimal.predict Demo.X2
    (AgglomerativeClusteringOptimal.mk 10 (Some 2) (Some 2)
       (Some (AgglomerativeClustering.mk 2 (Some [0; 1; 1; 1]))))
  = (AgglomerativeClusteringOptimal.mk 10 (Some 2) (Some 2)
       (Some (AgglomerativeClustering.mk 2 (Some [0; 1]))),
     Ok (Estimator (AgglomerativeClustering.mk 2 (Some [0; 1]))))
  /\ fst (AgglomerativeClusteringOptimal.fit Demo.X4
            (AgglomerativeClusteringOptimal.init 10 (Some 2)))
     = AgglomerativeClusteringOptimal.mk 10 (Some 2) (Some 2)
         (Some (AgglomerativeClustering.mk 2 (Some [0; 1; 1; 1]))).
Proof.
  split; [|reflexivity].
  destruct (predict_frame (L := Demo.library) Demo.X2) as (_ & _ & _ & _ & H).
  apply (H (AgglomerativeClusteringOptimal.mk 10 (Some 2) (Some 2)
              (Some (AgglomerativeClustering.mk 2 (Some [0; 1; 1; 1]))))
           (AgglomerativeClustering.mk 2 (Some [0; 1; 1; 1])) [0; 1]);
    reflexivity.
Defined.

(* ------------------------------------------------------------------------- *)
(** ** numpy: the order on cells and [argmin] *)

Lemma Qltb_lt (x y : Q) : Qltb x y = true <-> (x < y)%Q.
Proof.
  unfold Qltb. rewrite Qlt_alt.
  destruct (x ?= y)%Q; split; intros H; try reflexivity; discriminate.
Qed.

Lemma Qltb_ge (x y : Q) : Qltb x y = false <-> (y <= x)%Q.
Proof.
  split; intros H.
  - apply Qnot_lt_le. intros Hlt. apply Qltb_lt in Hlt. congruence.
  - destruct (Qltb x y) eqn:E; [|reflexivity].
    apply Qltb_lt in E. exfalso. exact (Qlt_not_le _ _ E H).
Qed.

Lemma cell_le_Flt (x y : Q) : cell_le (Flt x) (Flt y) <-> (x <= y)%Q.
Proof. unfold cell_le. cbn. apply Qltb_ge. Qed.

Lemma cell_lt_Flt (x y : Q) : cell_lt (Flt x) (Flt y) <-> (x < y)%Q.
Proof. unfold cell_lt. cbn. apply Qltb_lt. Qed.

Lemma cell_ltb_irrefl (a : cell) : cell_ltb a a = false.
Proof.
  destruct a as [|x]; [reflexivity|]. cbn. apply Qltb_ge. apply Qle_refl.
Qed.

Lemma cell_ltb_trans (a b c : cell) :
  cell_ltb a b = true -> cell_ltb b c = true -> cell_ltb a c = true.
Proof.
  destruct a as [|x], b as [|y], c as [|z]; cbn; try discriminate; try reflexivity.
  rewrite !Qltb_lt. apply Qlt_trans.
Qed.

Lemma cell_ltb_asym (a b : cell) : cell_ltb a b = true -> cell_ltb b a = false.
Proof.
  destruct a as [|x], b as [|y]; cbn; try discriminate; try reflexivity.
  rewrite Qltb_lt, Qltb_ge. apply Qlt_le_weak.
Qed.

Lemma cell_ltb_lt_le (a b c : cell) :
  cell_ltb a b = true -> cell_ltb c b = false -> cell_ltb a c = true.
Proof.
  destruct a as [|x], b as [|y], c as [|z]; cbn; try discriminate; try reflexivity.
  rewrite !Qltb_lt, Qltb_ge. apply Qlt_le_trans.
Qed.

Lemma argmin_from_spec (l : list cell) :
  forall (best : cell) (bi i : nat),
    (argmin_from best bi i l = bi /\ Forall (fun y => cell_ltb y best = false) l)
    \/ exists k : nat,
         argmin_from best bi i l = (i + k)%nat /\ (k < length l)%nat /\
         cell_ltb (nth k l NaN) best = true /\
         (forall j, (j < length l)%nat -> cell_ltb (nth j l NaN) (nth k l NaN) = false) /\
         (forall j, (j < k)%nat -> cell_ltb (nth k l NaN) (nth j l NaN) = true).
Proof.
  induction l as [|x r IH]; intros best bi i.
  - left. split; [reflexivity|constructor].
  - cbn [argmin_from]. destruct (cell_ltb x best) eqn:Hx.
    + right. destruct (IH x i (S i)) as [[Hr Hall]|(k & Hr & Hk & Hlt & Hmin & Hfirst)].
      * exists 0%nat. rewrite Hr, Nat.add_0_r. cbn [length nth].
        repeat split; try lia; try assumption.
        -- intros [|j] Hj; [apply cell_ltb_irrefl|].
           rewrite Forall_forall in Hall. apply Hall, nth_In. lia.
      * exists (S k). rewrite Hr. cbn [length nth].
        repeat split; try lia.
        -- eapply cell_ltb_trans; eassumption.
        -- intros [|j] Hj; [now apply cell_ltb_asym|]. apply Hmin. lia.
        -- intros [|j] Hj; [assumption|]. apply Hfirst. lia.
    + destruct (IH best bi (S i)) as [[Hr Hall]|(k & Hr & Hk & Hlt & Hmin & Hfirst)].
      * left. split; [assumption|]. constructor; assumption.
      * right. exists (S k). rewrite Hr. cbn [length nth].
        assert (Hkx : cell_ltb (nth k r NaN) x = true)
          by (eapply cell_ltb_lt_le; eassumption).
        repeat split; try lia; try assumption.
        -- intros [|j] Hj; [now apply cell_ltb_asym|]. apply Hmin. lia.
        -- intros [|j] Hj; [assumption|]. apply Hfirst. lia.
Qed.

(** [np.argmin] returns an index of the sequence that holds a least element, and
    the first such index; it raises exactly on the empty sequence. *)
Lemma np_argmin_spec (l : list cell) (i : Z) :
  np_argmin l = Ok i ->
  0 <= i < Z.of_nat (length l) /\
  (forall j, (j < length l)%nat -> cell_le (nth (Z.to_nat i) l NaN) (nth j l NaN)) /\
  (forall j, (j < Z.to_nat i)%nat -> cell_lt (nth (Z.to_nat i) l NaN) (nth j l NaN)).
Proof.
  destruct l as [|x r]; [discriminate|].
  unfold np_argmin. intros H. injection H as <-.
  rewrite Nat2Z.id. unfold cell_le, cell_lt.
  destruct (argmin_from_spec r x 0 1) as [[Hr Hall]|(k & Hr & Hk & Hlt & Hmin & Hfirst)];
    rewrite Hr; cbn [length nth Nat.add].
  - repeat split; try lia.
    intros [|j] Hj; [apply cell_ltb_irrefl|].
    rewrite Forall_forall in Hall. apply Hall, nth_In. cbn in Hj. lia.
  - repeat split; try lia.
    + intros [|j] Hj; [now apply cell_ltb_asym|]. apply Hmin. cbn in Hj. lia.
    + intros [|j] Hj; [assumption|]. apply Hfirst. lia.
Qed.

Lemma np_argmin_nonempty (l : list cell) :
  l <> [] -> exists i, np_argmin l = Ok i.
Proof. destruct l; [congruence|]. intros _. eexists. reflexivity. Qed.

Lemma np_argmin_empty :
  np_argmin [] = Raise (ValueError "attempt to get argmin of an empty sequence").
Proof. reflexivity. Qed.

(* ------------------------------------------------------------------------- *)
(** ** Loops: [range] and the sweep *)

Lemma py_range_length (a b : Z) : length (py_range a b) = Z.to_nat (b - a).
Proof. unfold py_range. now rewrite length_map, length_seq. Qed.

Lemma py_range_nth (a b : Z) (i : nat) (d : Z) :
  (i < Z.to_nat (b - a))%nat -> nth i (py_range a b) d = a + Z.of_nat i.
Proof.
  intros H. unfold py_range.
  set (f := fun i : nat => a + Z.of_nat i).
  rewrite nth_indep with (d' := f 0%nat) by now rewrite length_map, length_seq.
  rewrite map_nth, seq_nth by assumption. reflexivity.
Qed.

Lemma nth_map_seq {A : Type} (f : nat -> A) (n i : nat) (d : A) :
  (i < n)%nat -> nth i (map f (seq 0 n)) d = f i.
Proof.
  intros H. rewrite nth_indep with (d' := f 0%nat) by now rewrite length_map, length_seq.
  rewrite map_nth, seq_nth by assumption. reflexivity.
Qed.

Lemma mapM_length {A B : Type} (f : A -> res B) (l : list A) (ys : list B) :
  mapM f l = Ok ys -> length ys = length l.
Proof.
  revert ys. induction l as [|x r IH]; intros ys H; cbn in H.
  - now injection H as <-.
  - destruct (f x) as [y|e]; [|discriminate]. cbn in H.
    destruct (mapM f r) as [ys'|e]; [|discriminate]. cbn in H.
    injection H as <-. cbn. f_equal. now apply IH.
Qed.

Lemma mapM_nth {A B : Type} (f : A -> res B) (l : list A) (ys : list B)
    (i : nat) (d : A) (d' : B) :
  mapM f l = Ok ys -> (i < length l)%nat -> f (nth i l d) = Ok (nth i ys d').
Proof.
  revert ys i. induction l as [|x r IH]; intros ys i H Hi; cbn in H.
  - cbn in Hi. lia.
  - destruct (f x) as [y|e] eqn:Hx; [|discriminate]. cbn in H.
    destruct (mapM f r) as [ys'|e]; [|discriminate]. cbn in H.
    injection H as <-. destruct i as [|i]; [exact Hx|].
    cbn. apply IH; [reflexivity|]. cbn in Hi. lia.
Qed.

(** The sweep succeeds as soon as every turn does. *)
Lemma mapM_total {A B : Type} (f : A -> res B) (l : list A) :
  (forall x, In x l -> exists y, f x = Ok y) -> exists ys, mapM f l = Ok ys.
Proof.
  induction l as [|x r IH]; intros H.
  - now exists [].
  - destruct (H x (or_introl eq_refl)) as [y Hy].
    destruct IH as [ys Hys]; [intros z Hz; apply H; now right|].
    exists (y :: ys). cbn. rewrite Hy. cbn. rewrite Hys. reflexivity.
Qed.

(* ------------------------------------------------------------------------- *)
(** ** Model selection *)

(** C4: with [n_components=None], a [fit] that returns has swept every count
    [1 .. max_components], fitted one mixture per count with the strategy's seed
    and scored it by the selected criterion (which is then ['aic'] or ['bic']);
    the chosen count [k] has a least score, every smaller count has a strictly
    larger one, and the model left in the object is the mixture with [k]
    components fitted on [X]. *)
Theorem gmm_fit_selects_minimum `{L : Sklearn} (X : Matrix) (s s' : GMMClustering.t) :
  GMMClustering.n_components s = None ->
  GMMClustering.fit X s = (s', Ok tt) ->
  exists (cs : list cell) (k : Z) (m : GaussianModel),
    GMMClustering.criterions s X = Ok cs /\
    length cs = Z.to_nat (GMMClustering.max_components s) /\
    (GMMClustering.criterion s = "aic"%string \/ GMMClustering.criterion s = "bic"%string) /\
    (forall n, 1 <= n <= GMMClustering.max_components s ->
       exists mn,
         sk_gmm_fit n (GMMClustering.random_state s) X = Ok mn /\
         nth (Z.to_nat (n - 1)) cs NaN
         = if String.eqb (GMMClustering.criterion s) "aic"
           then sk_gmm_aic mn X else sk_gmm_bic mn X) /\
    1 <= k <= GMMClustering.max_components s /\
    (forall n, 1 <= n <= GMMClustering.max_components s ->
       cell_le (nth (Z.to_nat (k - 1)) cs NaN) (nth (Z.to_nat (n - 1)) cs NaN)) /\
    (forall n, 1 <= n < k ->
       cell_lt (nth (Z.to_nat (k - 1)) cs NaN) (nth (Z.to_nat (n - 1)) cs NaN)) /\
    sk_gmm_fit k (GMMClustering.random_state s) X = Ok m /\
    s' = GMMClustering.mk (GMMClustering.max_components s) (GMMClustering.criterion s)
           None (GMMClustering.random_state s) (Some k)
           (Some (GaussianMixture.mk k (GMMClustering.random_state s) (Some m))).
Proof.
  intros Hn. unfold GMMClustering.fit. run_py. rewrite Hn.
  destruct (GMMClustering.criterions s X) as [cs|e] eqn:Hcs; [|discriminate].
  destruct (np_argmin cs) as [i|e] eqn:Hi; [|discriminate].
  unfold GMMClustering.gmm_fit, GMMClustering.set_gmm,
    GMMClustering.set_optimal_components, GaussianMixture.fit.
  cbn. rewrite Hn.
  destruct (sk_gmm_fit (i + 1) (GMMClustering.random_state s) X) as [m|e] eqn:Hm;
    [|discriminate].
  intros H. injection H as <-.
  pose proof (mapM_length _ _ _ Hcs) as Hlen. rewrite py_range_length in Hlen.
  destruct (np_argmin_spec _ _ Hi) as (Hrange & Hmin & Hfirst).
  assert (Hturn : forall n, 1 <= n <= GMMClustering.max_components s ->
            GMMClustering.score s X n = Ok (nth (Z.to_nat (n - 1)) cs NaN)).
  { intros n Hn1. unfold GMMClustering.criterions in Hcs.
    rewrite <- (mapM_nth _ _ _ (Z.to_nat (n - 1)) 0 NaN Hcs)
      by (rewrite py_range_length; lia).
    rewrite py_range_nth by lia. f_equal. lia. }
  exists cs, (i + 1), m.
  replace (i + 1 - 1) with i by lia.
  split; [reflexivity|]. split; [rewrite Hlen; f_equal; lia|].
  assert (Hcrit : GMMClustering.criterion s = "aic"%string
                  \/ GMMClustering.criterion s = "bic"%string).
  { assert (H1 : 1 <= 1 <= GMMClustering.max_components s) by lia.
    specialize (Hturn 1 H1). unfold GMMClustering.score, GaussianMixture.fit in Hturn.
    cbn in Hturn.
    destruct (sk_gmm_fit 1 (GMMClustering.random_state s) X); [|discriminate].
    destruct (String.eqb_spec (GMMClustering.criterion s) "aic"); [now left|].
    destruct (String.eqb_spec (GMMClustering.criterion s) "bic"); [now right|].
    discriminate. }
  split; [exact Hcrit|].
  split.
  { intros n Hn1. specialize (Hturn n Hn1).
    unfold GMMClustering.score, GaussianMixture.fit in Hturn. cbn in Hturn.
    destruct (sk_gmm_fit n (GMMClustering.random_state s) X) as [mn|e]; [|discriminate].
    exists mn. split; [reflexivity|].
    unfold GaussianMixture.aic, GaussianMixture.bic in Hturn. cbn in Hturn.
    destruct (String.eqb (GMMClustering.criterion s) "aic"); [congruence|].
    destruct Hcrit as [Hc|Hc]; rewrite Hc in Hturn; cbn in Hturn; congruence. }
  split; [lia|].
  split; [intros n Hn1; apply Hmin; lia|].
  split; [intros n Hn1; apply Hfirst; lia|].
  split; [exact Hm|reflexivity].
Qed.

Lemma gmm_fit_selects_minimum_witness :
  GMMClustering.fit Demo.X4 (GMMClustering.init 3 "aic" None 42)
  = (GMMClustering.mk 3 "aic" None 42 (Some 2)
       (Some (GaussianMixture.mk (L := Demo.library) 2 42
                (Some (2, [[Demo.q 0]; [Demo.q 1]])))), Ok tt)
  /\ exists cs k,
       GMMClustering.criterions (GMMClustering.init 3 "aic" None 42) Demo.X4 = Ok cs /\
       1 <= k <= 3 /\
       forall n, 1 <= n <= 3 ->
         cell_le (nth (Z.to_nat (k - 1)) cs NaN) (nth (Z.to_nat (n - 1)) cs NaN).
Proof.
  split; [reflexivity|].
  destruct (gmm_fit_selects_minimum (L := Demo.library) Demo.X4
              (GMMClustering.init 3 "aic" None 42)
              (GMMClustering.mk 3 "aic" None 42 (Some 2)
                 (Some (GaussianMixture.mk (L := Demo.library) 2 42
                (Some (2, [[Demo.q 0]; [Demo.q 1]])))))
              eq_refl eq_refl)
    as (cs & k & m & Hcs & _ & _ & _ & Hk & Hmin & _).
  exists cs, k. repeat split; try assumption; apply Hk.
Defined.

Lemma np_diff_length (l : list cell) : length (np_diff l) = (length l - 1)%nat.
Proof.
  induction l as [|x r IH]; [reflexivity|].
  destruct r as [|y r']; [reflexivity|].
  change (np_diff (x :: y :: r')) with (csub y x :: np_diff (y :: r')).
  cbn [length] in *. rewrite IH. lia.
Qed.

Lemma np_diff_nth (l : list cell) (j : nat) :
  (S j < length l)%nat ->
  nth j (np_diff l) NaN = csub (nth (S j) l NaN) (nth j l NaN).
Proof.
  revert j. induction l as [|x r IH]; intros j Hj; [cbn in Hj; lia|].
  destruct r as [|y r']; [cbn in Hj; lia|].
  change (np_diff (x :: y :: r')) with (csub y x :: np_diff (y :: r')).
  destruct j as [|j]; [reflexivity|].
  cbn [nth]. rewrite IH by (cbn [length] in *; lia). reflexivity.
Qed.

(** One turn of the WCSS sweep returns exactly when the library returns a
    labelling as long as the data. *)
Lemma wcss_step_inv `{L : Sklearn} (data : Matrix) (n : Z) (w : cell) :
  AgglomerativeClusteringOptimal.wcss_step data n = Ok w ->
  exists labels,
    sk_agglomerative_labels n data = Ok labels /\
    length labels = length data /\
    w = AgglomerativeClusteringOptimal.wcss_of data n labels.
Proof.
  unfold AgglomerativeClusteringOptimal.wcss_step, AgglomerativeClustering.fit.
  cbn. destruct (sk_agglomerative_labels n data) as [labels|e]; [|discriminate].
  cbn. destruct (Nat.eqb_spec (length labels) (length data)) as [Hlen|]; [|discriminate].
  intros H. injection H as <-. now exists labels.
Qed.

Lemma wcss_step_ok `{L : Sklearn} (data : Matrix) (n : Z) (labels : list Z) :
  sk_agglomerative_labels n data = Ok labels ->
  length labels = length data ->
  AgglomerativeClusteringOptimal.wcss_step data n
  = Ok (AgglomerativeClusteringOptimal.wcss_of data n labels).
Proof.
  intros Hl Hlen.
  unfold AgglomerativeClusteringOptimal.wcss_step, AgglomerativeClustering.fit.
  cbn. rewrite Hl. cbn. now rewrite Hlen, Nat.eqb_refl.
Qed.

(* ------------------------------------------------------------------------- *)
(** ** What [calculate_wcss] computes

    On an array of numbers whose rows have one width, the value the code
    computes for a partition is the within-cluster sum of squared distances to
    the centroids of that partition. *)

Lemma fold_cadd_holds (cs : list cell) (qs : list Q) :
  Forall2 holds cs qs ->
  forall a, exists x, fold_left cadd cs (Flt a) = Flt x /\ (x == a + WCSS.total qs)%Q.
Proof.
  induction 1 as [|c q cs qs (x & -> & Hx) _ IH]; intros a; cbn.
  - exists a. split; [reflexivity|ring].
  - destruct (IH (a + x)%Q) as (y & -> & Hy). exists y. split; [reflexivity|].
    rewrite Hy, Hx. ring.
Qed.

Lemma csum_holds (cs : list cell) (qs : list Q) :
  Forall2 holds cs qs -> holds (csum cs) (WCSS.total qs).
Proof.
  intros H. destruct (fold_cadd_holds cs qs H 0%Q) as (x & Hx & E).
  exists x. split; [exact Hx|]. rewrite E. ring.
Qed.

Lemma Forall2_map_In {A B C : Type} (R : B -> C -> Prop) (f : A -> B) (g : A -> C)
    (l : list A) :
  (forall x, In x l -> R (f x) (g x)) -> Forall2 R (map f l) (map g l).
Proof.
  induction l as [|x r IH]; intros H; cbn; constructor.
  - apply H. now left.
  - apply IH. intros y Hy. apply H. now right.
Qed.

Lemma mask_rows_members (points : list (list Q)) (labels : list Z) (i : Z) :
  mask_rows (map (map Flt) points) labels i = map (map Flt) (WCSS.members points labels i).
Proof.
  unfold mask_rows. revert labels.
  induction points as [|p ps IH]; intros [|l ls]; cbn; try reflexivity.
  destruct (Z.eqb l i); cbn; now rewrite IH.
Qed.

Lemma members_In (points : list (list Q)) (labels : list Z) (i : Z) (p : list Q) :
  In p (WCSS.members points labels i) -> In p points.
Proof.
  revert labels. induction points as [|x ps IH]; intros [|l ls]; cbn; try tauto.
  destruct (Z.eqb l i); cbn; intros H.
  - destruct H as [H|H]; [now left|right; eauto].
  - right; eauto.
Qed.

Lemma mean_axis0_holds (d : nat) (points : list (list Q)) :
  points <> [] ->
  (forall p, In p points -> length p = d) ->
  Forall2 holds (mean_axis0 d (map (map Flt) points)) (WCSS.centroid d points).
Proof.
  intros Hne Hlen. unfold mean_axis0, WCSS.centroid.
  apply Forall2_map_In. intros j Hj. apply in_seq in Hj.
  destruct (csum_holds (column j (map (map Flt) points))
              (map (fun p => nth j p 0%Q) points)) as (x & -> & Hx).
  { unfold column. rewrite map_map. apply Forall2_map_In. intros p Hp.
    exists (nth j p 0%Q). split; [|reflexivity].
    rewrite nth_indep with (d' := Flt 0) by (rewrite length_map, (Hlen p Hp); lia).
    apply (map_nth Flt). }
  cbn. rewrite length_map.
  assert (Hnz : ~ (inject_Z (Z.of_nat (length points)) == 0)%Q).
  { unfold Qeq. cbn. destruct points; [congruence|cbn; lia]. }
  destruct (Qeq_bool _ 0) eqn:E; [apply Qeq_bool_iff in E; contradiction|].
  eexists. split; [reflexivity|]. now rewrite Hx.
Qed.

Lemma squared_distance_holds (p : list Q) (cs : list cell) (c : list Q) :
  Forall2 holds cs c ->
  holds (csum (map (fun x => cmul x x) (vsub (map Flt p) cs)))
        (WCSS.squared_distance p c).
Proof.
  intros H.
  assert (G : forall p a, exists x,
             fold_left cadd (map (fun x => cmul x x) (vsub (map Flt p) cs)) (Flt a) = Flt x /\
             (x == a + WCSS.squared_distance p c)%Q).
  { induction H as [|y q cs c (x & -> & Hx) _ IH]; intros [|b p'] a; cbn;
      try (exists a; split; [reflexivity|ring]).
    destruct (IH p' (a + (b - x) * (b - x))%Q) as (z & -> & Hz).
    exists z. split; [reflexivity|]. rewrite Hz, Hx. ring. }
  destruct (G p 0%Q) as (x & Hx & E). exists x. split; [exact Hx|]. rewrite E. ring.
Qed.

Lemma cluster_ss_holds (d : nat) (points : list (list Q)) :
  (forall p, In p points -> length p = d) ->
  holds (frobenius_sq (map (fun r => vsub r (mean_axis0 d (map (map Flt) points)))
                           (map (map Flt) points)))
        (WCSS.cluster_sum_of_squares d points).
Proof.
  intros Hlen. unfold frobenius_sq, WCSS.cluster_sum_of_squares.
  destruct points as [|p0 ps] eqn:E; [exists 0%Q; split; reflexivity|].
  rewrite <- E in *. rewrite !map_map. apply csum_holds.
  apply Forall2_map_In. intros p _.
  apply squared_distance_holds, mean_axis0_holds; [rewrite E; discriminate|exact Hlen].
Qed.

Lemma wcss_of_holds `{L : Sklearn} (points : list (list Q)) (k : Z) (labels : list Z) :
  (forall p, In p points -> length p = length (hd [] points)) ->
  holds (AgglomerativeClusteringOptimal.wcss_of (map (map Flt) points) k labels)
        (WCSS.within_cluster_sum_of_squares points k labels).
Proof.
  intros Hlen.
  unfold AgglomerativeClusteringOptimal.wcss_of, WCSS.within_cluster_sum_of_squares.
  unfold py_range. rewrite Z.sub_0_r, !map_map. apply csum_holds.
  apply Forall2_map_In. intros i Hi. apply in_seq in Hi.
  unfold AgglomerativeClusteringOptimal.cluster_ss.
  replace (Z.to_nat (0 + Z.of_nat i)) with i by lia.
  rewrite nth_map_seq by lia. cbn [Z.add].
  rewrite mask_rows_members.
  replace (ncols (map (map Flt) points)) with (length (hd [] points))
    by (unfold ncols; destruct points; cbn; [reflexivity|now rewrite length_map]).
  apply cluster_ss_holds. intros p Hp. apply Hlen. eapply members_In. exact Hp.
Qed.

(** C5: with [n_clusters=None], a [fit] that returns has computed, for every
    [n] in [1 .. max_clusters], the within-cluster sum of squares of the
    agglomerative partition into [n] clusters: what [calculate_wcss] computes
    from the labels the library returned and, when the array holds numbers only
    and its rows have one width, the sum over the clusters [0 .. n-1] of the
    squared distances of the points of a cluster to their centroid
    ([WCSS.within_cluster_sum_of_squares]).  The second derivative is the
    difference of successive differences of that sequence; and the count stored
    as optimal is [i + 2] for the first index [i] at which the second derivative
    is least. *)
Theorem agglomerative_fit_selects_elbow `{L : Sklearn}
    (X : Matrix) (s s' : AgglomerativeClusteringOptimal.t) :
  AgglomerativeClusteringOptimal.n_clusters s = None ->
  AgglomerativeClusteringOptimal.fit X s = (s', Ok tt) ->
  exists (wcss d2 : list cell) (i : nat),
    AgglomerativeClusteringOptimal.calculate_wcss s X = Ok wcss /\
    length wcss = Z.to_nat (AgglomerativeClusteringOptimal.max_clusters s) /\
    (forall n, 1 <= n <= AgglomerativeClusteringOptimal.max_clusters s ->
       exists labels,
         sk_agglomerative_labels n X = Ok labels /\
         nth (Z.to_nat (n - 1)) wcss NaN
         = AgglomerativeClusteringOptimal.wcss_of X n labels) /\
    (forall points,
       X = map (map Flt) points ->
       (forall p, In p points -> length p = length (hd [] points)) ->
       forall n, 1 <= n <= AgglomerativeClusteringOptimal.max_clusters s ->
         exists labels q,
           sk_agglomerative_labels n X = Ok labels /\
           length labels = length points /\
           nth (Z.to_nat (n - 1)) wcss NaN = Flt q /\
           (q == WCSS.within_cluster_sum_of_squares points n labels)%Q) /\
    d2 = np_diff (np_diff wcss) /\
    (length d2 + 2 = length wcss)%nat /\
    (forall j, (j < length d2)%nat ->
       nth j d2 NaN
       = csub (csub (nth (j + 2) wcss NaN) (nth (j + 1) wcss NaN))
              (csub (nth (j + 1) wcss NaN) (nth j wcss NaN))) /\
    (i < length d2)%nat /\
    (forall j, (j < length d2)%nat -> cell_le (nth i d2 NaN) (nth j d2 NaN)) /\
    (forall j, (j < i)%nat -> cell_lt (nth i d2 NaN) (nth j d2 NaN)) /\
    AgglomerativeClusteringOptimal.find_optimal_clusters s X = Ok (Z.of_nat i + 2) /\
    AgglomerativeClusteringOptimal.optimal_clusters s' = Some (Z.of_nat i + 2).
Proof.
  intros Hn. unfold AgglomerativeClusteringOptimal.fit. run_py. rewrite Hn.
  destruct (AgglomerativeClusteringOptimal.find_optimal_clusters s X) as [k|e] eqn:Hk;
    [|discriminate].
  unfold AgglomerativeClusteringOptimal.model_fit, AgglomerativeClustering.fit. cbn.
  destruct (sk_agglomerative_labels k X) as [lk|e]; [|discriminate].
  intros H. injection H as <-. cbn.
  unfold AgglomerativeClusteringOptimal.find_optimal_clusters in *.
  destruct (AgglomerativeClusteringOptimal.calculate_wcss s X) as [wcss|e] eqn:Hw;
    [|discriminate].
  cbn in Hk.
  destruct (np_argmin (np_diff (np_diff wcss))) as [i|e] eqn:Hi; [|discriminate].
  cbn in Hk. injection Hk as <-.
  destruct (np_argmin_spec _ _ Hi) as (Hrange & Hmin & Hfirst).
  pose proof (mapM_length _ _ _ Hw) as Hlen. rewrite py_range_length in Hlen.
  pose proof (np_diff_length (np_diff wcss)) as Hd2.
  pose proof (np_diff_length wcss) as Hd1.
  exists wcss, (np_diff (np_diff wcss)), (Z.to_nat i).
  rewrite Z2Nat.id by lia.
  split; [reflexivity|]. split; [rewrite Hlen; f_equal; lia|].
  assert (Hstep : forall n, 1 <= n <= AgglomerativeClusteringOptimal.max_clusters s ->
            AgglomerativeClusteringOptimal.wcss_step X n
            = Ok (nth (Z.to_nat (n - 1)) wcss NaN)).
  { intros n Hn1. unfold AgglomerativeClusteringOptimal.calculate_wcss in Hw.
    rewrite <- (mapM_nth _ _ _ (Z.to_nat (n - 1)) 0 NaN Hw)
      by (rewrite py_range_length; lia).
    rewrite py_range_nth by lia. f_equal. lia. }
  split.
  { intros n Hn1.
    destruct (wcss_step_inv _ _ _ (Hstep n Hn1)) as (labels & Hl & _ & Hv).
    now exists labels. }
  split.
  { intros points HX Hrect n Hn1.
    destruct (wcss_step_inv _ _ _ (Hstep n Hn1)) as (labels & Hl & Hlen' & Hv).
    destruct (wcss_of_holds points n labels Hrect) as (q & Hq & Hspec).
    exists labels, q. split; [exact Hl|].
    split; [rewrite Hlen', HX, length_map; reflexivity|].
    split; [rewrite Hv, HX; exact Hq|exact Hspec]. }
  split; [reflexivity|]. split; [lia|].
  split.
  { intros j Hj. rewrite np_diff_nth by (rewrite np_diff_length; lia).
    rewrite !np_diff_nth by lia.
    replace (j + 2)%nat with (S (S j)) by lia.
    replace (j + 1)%nat with (S j) by lia. reflexivity. }
  split; [lia|]. split; [exact Hmin|]. split; [exact Hfirst|]. split; reflexivity.
Qed.

Lemma agglomerative_fit_selects_elbow_witness :
  AgglomerativeClusteringOptimal.fit Demo.X4 (AgglomerativeClusteringOptimal.init 4 None)
  = (AgglomerativeClusteringOptimal.mk 4 None (Some 2)
       (Some (AgglomerativeClustering.mk 2 (Some [0; 1; 1; 1]))), Ok tt)
  /\ (exists i : nat,
       AgglomerativeClusteringOptimal.find_optimal_clusters
         (AgglomerativeClusteringOptimal.init 4 None) Demo.X4 = Ok (Z.of_nat i + 2))
  /\ exists wcss labels q,
       AgglomerativeClusteringOptimal.calculate_wcss
         (AgglomerativeClusteringOptimal.init 4 None) Demo.X4 = Ok wcss /\
       sk_agglomerative_labels 2 Demo.X4 = Ok labels /\
       nth 1 wcss NaN = Flt q /\
       (q == WCSS.within_cluster_sum_of_squares
               [[inject_Z 0]; [inject_Z 1]; [inject_Z 10]; [inject_Z 11]] 2 labels)%Q.
Proof.
  split; [reflexivity|].
  destruct (agglomerative_fit_selects_elbow (L := Demo.library) Demo.X4
              (AgglomerativeClusteringOptimal.init 4 None)
              (AgglomerativeClusteringOptimal.mk 4 None (Some 2)
                 (Some (AgglomerativeClustering.mk 2 (Some [0; 1; 1; 1]))))
              eq_refl eq_refl)
    as (wcss & d2 & i & Hw & _ & _ & Hspec & _ & _ & _ & _ & _ & _ & Hk & _).
  split; [exists i; exact Hk|].
  destruct (Hspec [[inject_Z 0]; [inject_Z 1]; [inject_Z 10]; [inject_Z 11]] eq_refl)
    with (n := 2) as (labels & q & Hl & _ & Hq & Hs).
  - intros p Hp. cbn in Hp. destruct Hp as [<-|[<-|[<-|[<-|[]]]]]; reflexivity.
  - cbn. lia.
  - exists wcss, labels, q. split; [exact Hw|]. split; [exact Hl|].
    split; [exact Hq|exact Hs].
Defined.

(** The WCSS sweep returns as soon as the library partitions the data for every
    count of the sweep. *)
Lemma calculate_wcss_total `{L : Sklearn}
    (s : AgglomerativeClusteringOptimal.t) (X : Matrix) :
  (forall n, 1 <= n <= AgglomerativeClusteringOptimal.max_clusters s ->
     exists labels, sk_agglomerative_labels n X = Ok labels /\ length labels = length X) ->
  exists wcss,
    AgglomerativeClusteringOptimal.calculate_wcss s X = Ok wcss /\
    length wcss = Z.to_nat (AgglomerativeClusteringOptimal.max_clusters s).
Proof.
  intros Hlib.
  destruct (mapM_total (AgglomerativeClusteringOptimal.wcss_step X)
              (py_range 1 (AgglomerativeClusteringOptimal.max_clusters s + 1)))
    as [wcss Hw].
  - intros n Hin. apply (In_nth _ _ 0) in Hin. destruct Hin as (j & Hj & <-).
    rewrite py_range_length in Hj. rewrite py_range_nth by assumption.
    destruct (Hlib (1 + Z.of_nat j)) as (labels & Hl & Hlen); [lia|].
    eexists. apply wcss_step_ok; eassumption.
  - exists wcss. split; [exact Hw|].
    rewrite (mapM_length _ _ _ Hw), py_range_length. f_equal. lia.
Qed.

(** The hierarchical selector cannot return when fewer than three counts are
    swept: the second derivative is then empty. *)
Lemma find_optimal_clusters_needs_three `{L : Sklearn}
    (s : AgglomerativeClusteringOptimal.t) (X : Matrix) :
  AgglomerativeClusteringOptimal.max_clusters s < 3 ->
  exists e, AgglomerativeClusteringOptimal.find_optimal_clusters s X = Raise e.
Proof.
  intros Hmax. unfold AgglomerativeClusteringOptimal.find_optimal_clusters.
  destruct (AgglomerativeClusteringOptimal.calculate_wcss s X) as [wcss|e] eqn:Hw;
    [|now exists e].
  cbn. pose proof (mapM_length _ _ _ Hw) as Hlen. rewrite py_range_length in Hlen.
  pose proof (np_diff_length (np_diff wcss)) as Hd2.
  pose proof (np_diff_length wcss) as Hd1.
  destruct (np_diff (np_diff wcss)) as [|x r]; [eexists; reflexivity|].
  cbn [length] in Hd2. lia.
Qed.

(** The centroid selector stores what the knee detector reports; when it
    reports no knee, no count is selected. *)
Lemma kmeans_fit_without_knee `{L : Sklearn} (X : Matrix) (s : KMeansClustering.t) :
  KMeansClustering.n_clusters s = None ->
  yb_elbow_value (KMeansClustering.random_state s) (2, KMeansClustering.max_clusters s) X
    = Ok None ->
  KMeansClustering.optimal_clusters (fst (KMeansClustering.fit X s)) = None /\
  snd (KMeansClustering.fit X s)
  = rbind (sk_kmeans_fit None (KMeansClustering.random_state s) X) (fun _ => Ok tt).
Proof.
  intros Hn Hy. unfold KMeansClustering.fit. run_py. rewrite Hn. cbn. rewrite Hy. cbn.
  unfold KMeansClustering.kmeans_fit, KMeans.fit. cbn.
  destruct (sk_kmeans_fit None (KMeansClustering.random_state s) X); split; reflexivity.
Qed.

Lemma gmm_score_total `{L : Sklearn} (s : GMMClustering.t) (X : Matrix) (n : Z)
    (m : GaussianModel) :
  GMMClustering.criterion s = "aic"%string \/ GMMClustering.criterion s = "bic"%string ->
  sk_gmm_fit n (GMMClustering.random_state s) X = Ok m ->
  exists y, GMMClustering.score s X n = Ok y.
Proof.
  intros Hcrit Hm.
  unfold GMMClustering.score, GaussianMixture.fit, GaussianMixture.new.
  cbn [GaussianMixture.n_components GaussianMixture.random_state].
  rewrite Hm. unfold GaussianMixture.aic, GaussianMixture.bic.
  cbn [GaussianMixture.fitted].
  destruct Hcrit as [-> | ->]; cbn; eexists; reflexivity.
Qed.

(** C8, as the code has it: when at least three counts are swept and the
    library partitions the data for each of them, the hierarchical selector
    returns [argmin + 2], a count in [[2, max_clusters - 1]], hence within
    [[1, max_clusters]]; when no entry of the second derivative is below
    another (all tied) it returns 2.  When at least one count is swept, the
    criterion is ['aic'] or ['bic'] and the library fits every count, the
    mixture selector returns a count in [[1, max_components]]. *)
Theorem selector_in_range `{L : Sklearn} (X : Matrix) :
  (forall s : AgglomerativeClusteringOptimal.t,
     3 <= AgglomerativeClusteringOptimal.max_clusters s ->
     (forall n, 1 <= n <= AgglomerativeClusteringOptimal.max_clusters s ->
        exists labels,
          sk_agglomerative_labels n X = Ok labels /\ length labels = length X) ->
     exists wcss k,
       AgglomerativeClusteringOptimal.calculate_wcss s X = Ok wcss /\
       AgglomerativeClusteringOptimal.find_optimal_clusters s X = Ok k /\
       2 <= k <= AgglomerativeClusteringOptimal.max_clusters s - 1 /\
       ((forall a b, In a (np_diff (np_diff wcss)) -> In b (np_diff (np_diff wcss)) ->
           cell_le a b) -> k = 2))
  /\
  (forall s : GMMClustering.t,
     GMMClustering.n_components s = None ->
     1 <= GMMClustering.max_components s ->
     GMMClustering.criterion s = "aic"%string \/ GMMClustering.criterion s = "bic"%string ->
     (forall n, 1 <= n <= GMMClustering.max_components s ->
        exists m, sk_gmm_fit n (GMMClustering.random_state s) X = Ok m) ->
     exists s' k,
       GMMClustering.fit X s = (s', Ok tt) /\
       GMMClustering.optimal_components s' = Some k /\
       1 <= k <= GMMClustering.max_components s).
Proof.
  split.
  - intros s Hmax Hlib.
    destruct (calculate_wcss_total s X Hlib) as (wcss & Hw & Hlen).
    pose proof (np_diff_length (np_diff wcss)) as Hd2.
    pose proof (np_diff_length wcss) as Hd1.
    destruct (np_argmin_nonempty (np_diff (np_diff wcss))) as [i Hi].
    { intros E. rewrite E in Hd2. cbn in Hd2. lia. }
    destruct (np_argmin_spec _ _ Hi) as (Hrange & Hmin & Hfirst).
    exists wcss, (i + 2).
    split; [exact Hw|].
    split; [unfold AgglomerativeClusteringOptimal.find_optimal_clusters;
            rewrite Hw; cbn; rewrite Hi; reflexivity|].
    split; [lia|].
    intros Htied.
    destruct (Z.to_nat i) as [|i'] eqn:Ei; [lia|].
    exfalso. specialize (Hfirst 0%nat ltac:(lia)).
    assert (Hle : cell_le (nth 0 (np_diff (np_diff wcss)) NaN)
                          (nth (S i') (np_diff (np_diff wcss)) NaN))
      by (apply Htied; apply nth_In; lia).
    unfold cell_le, cell_lt in *. congruence.
  - intros s Hn Hmax Hcrit Hlib.
    destruct (mapM_total (GMMClustering.score s X)
                (py_range 1 (GMMClustering.max_components s + 1))) as [cs Hcs].
    { intros n Hin. apply (In_nth _ _ 0) in Hin. destruct Hin as (j & Hj & <-).
      rewrite py_range_length in Hj. rewrite py_range_nth by assumption.
      destruct (Hlib (1 + Z.of_nat j)) as [m Hm]; [lia|].
      eapply gmm_score_total; eassumption. }
    pose proof (mapM_length _ _ _ Hcs) as Hlen. rewrite py_range_length in Hlen.
    destruct (np_argmin_nonempty cs) as [i Hi].
    { intros E. rewrite E in Hlen. cbn in Hlen. lia. }
    destruct (np_argmin_spec _ _ Hi) as (Hrange & _ & _).
    destruct (Hlib (i + 1)) as [m Hm]; [lia|].
    eexists _, (i + 1).
    split; [|split; [|lia]].
    + unfold GMMClustering.fit. run_py. rewrite Hn.
      fold (GMMClustering.criterions s X) in Hcs. rewrite Hcs, Hi.
      unfold GMMClustering.gmm_fit, GaussianMixture.fit. cbn. rewrite Hm. reflexivity.
    + reflexivity.
Qed.

Lemma selector_in_range_witness :
  (exists wcss k,
     AgglomerativeClusteringOptimal.calculate_wcss
       (AgglomerativeClusteringOptimal.init 4 None) Demo.X4 = Ok wcss /\
     AgglomerativeClusteringOptimal.find_optimal_clusters
       (AgglomerativeClusteringOptimal.init 4 None) Demo.X4 = Ok k /\
     2 <= k <= 3)
  /\ exists s' k,
       GMMClustering.fit Demo.X4 (GMMClustering.init 3 "bic" None 42) = (s', Ok tt) /\
       GMMClustering.optimal_components s' = Some k /\ 1 <= k <= 3.
Proof.
  destruct (selector_in_range (L := Demo.library) Demo.X4) as [Hagg Hgmm].
  split.
  - destruct (Hagg (AgglomerativeClusteringOptimal.init 4 None)) as (wcss & k & Hw & Hk & Hr & _).
    + cbn. lia.
    + intros n Hn. cbn in Hn.
      assert (E : n = 1 \/ n = 2 \/ n = 3 \/ n = 4) by lia.
      destruct E as [-> | [-> | [-> | ->]]]; eexists; split; reflexivity.
    + exists wcss, k. repeat split; try assumption; cbn in Hr; lia.
  - destruct (Hgmm (GMMClustering.init 3 "bic" None 42)) as (s' & k & Hf & Hk & Hr).
    + reflexivity.
    + cbn. lia.
    + right. reflexivity.
    + intros n Hn. cbn in Hn.
      assert (E : n = 1 \/ n = 2 \/ n = 3) by lia.
      destruct E as [-> | [-> | ->]]; eexists; reflexivity.
    + exists s', k. repeat split; try assumption; cbn in Hr; lia.
Defined.

(** With [max_clusters = 2] the sweep itself is fine (two WCSS values, 1/2 and 0
    for the two samples 0 and 1), but the second derivative of a two-point
    curve is empty and the selector raises instead of returning a count. *)
Lemma selector_raises_on_two_counts :
  (exists w1 w2,
     AgglomerativeClusteringOptimal.calculate_wcss
       (AgglomerativeClusteringOptimal.init 2 None) Demo.X2 = Ok [Flt w1; Flt w2]
     /\ (w1 == 1 # 2)%Q /\ (w2 == 0)%Q)
  /\ AgglomerativeClusteringOptimal.find_optimal_clusters
       (AgglomerativeClusteringOptimal.init 2 None) Demo.X2
     = Raise (ValueError "attempt to get argmin of an empty sequence")
  /\ ~ (exists k,
          AgglomerativeClusteringOptimal.find_optimal_clusters
            (AgglomerativeClusteringOptimal.init 2 None) Demo.X2 = Ok k
          /\ 1 <= k <= 2).
Proof.
  split; [|split].
  - eexists _, _. split; [vm_compute; reflexivity|]. split; reflexivity.
  - reflexivity.
  - intros (k & Hk & _). vm_compute in Hk. discriminate.
Qed.

(* ========================================================================= *)
(** * Properties of the analysis pipeline *)

Lemma mapM_ok {A B : Type} (f : A -> res B) (g : A -> B) (l : list A) :
  (forall x, In x l -> f x = Ok (g x)) -> mapM f l = Ok (map g l).
Proof.
  induction l as [|x r IH]; intros H; [reflexivity|].
  cbn. rewrite H by now left. cbn. rewrite IH by (intros y Hy; apply H; now right).
  reflexivity.
Qed.

Lemma set_col_fresh {A : Type} (k : string) (v : A) (cols : list (string * A)) :
  ~ In k (map fst cols) -> set_col k v cols = cols ++ [(k, v)].
Proof.
  induction cols as [|[k' v'] r IH]; intros H; [reflexivity|].
  cbn in *. destruct (String.eqb_spec k' k) as [E|_]; [tauto|].
  rewrite IH by tauto. reflexivity.
Qed.

Lemma get_col_skip {A : Type} (k : string) (a b : list (string * A)) :
  ~ In k (map fst a) -> get_col k (a ++ b) = get_col k b.
Proof.
  induction a as [|[k' v'] r IH]; intros H; [reflexivity|].
  cbn in *. destruct (String.eqb_spec k' k) as [E|_]; [tauto|].
  apply IH. tauto.
Qed.

(** On float columns the normalisation has no error path. *)
Lemma minmax_normalize_floats (idx : series) (periods : list (string * list cell)) :
  minmax_normalize (mkDataFrame idx (map (fun c => (fst c, FloatS (snd c))) periods))
  = Ok (map (fun c => (fst c, minmax_column (snd c))) periods).
Proof.
  unfold minmax_normalize. cbn [columns].
  rewrite mapM_ok with (g := fun c : string * series =>
                               (fst c, minmax_column
                                         match snd c with FloatS l => l | _ => [] end)).
  - rewrite map_map. reflexivity.
  - intros c Hc. apply in_map_iff in Hc. destruct Hc as (p & <- & _). reflexivity.
Qed.

Lemma mean_axis1_floats (idx : series) (periods : list (string * list cell)) :
  mean_axis1 (mkDataFrame idx (map (fun c => (fst c, FloatS (snd c))) periods))
  = Ok (map (fun i => mean_skipna (map (fun c => nth i (snd c) NaN) periods))
            (seq 0 (series_length idx))).
Proof.
  unfold mean_axis1. cbn [columns index].
  rewrite mapM_ok with (g := fun c : string * series =>
                               match snd c with FloatS l => l | _ => [] end).
  - cbn. rewrite !map_map. cbn. f_equal. apply map_ext. intros i.
    now rewrite map_map.
  - intros c Hc. apply in_map_iff in Hc. destruct Hc as (p & <- & _). reflexivity.
Qed.

(** Without NaN the mean is the sum over the count. *)
Lemma mean_skipna_defined (qs : list Q) :
  qs <> [] ->
  mean_skipna (map Flt qs) = Flt (qsum qs / inject_Z (Z.of_nat (length qs))).
Proof.
  intros Hne. unfold mean_skipna.
  assert (E : numbers (map Flt qs) = qs).
  { clear Hne. induction qs as [|x r IH]; [reflexivity|].
    change (numbers (map Flt (x :: r))) with (x :: numbers (map Flt r)).
    now rewrite IH. }
  rewrite E. destruct qs; [congruence|reflexivity].
Qed.

(** The strategy of the pipeline hands back an array whenever it returns. *)
Lemma kmeans_fit_predict_array `{L : Sklearn} (X : Matrix) (s : KMeansClustering.t)
    (v : pyval) :
  snd (KMeansClustering.fit_predict X s) = Ok v -> exists labels, v = Ndarray labels.
Proof.
  unfold KMeansClustering.fit_predict, bind.
  destruct (KMeansClustering.fit X s) as [s1 [[]|e]]; [|discriminate].
  unfold KMeansClustering.predict. run_py.
  destruct (KMeansClustering.kmeans s1) as [est|]; [|discriminate].
  cbn. destruct (KMeans.predict est X) as [l|e]; [|discriminate].
  cbn. intros H. injection H as <-. now exists l.
Qed.

(** What a returning [tickers_clusters_er] has done to a feature frame. *)
Lemma tickers_clusters_er_run `{L : Sklearn} `{D : MarketData}
    (s s' : EfficiencyRatioAnalysis.t) (table : DataFrame)
    (symbols : list string) (periods : list (string * list cell)) :
  EfficiencyRatioAnalysis.df_er s
    = Some (mkDataFrame (StrS symbols) (map (fun c => (fst c, FloatS (snd c))) periods)) ->
  ~ In "cluster_label"%string (map fst periods) ->
  ~ In "mean_er"%string (map fst periods) ->
  EfficiencyRatioAnalysis.tickers_clusters_er s = (s', Ok table) ->
  exists labels : list Z,
    snd (KMeansClustering.fit_predict
           (to_matrix (length symbols) (map (fun c => minmax_column (snd c)) periods))
           (KMeansClustering.init 10 42 (EfficiencyRatioAnalysis.n_clusters s)))
      = Ok (Ndarray labels) /\
    length labels = length symbols /\
    length (period_means (length symbols) periods) = length symbols /\
    table = mkDataFrame (IntS (py_range 0 (Z.of_nat (length symbols))))
              [("symbol"%string, StrS symbols);
               ("mean_er"%string, FloatS (period_means (length symbols) periods));
               ("cluster_label"%string, IntS labels)] /\
    EfficiencyRatioAnalysis.df_er s'
    = Some (mkDataFrame (IntS (py_range 0 (Z.of_nat (length symbols))))
              (("symbol"%string, StrS symbols)
                 :: map (fun c => (fst c, FloatS (snd c))) periods
                 ++ [("cluster_label"%string, IntS labels);
                     ("mean_er"%string, FloatS (period_means (length symbols) periods))])).
Proof.
  intros Hdf Hcl Hme.
  assert (Hnames : map fst (map (fun c : string * list cell => (fst c, FloatS (snd c)))
                                periods) = map fst periods)
    by (rewrite map_map; reflexivity).
  unfold EfficiencyRatioAnalysis.tickers_clusters_er. run_py. rewrite Hdf.
  rewrite minmax_normalize_floats. cbn [index series_length].
  rewrite map_map. cbn [snd].
  destruct (snd (KMeansClustering.fit_predict _ _)) as [v|e] eqn:Hfp; [|discriminate].
  destruct (kmeans_fit_predict_array _ _ _ Hfp) as [labels ->].
  unfold setitem at 1. cbn [index columns series_length].
  destruct (Nat.eqb_spec (length labels) (length symbols)) as [Hlen|]; [|discriminate].
  rewrite set_col_fresh by (rewrite Hnames; exact Hcl).
  unfold EfficiencyRatioAnalysis.put_df_er, modify, iloc_drop_last_column.
  cbn [index columns]. rewrite removelast_last, mean_axis1_floats.
  cbn [series_length]. fold (period_means (length symbols) periods).
  unfold setitem. cbn [index columns series_length].
  assert (Hpm : length (period_means (length symbols) periods) = length symbols)
    by (unfold period_means; now rewrite length_map, length_seq).
  rewrite Hpm, Nat.eqb_refl.
  rewrite set_col_fresh.
  2:{ rewrite map_app, Hnames. cbn. intros Hin. apply in_app_or in Hin.
      destruct Hin as [Hin|[Hin|[]]]; [tauto|discriminate]. }
  unfold reset_index, rename_first_column, getitem_list.
  cbn [index columns series_length mapM get_col String.eqb Ascii.eqb Bool.eqb rbind].
  rewrite <- app_assoc. cbn [app].
  rewrite !get_col_skip by (rewrite Hnames; assumption).
  cbn [get_col String.eqb Ascii.eqb Bool.eqb rbind].
  intros H. injection H as <- <-.
  exists labels. repeat split; assumption.
Qed.

(** C9: on a feature frame (rows = instruments, float period columns, none of
    them called [cluster_label] or [mean_er]), a [tickers_clusters_er] that
    returns has appended the labels of the strategy as the column
    [cluster_label] after the period columns, has computed [mean_er] for every
    row as the mean over the period columns only, and returns exactly the three
    columns [symbol], [mean_er], [cluster_label], each with one entry per
    instrument. *)
Theorem tickers_clusters_er_table `{L : Sklearn} `{D : MarketData}
    (s s' : EfficiencyRatioAnalysis.t) (table : DataFrame)
    (symbols : list string) (periods : list (string * list cell)) :
  EfficiencyRatioAnalysis.df_er s
    = Some (mkDataFrame (StrS symbols) (map (fun c => (fst c, FloatS (snd c))) periods)) ->
  ~ In "cluster_label"%string (map fst periods) ->
  ~ In "mean_er"%string (map fst periods) ->
  EfficiencyRatioAnalysis.tickers_clusters_er s = (s', Ok table) ->
  exists labels : list Z,
    snd (KMeansClustering.fit_predict
           (to_matrix (length symbols) (map (fun c => minmax_column (snd c)) periods))
           (KMeansClustering.init 10 42 (EfficiencyRatioAnalysis.n_clusters s)))
      = Ok (Ndarray labels) /\
    length labels = length symbols /\
    length (period_means (length symbols) periods) = length symbols /\
    table = mkDataFrame (IntS (py_range 0 (Z.of_nat (length symbols))))
              [("symbol"%string, StrS symbols);
               ("mean_er"%string, FloatS (period_means (length symbols) periods));
               ("cluster_label"%string, IntS labels)] /\
    EfficiencyRatioAnalysis.df_er s'
    = Some (mkDataFrame (IntS (py_range 0 (Z.of_nat (length symbols))))
              (("symbol"%string, StrS symbols)
                 :: map (fun c => (fst c, FloatS (snd c))) periods
                 ++ [("cluster_label"%string, IntS labels);
                     ("mean_er"%string, FloatS (period_means (length symbols) periods))])) /\
    (forall i qs, (i < length symbols)%nat -> qs <> [] ->
       map (fun c => nth i (snd c) NaN) periods = map Flt qs ->
       nth i (period_means (length symbols) periods) NaN
       = Flt (qsum qs / inject_Z (Z.of_nat (length qs)))).
Proof.
  intros Hdf Hcl Hme Hrun.
  destruct (tickers_clusters_er_run s s' table symbols periods Hdf Hcl Hme Hrun)
    as (labels & Hfp & Hlen & Hmeans & Htable & Hstate).
  exists labels.
  split; [exact Hfp|]. split; [exact Hlen|]. split; [exact Hmeans|].
  split; [exact Htable|]. split; [exact Hstate|].
  intros i qs Hi Hne Hrow. unfold period_means.
  rewrite nth_map_seq by assumption.
  rewrite Hrow. now apply mean_skipna_defined.
Qed.

Lemma tickers_clusters_er_table_witness :
  exists s' labels,
    EfficiencyRatioAnalysis.tickers_clusters_er Demo.featured
    = (s', Ok (mkDataFrame (IntS [0; 1; 2])
                 [("symbol"%string, StrS ["A"; "C"; "E"]%string);
                  ("mean_er"%string, FloatS (period_means 3 Demo.periods3));
                  ("cluster_label"%string, IntS labels)]))
    /\ length labels = 3%nat.
Proof.
  destruct (EfficiencyRatioAnalysis.tickers_clusters_er Demo.featured)
    as [s' [table|e]] eqn:E; [|vm_compute in E; discriminate].
  destruct (tickers_clusters_er_table Demo.featured s' table
              ["A"; "C"; "E"]%string Demo.periods3) as (labels & _ & Hlen & _ & Ht & _).
  - reflexivity.
  - cbn. intros [H|[H|[]]]; discriminate.
  - cbn. intros [H|[H|[]]]; discriminate.
  - exact E.
  - exists s', labels. split; [|exact Hlen]. rewrite Ht. reflexivity.
Defined.

(* ------------------------------------------------------------------------- *)
(** ** Min-max normalisation *)

Lemma qmin_le_l (a b : Q) : (qmin a b <= a)%Q.
Proof.
  unfold qmin. destruct (Qle_bool a b) eqn:E; [apply Qle_refl|].
  apply Qlt_le_weak, Qnot_le_lt. intros H. apply Qle_bool_iff in H. congruence.
Qed.

Lemma qmin_le_r (a b : Q) : (qmin a b <= b)%Q.
Proof.
  unfold qmin. destruct (Qle_bool a b) eqn:E; [now apply Qle_bool_iff|apply Qle_refl].
Qed.

Lemma qmax_ge_l (a b : Q) : (a <= qmax a b)%Q.
Proof.
  unfold qmax. destruct (Qle_bool a b) eqn:E; [now apply Qle_bool_iff|apply Qle_refl].
Qed.

Lemma qmax_ge_r (a b : Q) : (b <= qmax a b)%Q.
Proof.
  unfold qmax. destruct (Qle_bool a b) eqn:E; [apply Qle_refl|].
  apply Qlt_le_weak, Qnot_le_lt. intros H. apply Qle_bool_iff in H. congruence.
Qed.

Lemma fold_qmin_le (r : list Q) :
  forall x, (fold_left qmin r x <= x)%Q /\ forall y, In y r -> (fold_left qmin r x <= y)%Q.
Proof.
  induction r as [|z r IH]; intros x; cbn.
  - split; [apply Qle_refl|intros y []].
  - destruct (IH (qmin x z)) as [H1 H2]. split.
    + eapply Qle_trans; [exact H1|apply qmin_le_l].
    + intros y [<-|Hy]; [|now apply H2].
      eapply Qle_trans; [exact H1|apply qmin_le_r].
Qed.

Lemma fold_qmax_ge (r : list Q) :
  forall x, (x <= fold_left qmax r x)%Q /\ forall y, In y r -> (y <= fold_left qmax r x)%Q.
Proof.
  induction r as [|z r IH]; intros x; cbn.
  - split; [apply Qle_refl|intros y []].
  - destruct (IH (qmax x z)) as [H1 H2]. split.
    + eapply Qle_trans; [apply qmax_ge_l|exact H1].
    + intros y [<-|Hy]; [|now apply H2].
      eapply Qle_trans; [apply qmax_ge_r|exact H1].
Qed.

Lemma numbers_In (l : list cell) (x : Q) : In (Flt x) l -> In x (numbers l).
Proof.
  intros H. unfold numbers. apply in_flat_map. exists (Flt x). split; [exact H|now left].
Qed.

Lemma min_skipna_le (l : list cell) (m x : Q) :
  min_skipna l = Flt m -> In (Flt x) l -> (m <= x)%Q.
Proof.
  unfold min_skipna. intros Hm Hx. apply numbers_In in Hx.
  destruct (numbers l) as [|y r]; [discriminate|]. injection Hm as <-.
  destruct (fold_qmin_le r y) as [H1 H2]. destruct Hx as [<-|Hx]; auto.
Qed.

Lemma max_skipna_ge (l : list cell) (m x : Q) :
  max_skipna l = Flt m -> In (Flt x) l -> (x <= m)%Q.
Proof.
  unfold max_skipna. intros Hm Hx. apply numbers_In in Hx.
  destruct (numbers l) as [|y r]; [discriminate|]. injection Hm as <-.
  destruct (fold_qmax_ge r y) as [H1 H2]. destruct Hx as [<-|Hx]; auto.
Qed.

(** The only division by zero of the normalisation is [0/0]: when the
    denominator [max - min] of a column is zero, so is every numerator. *)
Lemma minmax_zero_over_zero (l : list cell) (x d a : Q) :
  In (Flt x) l ->
  csub (max_skipna l) (min_skipna l) = Flt d -> (d == 0)%Q ->
  csub (Flt x) (min_skipna l) = Flt a -> (a == 0)%Q.
Proof.
  intros Hx Hd Hd0 Ha.
  destruct (min_skipna l) as [|m] eqn:Hmin; [discriminate|].
  destruct (max_skipna l) as [|M] eqn:Hmax; [discriminate|].
  cbn in Hd, Ha. injection Hd as <-. injection Ha as <-.
  pose proof (min_skipna_le _ _ _ Hmin Hx) as H1.
  pose proof (max_skipna_ge _ _ _ Hmax Hx) as H2.
  assert (HM : (M == m)%Q) by (rewrite <- (Qplus_0_l m), <- Hd0; ring).
  rewrite HM in H2. rewrite (Qle_antisym _ _ H2 H1). ring.
Qed.

(** A column whose maximum equals its minimum is normalised to NaN throughout. *)
Lemma minmax_column_constant (l : list cell) (m M : Q) :
  min_skipna l = Flt m -> max_skipna l = Flt M -> (M == m)%Q ->
  minmax_column l = map (fun _ => NaN) l.
Proof.
  intros Hmin Hmax HM. unfold minmax_column. rewrite Hmin, Hmax.
  apply map_ext. intros x. cbn [csub].
  assert (E : Qeq_bool (M - m) 0 = true) by (apply Qeq_bool_iff; rewrite HM; ring).
  destruct x as [|x]; [reflexivity|]. cbn. now rewrite E.
Qed.

Lemma to_matrix_entry (n : nat) (cols : list (list cell)) (i j : nat) (d : cell) :
  (i < n)%nat -> (j < length cols)%nat ->
  nth j (nth i (to_matrix n cols) []) d = nth i (nth j cols []) NaN.
Proof.
  intros Hi Hj. unfold to_matrix. rewrite nth_map_seq by assumption.
  set (f := fun c : list cell => nth i c NaN).
  rewrite nth_indep with (d' := f []) by now rewrite length_map.
  now rewrite map_nth.
Qed.

(** When the strategy raises, that exception is the outcome of the aggregator
    and the object is untouched. *)
Lemma tickers_clusters_er_strategy_error `{L : Sklearn} `{D : MarketData}
    (s : EfficiencyRatioAnalysis.t) (idx : series) (periods : list (string * list cell))
    (e : exn) :
  EfficiencyRatioAnalysis.df_er s
    = Some (mkDataFrame idx (map (fun c => (fst c, FloatS (snd c))) periods)) ->
  snd (KMeansClustering.fit_predict
         (to_matrix (series_length idx) (map (fun c => minmax_column (snd c)) periods))
         (KMeansClustering.init 10 42 (EfficiencyRatioAnalysis.n_clusters s)))
    = Raise e ->
  EfficiencyRatioAnalysis.tickers_clusters_er s = (s, Raise e).
Proof.
  intros Hdf Hfp. unfold EfficiencyRatioAnalysis.tickers_clusters_er. run_py.
  rewrite Hdf, minmax_normalize_floats. cbn [index]. rewrite map_map. cbn [snd].
  now rewrite Hfp.
Qed.

(** C3, as the code has it: the normalisation has no check and no error path.
    For a feature frame with a column whose maximum equals its minimum it
    returns, that column is NaN in every row of the matrix built from it, and
    that matrix is what the strategy is given: if the strategy raises on it,
    its exception is the outcome of the aggregator. *)
Theorem constant_column_reaches_clustering `{L : Sklearn} `{D : MarketData}
    (s : EfficiencyRatioAnalysis.t) (symbols : list string)
    (periods : list (string * list cell)) (j : nat) (name : string) (l : list cell)
    (m M : Q) :
  EfficiencyRatioAnalysis.df_er s
    = Some (mkDataFrame (StrS symbols) (map (fun c => (fst c, FloatS (snd c))) periods)) ->
  nth_error periods j = Some (name, l) ->
  length l = length symbols ->
  min_skipna l = Flt m -> max_skipna l = Flt M -> (M == m)%Q ->
  minmax_normalize (mkDataFrame (StrS symbols)
                                (map (fun c => (fst c, FloatS (snd c))) periods))
    = Ok (map (fun c => (fst c, minmax_column (snd c))) periods)
  /\ (forall i, (i < length symbols)%nat ->
        nth j (nth i (to_matrix (length symbols)
                                (map (fun c => minmax_column (snd c)) periods)) [])
              (Flt 0) = NaN)
  /\ (forall e,
        snd (KMeansClustering.fit_predict
               (to_matrix (length symbols) (map (fun c => minmax_column (snd c)) periods))
               (KMeansClustering.init 10 42 (EfficiencyRatioAnalysis.n_clusters s)))
          = Raise e ->
        EfficiencyRatioAnalysis.tickers_clusters_er s = (s, Raise e)).
Proof.
  intros Hdf Hj Hlen Hmin Hmax HM.
  split; [apply minmax_normalize_floats|]. split.
  - intros i Hi.
    assert (Hjlt : (j < length periods)%nat)
      by (apply nth_error_Some; congruence).
    rewrite to_matrix_entry by (rewrite ?length_map; assumption).
    set (f := fun c : string * list cell => minmax_column (snd c)).
    rewrite nth_indep with (d' := f (name, l)) by now rewrite length_map.
    rewrite map_nth. rewrite (nth_error_nth _ _ _ Hj). unfold f. cbn [snd].
    rewrite (minmax_column_constant _ _ _ Hmin Hmax HM).
    set (g := fun _ : cell => NaN).
    rewrite nth_indep with (d' := g NaN) by (rewrite length_map; lia).
    now rewrite map_nth.
  - intros e He. eapply tickers_clusters_er_strategy_error; eassumption.
Qed.

Lemma constant_column_reaches_clustering_witness :
  minmax_normalize (mkDataFrame (StrS ["E"; "F"]%string)
                      (map (fun c => (fst c, FloatS (snd c))) Demo.periods_flat))
    = Ok [("period_2"%string, [NaN; NaN]); ("period_3"%string, [NaN; NaN])]
  /\ EfficiencyRatioAnalysis.tickers_clusters_er Demo.flat
     = (Demo.flat, Raise (ValueError "Input X contains NaN.")).
Proof.
  destruct (constant_column_reaches_clustering (L := Demo.library) (D := Demo.market)
              Demo.flat ["E"; "F"]%string Demo.periods_flat 0 "period_2"%string
              [Flt (100000 # 100000); Flt (100000 # 100000)]
              (100000 # 100000) (100000 # 100000)) as (Hn & _ & Hraise).
  - reflexivity.
  - reflexivity.
  - reflexivity.
  - reflexivity.
  - reflexivity.
  - reflexivity.
  - split; [rewrite Hn; reflexivity|]. apply Hraise. reflexivity.
Defined.

(** The run on the two pure trends [E] and [F]: the feature frame is built, both
    of its columns are constant, the normalisation returns a frame of NaN
    without any complaint, and the run ends in the library's refusal of NaN. *)
Lemma constant_column_not_detected :
  EfficiencyRatioAnalysis.df_er (fst (Demo.analysis ["E"; "F"]%string 2 4 (Some 2)))
    = Some (mkDataFrame (StrS ["E"; "F"]%string)
              [("period_2"%string, FloatS [Flt (100000 # 100000); Flt (100000 # 100000)]);
               ("period_3"%string, FloatS [Flt (100000 # 100000); Flt (100000 # 100000)])])
  /\ minmax_normalize
       (mkDataFrame (StrS ["E"; "F"]%string)
          [("period_2"%string, FloatS [Flt (100000 # 100000); Flt (100000 # 100000)]);
           ("period_3"%string, FloatS [Flt (100000 # 100000); Flt (100000 # 100000)])])
     = Ok [("period_2"%string, [NaN; NaN]); ("period_3"%string, [NaN; NaN])]
  /\ snd (Demo.analysis ["E"; "F"]%string 2 4 (Some 2))
     = Raise (ValueError "Input X contains NaN.").
Proof. repeat split; vm_compute; reflexivity. Qed.

(* ------------------------------------------------------------------------- *)
(** ** The instruments of the feature frame *)

Lemma existsb_eqb_In (k : string) (ks : list string) :
  existsb (String.eqb k) ks = true <-> In k ks.
Proof.
  rewrite existsb_exists. split.
  - intros (x & Hx & E). apply String.eqb_eq in E. now subst.
  - intros H. exists k. split; [exact H|apply String.eqb_refl].
Qed.

Lemma set_col_keys {A : Type} (k : string) (v : A) (cols : list (string * A)) :
  map fst (set_col k v cols) = add_key (map fst cols) k.
Proof.
  unfold add_key. induction cols as [|[k' v'] r IH].
  - reflexivity.
  - cbn [set_col map fst existsb]. rewrite (String.eqb_sym k k').
    destruct (String.eqb k' k) eqn:E; cbn [orb map fst].
    + reflexivity.
    + rewrite IH. destruct (existsb (String.eqb k) (map fst r)); reflexivity.
Qed.

Lemma fold_set_col_keys {A B : Type} (f : string * A -> B) (cols : list (string * A)) :
  forall acc : list (string * B),
    map fst (fold_left (fun a kv => set_col (fst kv) (f kv) a) cols acc)
    = fold_left add_key (map fst cols) (map fst acc).
Proof.
  induction cols as [|kv r IH]; intros acc; [reflexivity|].
  cbn [fold_left map]. rewrite IH, set_col_keys. reflexivity.
Qed.

Lemma er_frame_keys `{D : MarketData} (prices : PriceFrame) (length : Z) :
  map fst (EfficiencyRatioAnalysis.er_frame prices length)
  = unique_keys (map fst (p_columns prices)).
Proof.
  unfold EfficiencyRatioAnalysis.er_frame, unique_keys.
  now rewrite (fold_set_col_keys (fun kv => ta_er (snd kv) length)).
Qed.

Lemma fold_add_key_spec (ks : list string) :
  forall acc, NoDup acc ->
    NoDup (fold_left add_key ks acc) /\
    forall t, In t (fold_left add_key ks acc) <-> In t acc \/ In t ks.
Proof.
  induction ks as [|k r IH]; intros acc Hnd; cbn [fold_left].
  - split; [exact Hnd|]. intros t. cbn. tauto.
  - assert (Hnd' : NoDup (add_key acc k)).
    { unfold add_key. destruct (existsb (String.eqb k) acc) eqn:E; [exact Hnd|].
      apply NoDup_app; [exact Hnd|repeat constructor; intros []|].
      intros x Hx [<-|[]]. apply existsb_eqb_In in Hx. congruence. }
    destruct (IH _ Hnd') as [H1 H2]. split; [exact H1|].
    intros t. rewrite H2. unfold add_key.
    destruct (existsb (String.eqb k) acc) eqn:E.
    + apply existsb_eqb_In in E. cbn. split; [tauto|].
      intros [H|[<-|H]]; tauto.
    + rewrite in_app_iff. cbn. tauto.
Qed.

(** Every label once, and no label lost or invented. *)
Lemma unique_keys_spec (ks : list string) :
  NoDup (unique_keys ks) /\ forall t, In t (unique_keys ks) <-> In t ks.
Proof.
  destruct (fold_add_key_spec ks [] (NoDup_nil _)) as [H1 H2].
  split; [exact H1|]. intros t. unfold unique_keys. rewrite H2. cbn. tauto.
Qed.

Lemma map_fst_combine_eq {A B : Type} (a : list A) (b : list B) :
  length a = length b -> map fst (combine a b) = a.
Proof.
  revert b. induction a as [|x a IH]; intros [|y b] H; try discriminate; [reflexivity|].
  cbn. f_equal. apply IH. now injection H.
Qed.

Lemma concat_close_width (frames : list (list (Z * cell))) (idx : list Z)
    (cols : list (list cell)) :
  concat_close frames = Ok (idx, cols) -> length cols = length frames.
Proof.
  unfold concat_close. destruct frames as [|f r]; [discriminate|].
  destruct (same_timestamps (f :: r)); intros H; injection H as _ <-;
    cbn [length]; now rewrite length_map.
Qed.

(** The alignment step of [load_data] removes timestamps, never instruments:
    the price table has one column per entry of [tickers], in that order. *)
Lemma load_data_columns `{D : MarketData} `{L : Sklearn}
    (s : EfficiencyRatioAnalysis.t) (prices : PriceFrame) :
  EfficiencyRatioAnalysis.load_data s = Ok prices ->
  map fst (p_columns prices) = EfficiencyRatioAnalysis.tickers s.
Proof.
  unfold EfficiencyRatioAnalysis.load_data.
  destruct (mapM _ (EfficiencyRatioAnalysis.tickers s)) as [frames|e] eqn:Hf;
    [|discriminate].
  cbn [rbind]. destruct (concat_close frames) as [[idx cols]|e] eqn:Hc; [|discriminate].
  cbn [rbind fst snd]. intros H. injection H as <-.
  unfold dropna. cbn [p_columns p_index]. rewrite map_map. cbn [fst].
  apply map_fst_combine_eq.
  rewrite (concat_close_width _ _ _ Hc). symmetry. exact (mapM_length _ _ _ Hf).
Qed.

Lemma list_eqb_refl (l : list string) : list_eqb String.eqb l l = true.
Proof.
  induction l as [|x r IH]; [reflexivity|]. cbn. now rewrite String.eqb_refl.
Qed.

(** The frames joined by [calculate_er] carry one index, so the join puts their
    columns side by side; it raises only when there is no frame at all. *)
Lemma er_mean_aligned `{D : MarketData} (prices : PriceFrame) (lengths : list Z) :
  pd_concat_columns
    (map (fun kv => EfficiencyRatioAnalysis.er_mean_frame (fst kv) (snd kv))
         (map (fun length => (str length, EfficiencyRatioAnalysis.er_frame prices length))
              lengths))
  = match lengths with
    | [] => Raise (ValueError "No objects to concatenate")
    | _ :: _ =>
        Ok (mkDataFrame
              (StrS (unique_keys (map fst (p_columns prices))))
              (map (fun c => (fst c, FloatS (snd c)))
                   (map (fun length =>
                           (("period_" ++ str length)%string,
                            map (fun c => round5 (mean_skipna (snd c)))
                                (EfficiencyRatioAnalysis.er_frame prices length)))
                        lengths)))
    end.
Proof.
  destruct lengths as [|l0 r]; [reflexivity|].
  unfold pd_concat_columns. cbn [map fst snd].
  replace (forallb _ _) with true.
  - unfold EfficiencyRatioAnalysis.er_mean_frame at 1. cbn [index].
    rewrite er_frame_keys. f_equal. f_equal.
    cbn [flat_map columns EfficiencyRatioAnalysis.er_mean_frame app map fst snd].
    f_equal. induction r as [|l1 r IH]; [reflexivity|].
    cbn [map flat_map columns EfficiencyRatioAnalysis.er_mean_frame app fst snd].
    now rewrite IH.
  - symmetry. apply forallb_forall. intros g Hg.
    rewrite !map_map in Hg. apply in_map_iff in Hg.
    destruct Hg as (l1 & <- & _).
    unfold EfficiencyRatioAnalysis.er_mean_frame. cbn [index fst snd series_eqb].
    rewrite !er_frame_keys. apply list_eqb_refl.
Qed.

(* ------------------------------------------------------------------------- *)
(** ** The run as a whole *)

(** [__init__] step by step. *)
Lemma init_unfold `{L : Sklearn} `{D : MarketData}
    (tickers : list string) (sd ed tf : string) (ip ep : Z) (nc : option Z) :
  EfficiencyRatioAnalysis.init tickers sd ed tf ip ep nc
  = let s0 := EfficiencyRatioAnalysis.mk tickers sd ed tf ip ep nc None None None in
    match EfficiencyRatioAnalysis.load_data s0 with
    | Raise e => (s0, Raise e)
    | Ok prices =>
        let s1 := EfficiencyRatioAnalysis.set_df_tickers prices s0 in
        match EfficiencyRatioAnalysis.calculate_er s1 with
        | Raise e => (s1, Raise e)
        | Ok features =>
            match EfficiencyRatioAnalysis.tickers_clusters_er
                    (EfficiencyRatioAnalysis.set_df_er features s1) with
            | (s3, Ok table) => (EfficiencyRatioAnalysis.set_clusters_er table s3, Ok tt)
            | (s3, Raise e) => (s3, Raise e)
            end
        end
    end.
Proof.
  unfold EfficiencyRatioAnalysis.init. run_py. cbv zeta.
  destruct (EfficiencyRatioAnalysis.load_data _) as [prices|e]; [|reflexivity].
  destruct (EfficiencyRatioAnalysis.calculate_er _) as [features|e]; [|reflexivity].
  destruct (EfficiencyRatioAnalysis.tickers_clusters_er _) as [s3 [table|e]]; reflexivity.
Qed.

(** The aggregator writes to [df_er] only, and leaves a frame there. *)
Lemma tickers_clusters_er_fields `{L : Sklearn} `{D : MarketData}
    (s : EfficiencyRatioAnalysis.t) :
  EfficiencyRatioAnalysis.n_clusters (fst (EfficiencyRatioAnalysis.tickers_clusters_er s))
    = EfficiencyRatioAnalysis.n_clusters s /\
  EfficiencyRatioAnalysis.df_tickers (fst (EfficiencyRatioAnalysis.tickers_clusters_er s))
    = EfficiencyRatioAnalysis.df_tickers s /\
  EfficiencyRatioAnalysis.clusters_er (fst (EfficiencyRatioAnalysis.tickers_clusters_er s))
    = EfficiencyRatioAnalysis.clusters_er s /\
  (EfficiencyRatioAnalysis.df_er s <> None ->
   EfficiencyRatioAnalysis.df_er (fst (EfficiencyRatioAnalysis.tickers_clusters_er s))
     <> None).
Proof.
  unfold EfficiencyRatioAnalysis.tickers_clusters_er, EfficiencyRatioAnalysis.put_df_er.
  run_py.
  destruct (EfficiencyRatioAnalysis.df_er s) as [df|] eqn:Hdf;
    [|cbn; rewrite Hdf; tauto].
  destruct (minmax_normalize df) as [norm|e]; [|cbn; rewrite Hdf; repeat split; congruence].
  destruct (snd (KMeansClustering.fit_predict _ _)) as [v|e];
    [|cbn; rewrite Hdf; repeat split; congruence].
  destruct (match v with Ndarray _ => _ | Estimator _ => _ end) as [df1|e];
    [|cbn; rewrite Hdf; repeat split; congruence].
  destruct (mean_axis1 _) as [means|e]; [|cbn; repeat split; congruence].
  destruct (setitem "mean_er" _ df1) as [df2|e]; [|cbn; repeat split; congruence].
  destruct (rename_first_column _ _) as [df4|e]; [|cbn; repeat split; congruence].
  destruct (getitem_list _ df4); cbn; repeat split; congruence.
Qed.

(** A period column is never called [cluster_label] or [mean_er]. *)
Lemma period_names_fresh {A : Type} (f : Z -> A) (lengths : list Z) (name : string) :
  name = "cluster_label"%string \/ name = "mean_er"%string ->
  ~ In name (map fst (map (fun length : Z => (("period_" ++ str length)%string, f length))
                          lengths)).
Proof.
  intros Hname Hin. rewrite map_map in Hin. apply in_map_iff in Hin.
  destruct Hin as (l & E & _). cbn in E. destruct Hname; subst name; discriminate.
Qed.

(** C2, as the code has it: a run that returns has one row per instrument of
    the universe, each instrument exactly once (a ticker listed twice counts
    once), none left out; a run that raises leaves no table at all.  The only
    [dropna] is the one of [load_data], which removes timestamps of the price
    table and keeps one column per ticker: an instrument is never excluded,
    whatever the length of its history. *)
Theorem every_instrument_once `{L : Sklearn} `{D : MarketData}
    (tickers : list string) (sd ed tf : string) (ip ep : Z) (nc : option Z) :
  (snd (EfficiencyRatioAnalysis.init tickers sd ed tf ip ep nc) = Ok tt ->
   exists prices symbols means labels,
     EfficiencyRatioAnalysis.df_tickers
       (fst (EfficiencyRatioAnalysis.init tickers sd ed tf ip ep nc)) = Some prices /\
     map fst (p_columns prices) = tickers /\
     EfficiencyRatioAnalysis.clusters_er
       (fst (EfficiencyRatioAnalysis.init tickers sd ed tf ip ep nc))
     = Some (mkDataFrame (IntS (py_range 0 (Z.of_nat (length symbols))))
               [("symbol"%string, StrS symbols);
                ("mean_er"%string, FloatS means);
                ("cluster_label"%string, IntS labels)]) /\
     symbols = unique_keys tickers /\
     NoDup symbols /\
     (forall t, In t symbols <-> In t tickers) /\
     length means = length symbols /\
     length labels = length symbols)
  /\
  (forall e,
     snd (EfficiencyRatioAnalysis.init tickers sd ed tf ip ep nc) = Raise e ->
     EfficiencyRatioAnalysis.clusters_er
       (fst (EfficiencyRatioAnalysis.init tickers sd ed tf ip ep nc)) = None).
Proof.
  rewrite init_unfold. cbv zeta.
  set (s0 := EfficiencyRatioAnalysis.mk tickers sd ed tf ip ep nc None None None).
  destruct (EfficiencyRatioAnalysis.load_data s0) as [prices|e0] eqn:Hload;
    [|split; [discriminate|reflexivity]].
  set (s1 := EfficiencyRatioAnalysis.set_df_tickers prices s0).
  destruct (EfficiencyRatioAnalysis.calculate_er s1) as [features|e1] eqn:Hcalc;
    [|split; [discriminate|reflexivity]].
  set (s2 := EfficiencyRatioAnalysis.set_df_er features s1).
  pose proof (tickers_clusters_er_fields s2) as (_ & Hdt & Hce & _).
  destruct (EfficiencyRatioAnalysis.tickers_clusters_er s2) as [s3 [table|e2]] eqn:Hrun;
    cbn [fst snd] in *.
  2:{ split; [discriminate|]. intros _ _. exact Hce. }
  split; [|discriminate]. intros _.
  pose proof (load_data_columns s0 prices Hload) as Hcols. cbn in Hcols.
  unfold EfficiencyRatioAnalysis.calculate_er in Hcalc. cbn in Hcalc.
  rewrite er_mean_aligned in Hcalc.
  destruct (py_range ip ep) as [|l0 r] eqn:Hrange; [discriminate|].
  rewrite <- Hrange in Hcalc. injection Hcalc as Hfeat.
  destruct (tickers_clusters_er_run s2 s3 table _ _ (f_equal Some (eq_sym Hfeat)))
    as (labels & _ & Hlen & Hmeans & Htable & _).
  - apply period_names_fresh. now left.
  - apply period_names_fresh. now right.
  - exact Hrun.
  - rewrite Hcols in Hlen, Hmeans, Htable.
    destruct (unique_keys_spec tickers) as [Hnd Hin].
    eexists prices, (unique_keys tickers), _, labels.
    split; [exact Hdt|]. split; [exact Hcols|].
    split; [cbn; rewrite Htable; reflexivity|].
    split; [reflexivity|]. split; [exact Hnd|]. split; [exact Hin|].
    split; [exact Hmeans|exact Hlen].
Qed.

Lemma every_instrument_once_witness :
  snd (Demo.analysis ["A"; "C"; "E"]%string 2 4 (Some 2)) = Ok tt
  /\ exists means labels,
       EfficiencyRatioAnalysis.clusters_er
         (fst (Demo.analysis ["A"; "C"; "E"]%string 2 4 (Some 2)))
       = Some (mkDataFrame (IntS [0; 1; 2])
                 [("symbol"%string, StrS ["A"; "C"; "E"]%string);
                  ("mean_er"%string, FloatS means);
                  ("cluster_label"%string, IntS labels)]).
Proof.
  assert (Hok : snd (Demo.analysis ["A"; "C"; "E"]%string 2 4 (Some 2)) = Ok tt)
    by (vm_compute; reflexivity).
  split; [exact Hok|].
  destruct (every_instrument_once (L := Demo.library) (D := Demo.market)
              ["A"; "C"; "E"]%string "2015-01-01" "2015-01-02" "1h" 2 4 (Some 2))
    as [H _].
  destruct (H Hok) as (prices & symbols & means & labels & _ & _ & Ht & Hs & _).
  exists means, labels. unfold Demo.analysis. rewrite Ht, Hs. reflexivity.
Defined.

(** [B] has two samples and the largest lookback is 3.  [B] is not dropped: it
    is a row of the feature frame, the alignment has cut the history of [A] to
    the two timestamps of [B], no ratio is defined, and the run raises without
    leaving a table for [A] either. *)
Lemma short_history_fails_the_run :
  load_close "B" "2015-01-01" "2015-01-02" "1h" = Ok [(0, Flt 20); (1, Flt 21)]
  /\ EfficiencyRatioAnalysis.df_tickers (fst (Demo.analysis ["A"; "B"]%string 2 4 (Some 2)))
     = Some (mkPriceFrame [0; 1] [("A"%string, [Flt 10; Flt 11]);
                                  ("B"%string, [Flt 20; Flt 21])])
  /\ EfficiencyRatioAnalysis.df_er (fst (Demo.analysis ["A"; "B"]%string 2 4 (Some 2)))
     = Some (mkDataFrame (StrS ["A"; "B"]%string)
               [("period_2"%string, FloatS [NaN; NaN]);
                ("period_3"%string, FloatS [NaN; NaN])])
  /\ snd (Demo.analysis ["A"; "B"]%string 2 4 (Some 2))
     = Raise (ValueError "Input X contains NaN.")
  /\ EfficiencyRatioAnalysis.clusters_er
       (fst (Demo.analysis ["A"; "B"]%string 2 4 (Some 2))) = None
  /\ ~ (exists table symbols,
          snd (Demo.analysis ["A"; "B"]%string 2 4 (Some 2)) = Ok tt /\
          EfficiencyRatioAnalysis.clusters_er
            (fst (Demo.analysis ["A"; "B"]%string 2 4 (Some 2))) = Some table /\
          get_col "symbol" (columns table) = Some (StrS symbols) /\
          In "A"%string symbols /\ ~ In "B"%string symbols).
Proof.
  repeat split; try (vm_compute; reflexivity).
  intros (table & symbols & Hok & _). vm_compute in Hok. discriminate.
Qed.

Lemma kmeans_given_count_ignores_maximum `{L : Sklearn} (X : Matrix) (mc mc' seed n : Z) :
  snd (KMeansClustering.fit_predict X (KMeansClustering.init mc seed (Some n)))
  = snd (KMeansClustering.fit_predict X (KMeansClustering.init mc' seed (Some n))).
Proof.
  unfold KMeansClustering.fit_predict, KMeansClustering.fit, KMeansClustering.kmeans_fit,
    KMeansClustering.predict, KMeans.fit, KMeans.predict, KMeansClustering.init.
  run_py. cbn.
  destruct (sk_kmeans_fit (Some n) seed X) as [m|e]; cbn; [|reflexivity].
  destruct (sk_kmeans_predict m X); reflexivity.
Qed.

Lemma gmm_given_count_ignores_maximum `{L : Sklearn} (X : Matrix) (mc mc' : Z)
    (c : string) (seed n : Z) :
  snd (GMMClustering.fit_predict X (GMMClustering.init mc c (Some n) seed))
  = snd (GMMClustering.fit_predict X (GMMClustering.init mc' c (Some n) seed)).
Proof.
  unfold GMMClustering.fit_predict, GMMClustering.fit, GMMClustering.gmm_fit,
    GMMClustering.predict, GaussianMixture.fit, GaussianMixture.predict, GMMClustering.init.
  run_py. cbn.
  destruct (sk_gmm_fit n seed X) as [m|e]; cbn; [|reflexivity].
  destruct (sk_gmm_predict m X); reflexivity.
Qed.

Lemma agglomerative_given_count_ignores_maximum `{L : Sklearn} (X : Matrix) (mc mc' n : Z) :
  snd (AgglomerativeClusteringOptimal.fit_predict X
         (AgglomerativeClusteringOptimal.init mc (Some n)))
  = snd (AgglomerativeClusteringOptimal.fit_predict X
           (AgglomerativeClusteringOptimal.init mc' (Some n))).
Proof.
  unfold AgglomerativeClusteringOptimal.fit_predict, AgglomerativeClusteringOptimal.fit,
    AgglomerativeClusteringOptimal.model_fit, AgglomerativeClusteringOptimal.predict,
    AgglomerativeClustering.fit, AgglomerativeClusteringOptimal.init.
  run_py. cbn.
  destruct (sk_agglomerative_labels n X) as [l|e] eqn:Hl; cbn; [|reflexivity].
  unfold AgglomerativeClustering.fit. cbn. rewrite Hl. reflexivity.
Qed.

(** C7, as the code has it.  An empty list of tickers makes [load_data] raise
    pandas' [ValueError] before any frame exists.  An empty range of lookbacks
    ([end_period <= init_period]) makes the run raise before a feature frame
    exists; when the prices loaded, the exception is again pandas'
    [ValueError], raised by [calculate_er].  A maximum cluster count is an
    input of the strategies, and nothing validates it there: when a count is
    given the maximum is not read, so every maximum, positive or not, gives
    the same labels or the same exception; under automatic selection a
    non-positive maximum leaves the mixture and the hierarchical variant with
    an empty sweep, and [fit] raises numpy's [ValueError] for the [argmin] of
    an empty sequence, the object unchanged. *)
Theorem invalid_input_outcomes `{L : Sklearn} `{D : MarketData}
    (tickers : list string) (sd ed tf : string) (ip ep : Z) (nc : option Z) :
  (tickers = [] ->
   EfficiencyRatioAnalysis.init tickers sd ed tf ip ep nc
   = (EfficiencyRatioAnalysis.mk [] sd ed tf ip ep nc None None None,
      Raise (ValueError "No objects to concatenate")))
  /\
  (ep <= ip ->
   (exists e, snd (EfficiencyRatioAnalysis.init tickers sd ed tf ip ep nc) = Raise e) /\
   EfficiencyRatioAnalysis.df_er
     (fst (EfficiencyRatioAnalysis.init tickers sd ed tf ip ep nc)) = None /\
   EfficiencyRatioAnalysis.clusters_er
     (fst (EfficiencyRatioAnalysis.init tickers sd ed tf ip ep nc)) = None /\
   (forall prices,
      EfficiencyRatioAnalysis.load_data
        (EfficiencyRatioAnalysis.mk tickers sd ed tf ip ep nc None None None) = Ok prices ->
      snd (EfficiencyRatioAnalysis.init tickers sd ed tf ip ep nc)
      = Raise (ValueError "No objects to concatenate")))
  /\
  (forall X : Matrix,
     (forall mc mc' seed n,
        snd (KMeansClustering.fit_predict X (KMeansClustering.init mc seed (Some n)))
        = snd (KMeansClustering.fit_predict X (KMeansClustering.init mc' seed (Some n)))) /\
     (forall mc mc' c seed n,
        snd (GMMClustering.fit_predict X (GMMClustering.init mc c (Some n) seed))
        = snd (GMMClustering.fit_predict X (GMMClustering.init mc' c (Some n) seed))) /\
     (forall mc mc' n,
        snd (AgglomerativeClusteringOptimal.fit_predict X
               (AgglomerativeClusteringOptimal.init mc (Some n)))
        = snd (AgglomerativeClusteringOptimal.fit_predict X
                 (AgglomerativeClusteringOptimal.init mc' (Some n)))) /\
     (forall s,
        GMMClustering.n_components s = None ->
        GMMClustering.max_components s <= 0 ->
        GMMClustering.fit X s
        = (s, Raise (ValueError "attempt to get argmin of an empty sequence"))) /\
     (forall s,
        AgglomerativeClusteringOptimal.n_clusters s = None ->
        AgglomerativeClusteringOptimal.max_clusters s <= 0 ->
        AgglomerativeClusteringOptimal.fit X s
        = (s, Raise (ValueError "attempt to get argmin of an empty sequence")))).
Proof.
  split; [intros ->; reflexivity|].
  rewrite init_unfold. cbv zeta.
  set (s0 := EfficiencyRatioAnalysis.mk tickers sd ed tf ip ep nc None None None).
  split.
  - intros Hrange.
    destruct (EfficiencyRatioAnalysis.load_data s0) as [prices|e0] eqn:Hload.
    2:{ cbn. split; [now exists e0|]. split; [reflexivity|]. split; [reflexivity|].
        intros prices H. discriminate. }
    assert (Hcalc : EfficiencyRatioAnalysis.calculate_er
                      (EfficiencyRatioAnalysis.set_df_tickers prices s0)
                    = Raise (ValueError "No objects to concatenate")).
    { unfold EfficiencyRatioAnalysis.calculate_er. cbn.
      unfold py_range. replace (Z.to_nat (ep - ip)) with 0%nat by lia. reflexivity. }
    rewrite Hcalc. cbn. split; [eexists; reflexivity|].
    split; [reflexivity|]. split; [reflexivity|]. intros prices' _. reflexivity.
  - intros X. split; [|split; [|split; [|split]]].
    + intros mc mc' seed n. apply kmeans_given_count_ignores_maximum.
    + intros mc mc' c seed n. apply gmm_given_count_ignores_maximum.
    + intros mc mc' n. apply agglomerative_given_count_ignores_maximum.
    + intros s Hn Hmax. unfold GMMClustering.fit, GMMClustering.criterions. run_py.
      rewrite Hn. unfold py_range.
      replace (Z.to_nat (GMMClustering.max_components s + 1 - 1)) with 0%nat by lia.
      reflexivity.
    + intros s Hn Hmax. unfold AgglomerativeClusteringOptimal.fit,
        AgglomerativeClusteringOptimal.find_optimal_clusters,
        AgglomerativeClusteringOptimal.calculate_wcss. run_py.
      rewrite Hn. unfold py_range.
      replace (Z.to_nat (AgglomerativeClusteringOptimal.max_clusters s + 1 - 1))
        with 0%nat by lia.
      reflexivity.
Qed.

Lemma invalid_input_outcomes_witness :
  Demo.analysis [] 2 4 (Some 2)
  = (EfficiencyRatioAnalysis.mk [] "2015-01-01" "2015-01-02" "1h" 2 4 (Some 2)
       None None None,
     Raise (ValueError "No objects to concatenate"))
  /\ snd (Demo.analysis ["A"; "C"]%string 4 4 (Some 2))
     = Raise (ValueError "No objects to concatenate")
  /\ EfficiencyRatioAnalysis.df_er (fst (Demo.analysis ["A"; "C"]%string 4 4 (Some 2)))
     = None
  /\ snd (KMeansClustering.fit_predict Demo.X2 (KMeansClustering.init 0 42 (Some 2)))
     = snd (KMeansClustering.fit_predict Demo.X2 (KMeansClustering.init 10 42 (Some 2)))
  /\ GMMClustering.fit Demo.X2 (GMMClustering.init 0 "bic" None 42)
     = (GMMClustering.init 0 "bic" None 42,
        Raise (ValueError "attempt to get argmin of an empty sequence")).
Proof.
  split; [|split; [|split; [|split]]].
  - apply (proj1 (invalid_input_outcomes (L := Demo.library) (D := Demo.market)
                    [] "2015-01-01" "2015-01-02" "1h" 2 4 (Some 2))).
    reflexivity.
  - destruct (proj1 (proj2 (invalid_input_outcomes (L := Demo.library) (D := Demo.market)
                              ["A"; "C"]%string "2015-01-01" "2015-01-02" "1h" 4 4
                              (Some 2))))
      as (_ & _ & _ & H); [lia|].
    eapply H. vm_compute. reflexivity.
  - destruct (proj1 (proj2 (invalid_input_outcomes (L := Demo.library) (D := Demo.market)
                              ["A"; "C"]%string "2015-01-01" "2015-01-02" "1h" 4 4
                              (Some 2))))
      as (_ & H & _); [lia|exact H].
  - destruct (proj2 (proj2 (invalid_input_outcomes (L := Demo.library) (D := Demo.market)
                              [] "2015-01-01" "2015-01-02" "1h" 2 4 (Some 2)))
                Demo.X2) as (H & _).
    apply H.
  - destruct (proj2 (proj2 (invalid_input_outcomes (L := Demo.library) (D := Demo.market)
                              [] "2015-01-01" "2015-01-02" "1h" 2 4 (Some 2)))
                Demo.X2) as (_ & _ & _ & H & _).
    apply (H (GMMClustering.init 0 "bic" None 42)); [reflexivity|cbn; lia].
Defined.

(** Nothing checks the inputs.  The two invalid inputs an analysis can be given
    end in one and the same exception, the one pandas raises when it is asked
    to concatenate nothing; it names neither the tickers nor the periods.  A
    maximum cluster count exists in the strategies only (the analysis builds
    its strategy with the default maximum), and a non-positive maximum is not
    rejected there: with a count given, each of the three strategies clusters
    the data and returns labels. *)
Lemma nonpositive_maximum_is_not_rejected :
  snd (Demo.analysis [] 2 4 (Some 2)) = Raise (ValueError "No objects to concatenate")
  /\ snd (Demo.analysis ["A"; "C"]%string 4 4 (Some 2))
     = Raise (ValueError "No objects to concatenate")
  /\ (exists labels,
        snd (KMeansClustering.fit_predict Demo.X4 (KMeansClustering.init 0 42 (Some 2)))
        = Ok (Ndarray labels) /\ length labels = 4%nat)
  /\ (exists labels,
        snd (GMMClustering.fit_predict Demo.X4 (GMMClustering.init (-1) "bic" (Some 2) 42))
        = Ok (Ndarray labels) /\ length labels = 4%nat)
  /\ (exists labels,
        snd (AgglomerativeClusteringOptimal.fit_predict Demo.X4
               (AgglomerativeClusteringOptimal.init 0 (Some 2)))
        = Ok (Ndarray labels) /\ length labels = 4%nat)
  /\ ~ (exists e,
          snd (KMeansClustering.fit_predict Demo.X4 (KMeansClustering.init 0 42 (Some 2)))
          = Raise e)
  /\ ~ (exists e,
          snd (GMMClustering.fit_predict Demo.X4 (GMMClustering.init (-1) "bic" (Some 2) 42))
          = Raise e)
  /\ ~ (exists e,
          snd (AgglomerativeClusteringOptimal.fit_predict Demo.X4
                 (AgglomerativeClusteringOptimal.init 0 (Some 2)))
          = Raise e).
Proof.
  split; [vm_compute; reflexivity|]. split; [vm_compute; reflexivity|].
  split; [exists [0; 1; 1; 1]; split; vm_compute; reflexivity|].
  split; [exists [0; 1; 1; 1]; split; vm_compute; reflexivity|].
  split; [exists [0; 1; 1; 1]; split; vm_compute; reflexivity|].
  split; [|split]; intros (e & He); vm_compute in He; discriminate.
Qed.

(* ========================================================================= *)
(** * Further properties of the strategies *)

(** X1: a count given at construction is used as it is.  Whatever
    [max_clusters], the criterion and the knee detector would say, [fit] returns
    as soon as the library fits a model with that count, the model stored is
    that one, and the getter answers with the count given. *)
Theorem explicit_count_is_used_verbatim `{L : Sklearn} (X : Matrix) (k : Z) :
  (forall s m,
     KMeansClustering.n_clusters s = Some k ->
     sk_kmeans_fit (Some k) (KMeansClustering.random_state s) X = Ok m ->
     exists s',
       KMeansClustering.fit X s = (s', Ok tt) /\
       KMeansClustering.kmeans s'
       = Some (KMeans.mk (Some k) (KMeansClustering.random_state s) (Some m)) /\
       KMeansClustering.get_optimal_clusters s' = (s', Ok k))
  /\
  (forall s m,
     GMMClustering.n_components s = Some k ->
     sk_gmm_fit k (GMMClustering.random_state s) X = Ok m ->
     exists s',
       GMMClustering.fit X s = (s', Ok tt) /\
       GMMClustering.gmm s'
       = Some (GaussianMixture.mk k (GMMClustering.random_state s) (Some m)) /\
       GMMClustering.get_optimal_components s' = (s', Ok k))
  /\
  (forall s labels,
     AgglomerativeClusteringOptimal.n_clusters s = Some k ->
     sk_agglomerative_labels k X = Ok labels ->
     exists s',
       AgglomerativeClusteringOptimal.fit X s = (s', Ok tt) /\
       AgglomerativeClusteringOptimal.model s'
       = Some (AgglomerativeClustering.mk k (Some labels)) /\
       AgglomerativeClusteringOptimal.get_optimal_clusters s' = (s', Ok k)).
Proof.
  split; [|split].
  - intros s m Hn Hm. eexists. split; [|split].
    + unfold KMeansClustering.fit, KMeansClustering.kmeans_fit, KMeans.fit.
      run_py. rewrite Hn. cbn. rewrite Hm. reflexivity.
    + reflexivity.
    + reflexivity.
  - intros s m Hn Hm. eexists. split; [|split].
    + unfold GMMClustering.fit, GMMClustering.gmm_fit, GaussianMixture.fit.
      run_py. rewrite Hn. cbn. rewrite Hm. reflexivity.
    + reflexivity.
    + reflexivity.
  - intros s labels Hn Hl. eexists. split; [|split].
    + unfold AgglomerativeClusteringOptimal.fit,
        AgglomerativeClusteringOptimal.model_fit, AgglomerativeClustering.fit.
      run_py. rewrite Hn. cbn. rewrite Hl. reflexivity.
    + reflexivity.
    + reflexivity.
Qed.

Lemma explicit_count_is_used_verbatim_witness :
  KMeansClustering.get_optimal_clusters
    (fst (KMeansClustering.fit Demo.X4 (KMeansClustering.init 10 42 (Some 2))))
  = (fst (KMeansClustering.fit Demo.X4 (KMeansClustering.init 10 42 (Some 2))), Ok 2)
  /\ GMMClustering.get_optimal_components
       (fst (GMMClustering.fit Demo.X4 (GMMClustering.init 10 "bic" (Some 3) 42)))
     = (fst (GMMClustering.fit Demo.X4 (GMMClustering.init 10 "bic" (Some 3) 42)), Ok 3)
  /\ AgglomerativeClusteringOptimal.get_optimal_clusters
       (fst (AgglomerativeClusteringOptimal.fit Demo.X4
               (AgglomerativeClusteringOptimal.init 1 (Some 4))))
     = (fst (AgglomerativeClusteringOptimal.fit Demo.X4
               (AgglomerativeClusteringOptimal.init 1 (Some 4))), Ok 4).
Proof.
  split; [|split].
  - destruct (proj1 (explicit_count_is_used_verbatim (L := Demo.library) Demo.X4 2)
                (KMeansClustering.init 10 42 (Some 2)) [[Demo.q 0]; [Demo.q 1]]
                eq_refl eq_refl) as (s' & Hf & _ & Hg).
    rewrite Hf. exact Hg.
  - destruct (proj1 (proj2 (explicit_count_is_used_verbatim (L := Demo.library) Demo.X4 3))
                (GMMClustering.init 10 "bic" (Some 3) 42)
                (3, [[Demo.q 0]; [Demo.q 1]; [Demo.q 10]])
                eq_refl eq_refl) as (s' & Hf & _ & Hg).
    rewrite Hf. exact Hg.
  - destruct (proj2 (proj2 (explicit_count_is_used_verbatim (L := Demo.library) Demo.X4 4))
                (AgglomerativeClusteringOptimal.init 1 (Some 4)) [0; 1; 2; 3]
                eq_refl eq_refl) as (s' & Hf & _ & Hg).
    rewrite Hf. exact Hg.
Defined.

Ltac unfold_setters :=
  unfold KMeansClustering.set_kmeans, KMeansClustering.set_optimal_clusters,
    GMMClustering.set_gmm, GMMClustering.set_optimal_components,
    AgglomerativeClusteringOptimal.set_model,
    AgglomerativeClusteringOptimal.set_optimal_clusters in *.

(** What a returning [fit] leaves in the object. *)
Lemma gmm_fit_ok_state `{L : Sklearn} (X : Matrix) (s s' : GMMClustering.t) :
  GMMClustering.fit X s = (s', Ok tt) ->
  exists k m,
    sk_gmm_fit k (GMMClustering.random_state s) X = Ok m /\
    s' = GMMClustering.mk (GMMClustering.max_components s) (GMMClustering.criterion s)
           (GMMClustering.n_components s) (GMMClustering.random_state s) (Some k)
           (Some (GaussianMixture.mk k (GMMClustering.random_state s) (Some m))) /\
    (forall n, GMMClustering.n_components s = Some n -> k = n).
Proof.
  unfold GMMClustering.fit, GMMClustering.gmm_fit, GaussianMixture.fit. run_py.
  destruct (GMMClustering.n_components s) as [n|] eqn:Hn.
  - cbn. rewrite ?Hn.
    destruct (sk_gmm_fit n (GMMClustering.random_state s) X) as [m|e] eqn:Hm;
      [|discriminate].
    intros H. injection H as <-. exists n, m. repeat split; try congruence; unfold_setters; cbn; rewrite ?Hn; reflexivity.
  - destruct (GMMClustering.criterions s X) as [cs|e]; [|discriminate].
    destruct (np_argmin cs) as [i|e]; [|discriminate].
    cbn. rewrite ?Hn.
    destruct (sk_gmm_fit (i + 1) (GMMClustering.random_state s) X) as [m|e] eqn:Hm;
      [|discriminate].
    intros H. injection H as <-. exists (i + 1), m. repeat split; try congruence; unfold_setters; cbn; rewrite ?Hn; reflexivity.
Qed.

Lemma agglomerative_fit_ok_state `{L : Sklearn} (X : Matrix)
    (s s' : AgglomerativeClusteringOptimal.t) :
  AgglomerativeClusteringOptimal.fit X s = (s', Ok tt) ->
  exists k labels,
    sk_agglomerative_labels k X = Ok labels /\
    s' = AgglomerativeClusteringOptimal.mk (AgglomerativeClusteringOptimal.max_clusters s)
           (AgglomerativeClusteringOptimal.n_clusters s) (Some k)
           (Some (AgglomerativeClustering.mk k (Some labels))) /\
    (forall n, AgglomerativeClusteringOptimal.n_clusters s = Some n -> k = n).
Proof.
  unfold AgglomerativeClusteringOptimal.fit, AgglomerativeClusteringOptimal.model_fit,
    AgglomerativeClustering.fit. run_py.
  destruct (AgglomerativeClusteringOptimal.n_clusters s) as [n|] eqn:Hn.
  - cbn. rewrite ?Hn.
    destruct (sk_agglomerative_labels n X) as [l|e] eqn:Hl; [|discriminate].
    intros H. injection H as <-. exists n, l. repeat split; try congruence; unfold_setters; cbn; rewrite ?Hn; reflexivity.
  - destruct (AgglomerativeClusteringOptimal.find_optimal_clusters s X) as [k|e];
      [|discriminate].
    cbn. rewrite ?Hn.
    destruct (sk_agglomerative_labels k X) as [l|e] eqn:Hl; [|discriminate].
    intros H. injection H as <-. exists k, l. repeat split; try congruence; unfold_setters; cbn; rewrite ?Hn; reflexivity.
Qed.

Lemma kmeans_fit_ok_state `{L : Sklearn} (X : Matrix) (s s' : KMeansClustering.t) :
  KMeansClustering.fit X s = (s', Ok tt) ->
  exists k m,
    sk_kmeans_fit k (KMeansClustering.random_state s) X = Ok m /\
    s' = KMeansClustering.mk (KMeansClustering.max_clusters s)
           (KMeansClustering.random_state s) (KMeansClustering.n_clusters s) k
           (Some (KMeans.mk k (KMeansClustering.random_state s) (Some m))) /\
    match KMeansClustering.n_clusters s with
    | Some n => k = Some n
    | None =>
        yb_elbow_value (KMeansClustering.random_state s)
                       (2, KMeansClustering.max_clusters s) X = Ok k
    end.
Proof.
  unfold KMeansClustering.fit, KMeansClustering.kmeans_fit, KMeans.fit. run_py.
  destruct (KMeansClustering.n_clusters s) as [n|] eqn:Hn.
  - cbn. rewrite ?Hn.
    destruct (sk_kmeans_fit (Some n) (KMeansClustering.random_state s) X) as [m|e] eqn:Hm;
      [|discriminate].
    intros H. injection H as <-. exists (Some n), m. repeat split; try congruence; unfold_setters; cbn; rewrite ?Hn; reflexivity.
  - destruct (yb_elbow_value _ _ X) as [k|e] eqn:Hy; [|discriminate].
    cbn. rewrite ?Hn.
    destruct (sk_kmeans_fit k (KMeansClustering.random_state s) X) as [m|e] eqn:Hm;
      [|discriminate].
    intros H. injection H as <-. exists k, m. repeat split; try congruence; unfold_setters; cbn; rewrite ?Hn; reflexivity.
Qed.

(** X2: the getter of the selected count after [fit].  For the mixture and the
    hierarchical variant a [fit] that returned is always followed by a getter
    that returns a count.  For the centroid variant the getter returns exactly
    what was given or what the knee detector found; when the detector found no
    knee the getter raises the [ValueError] of an unfitted model, although
    [fit] was called.  In every case the getter leaves the object as it is. *)
Theorem getter_after_fit `{L : Sklearn} (X : Matrix) :
  (forall s s', GMMClustering.fit X s = (s', Ok tt) ->
     exists k, GMMClustering.get_optimal_components s' = (s', Ok k))
  /\ (forall s s', AgglomerativeClusteringOptimal.fit X s = (s', Ok tt) ->
     exists k, AgglomerativeClusteringOptimal.get_optimal_clusters s' = (s', Ok k))
  /\ (forall s s' n, KMeansClustering.fit X s = (s', Ok tt) ->
     KMeansClustering.n_clusters s = Some n ->
     KMeansClustering.get_optimal_clusters s' = (s', Ok n))
  /\ (forall s s' k, KMeansClustering.fit X s = (s', Ok tt) ->
     KMeansClustering.n_clusters s = None ->
     yb_elbow_value (KMeansClustering.random_state s)
                    (2, KMeansClustering.max_clusters s) X = Ok (Some k) ->
     KMeansClustering.get_optimal_clusters s' = (s', Ok k))
  /\ (forall s,
     KMeansClustering.n_clusters s = None ->
     yb_elbow_value (KMeansClustering.random_state s)
                    (2, KMeansClustering.max_clusters s) X = Ok None ->
     KMeansClustering.get_optimal_clusters (fst (KMeansClustering.fit X s))
     = (fst (KMeansClustering.fit X s),
        Raise (ValueError
          "El modelo debe ser ajustado antes de obtener el número óptimo de clusters."))).
Proof.
  split; [|split; [|split; [|split]]].
  - intros s s' H. destruct (gmm_fit_ok_state X s s' H) as (k & m & _ & -> & _).
    now exists k.
  - intros s s' H. destruct (agglomerative_fit_ok_state X s s' H) as (k & l & _ & -> & _).
    now exists k.
  - intros s s' n H Hn. destruct (kmeans_fit_ok_state X s s' H) as (k & m & _ & -> & Hk).
    rewrite Hn in Hk. subst k. reflexivity.
  - intros s s' k H Hn Hy.
    destruct (kmeans_fit_ok_state X s s' H) as (k' & m & _ & -> & Hk).
    rewrite Hn, Hy in Hk. injection Hk as <-. reflexivity.
  - intros s Hn Hy. unfold KMeansClustering.fit, KMeansClustering.kmeans_fit, KMeans.fit.
    run_py. rewrite Hn. cbn. rewrite Hy. cbn.
    destruct (sk_kmeans_fit None (KMeansClustering.random_state s) X); reflexivity.
Qed.

Lemma getter_after_fit_witness :
  (exists k,
     GMMClustering.get_optimal_components
       (fst (GMMClustering.fit Demo.X4 (GMMClustering.init 3 "aic" None 42)))
     = (fst (GMMClustering.fit Demo.X4 (GMMClustering.init 3 "aic" None 42)), Ok k))
  /\ (exists k,
     AgglomerativeClusteringOptimal.get_optimal_clusters
       (fst (AgglomerativeClusteringOptimal.fit Demo.X4
               (AgglomerativeClusteringOptimal.init 4 None)))
     = (fst (AgglomerativeClusteringOptimal.fit Demo.X4
               (AgglomerativeClusteringOptimal.init 4 None)), Ok k))
  /\ KMeansClustering.get_optimal_clusters
       (fst (KMeansClustering.fit Demo.X4 (KMeansClustering.init 10 42 (Some 2))))
     = (fst (KMeansClustering.fit Demo.X4 (KMeansClustering.init 10 42 (Some 2))), Ok 2)
  /\ KMeansClustering.get_optimal_clusters
       (fst (KMeansClustering.fit Demo.X4 (KMeansClustering.init 10 42 None)))
     = (fst (KMeansClustering.fit Demo.X4 (KMeansClustering.init 10 42 None)), Ok 2)
  /\ snd (KMeansClustering.get_optimal_clusters
            (fst (KMeansClustering.fit Demo.X2 (KMeansClustering.init 10 42 None))))
     = Raise (ValueError
         "El modelo debe ser ajustado antes de obtener el número óptimo de clusters.").
Proof.
  destruct (getter_after_fit (L := Demo.library) Demo.X4) as (Hg & Ha & Hk & Hk' & _).
  destruct (getter_after_fit (L := Demo.library) Demo.X2) as (_ & _ & _ & _ & Hnone).
  split; [|split; [|split; [|split]]].
  - apply (Hg (GMMClustering.init 3 "aic" None 42)). vm_compute. reflexivity.
  - apply (Ha (AgglomerativeClusteringOptimal.init 4 None)). vm_compute. reflexivity.
  - apply (Hk (KMeansClustering.init 10 42 (Some 2))); vm_compute; reflexivity.
  - apply (Hk' (KMeansClustering.init 10 42 None)); vm_compute; reflexivity.
  - rewrite (Hnone (KMeansClustering.init 10 42 None)); reflexivity.
Defined.

(** X3: a [fit] that fails in the library's final fit has already stored the
    count and a new estimator.  So the count can be read back, and the guard of
    [predict] no longer fires: [predict] is answered by the library, on
    whatever the failed [fit] left on the estimator.  For the centroid and the
    mixture variant that is [NotFittedError] when [fit] set no attribute
    before it raised, and the library's own [predict] on the attributes that
    are there otherwise; the hierarchical [predict] tries the fit again on its
    argument. *)
Theorem failed_fit_leaves_half_made_estimator `{L : Sklearn} (X : Matrix) (k : Z) (e : exn) :
  (forall s,
     KMeansClustering.n_clusters s = Some k ->
     sk_kmeans_fit (Some k) (KMeansClustering.random_state s) X = Raise e ->
     exists s',
       KMeansClustering.fit X s = (s', Raise e) /\
       KMeansClustering.get_optimal_clusters s' = (s', Ok k) /\
       KMeansClustering.kmeans s'
       = Some (KMeans.mk (Some k) (KMeansClustering.random_state s)
                 (sk_kmeans_fit_leftover None (Some k) (KMeansClustering.random_state s) X)) /\
       (sk_kmeans_fit_leftover None (Some k) (KMeansClustering.random_state s) X = None ->
        forall X', exists msg,
          KMeansClustering.predict X' s' = (s', Raise (NotFittedError msg))) /\
       (forall m X',
          sk_kmeans_fit_leftover None (Some k) (KMeansClustering.random_state s) X = Some m ->
          KMeansClustering.predict X' s'
          = (s', match sk_kmeans_predict m X' with
                 | Ok labels => Ok (Ndarray labels)
                 | Raise e' => Raise e'
                 end)))
  /\
  (forall s,
     GMMClustering.n_components s = Some k ->
     sk_gmm_fit k (GMMClustering.random_state s) X = Raise e ->
     exists s',
       GMMClustering.fit X s = (s', Raise e) /\
       GMMClustering.get_optimal_components s' = (s', Ok k) /\
       GMMClustering.gmm s'
       = Some (GaussianMixture.mk k (GMMClustering.random_state s)
                 (sk_gmm_fit_leftover None k (GMMClustering.random_state s) X)) /\
       (sk_gmm_fit_leftover None k (GMMClustering.random_state s) X = None ->
        forall X', exists msg,
          GMMClustering.predict X' s' = (s', Raise (NotFittedError msg))) /\
       (forall m X',
          sk_gmm_fit_leftover None k (GMMClustering.random_state s) X = Some m ->
          GMMClustering.predict X' s'
          = (s', match sk_gmm_predict m X' with
                 | Ok labels => Ok (Ndarray labels)
                 | Raise e' => Raise e'
                 end)))
  /\
  (forall s,
     AgglomerativeClusteringOptimal.n_clusters s = Some k ->
     sk_agglomerative_labels k X = Raise e ->
     exists s',
       AgglomerativeClusteringOptimal.fit X s = (s', Raise e) /\
       AgglomerativeClusteringOptimal.get_optimal_clusters s' = (s', Ok k) /\
       AgglomerativeClusteringOptimal.model s' = Some (AgglomerativeClustering.new k) /\
       AgglomerativeClusteringOptimal.predict X s' = (s', Raise e)).
Proof.
  split; [|split].
  - intros s Hn He. eexists. split; [|split; [|split; [|split]]].
    + unfold KMeansClustering.fit, KMeansClustering.kmeans_fit, KMeans.fit.
      run_py. rewrite Hn. cbn. rewrite He. reflexivity.
    + reflexivity.
    + reflexivity.
    + intros Hleft X'. eexists.
      unfold KMeansClustering.predict, KMeans.predict. run_py. cbn.
      rewrite Hleft. reflexivity.
    + intros m X' Hleft.
      unfold KMeansClustering.predict, KMeans.predict. run_py. cbn.
      rewrite Hleft. destruct (sk_kmeans_predict m X'); reflexivity.
  - intros s Hn He. eexists. split; [|split; [|split; [|split]]].
    + unfold GMMClustering.fit, GMMClustering.gmm_fit, GaussianMixture.fit.
      run_py. rewrite Hn. cbn. rewrite He. reflexivity.
    + reflexivity.
    + reflexivity.
    + intros Hleft X'. eexists.
      unfold GMMClustering.predict, GaussianMixture.predict. run_py. cbn.
      rewrite Hleft. reflexivity.
    + intros m X' Hleft.
      unfold GMMClustering.predict, GaussianMixture.predict. run_py. cbn.
      rewrite Hleft. destruct (sk_gmm_predict m X'); reflexivity.
  - intros s Hn He. eexists. split; [|split; [|split]].
    + unfold AgglomerativeClusteringOptimal.fit,
        AgglomerativeClusteringOptimal.model_fit, AgglomerativeClustering.fit.
      run_py. rewrite Hn. cbn. rewrite He. reflexivity.
    + reflexivity.
    + reflexivity.
    + unfold AgglomerativeClusteringOptimal.predict,
        AgglomerativeClusteringOptimal.model_fit, AgglomerativeClustering.fit.
      run_py. cbn. rewrite He. reflexivity.
Qed.

Lemma failed_fit_leaves_half_made_estimator_witness :
  KMeansClustering.fit Demo.X2 (KMeansClustering.init 10 42 (Some 3))
  = (KMeansClustering.mk 10 42 (Some 3) (Some 3) (Some (KMeans.mk (Some 3) 42 (Some []))),
     Raise (ValueError "n_samples should be >= n_clusters."))
  /\ KMeansClustering.predict Demo.X2
       (KMeansClustering.mk 10 42 (Some 3) (Some 3) (Some (KMeans.mk (Some 3) 42 (Some []))))
     = (KMeansClustering.mk 10 42 (Some 3) (Some 3) (Some (KMeans.mk (Some 3) 42 (Some []))),
        Raise (AttributeError "'KMeans' object has no attribute 'cluster_centers_'")).
Proof.
  destruct (proj1 (failed_fit_leaves_half_made_estimator (L := Demo.library) Demo.X2 3
                     (ValueError "n_samples should be >= n_clusters."))
              (KMeansClustering.init 10 42 (Some 3)) eq_refl eq_refl)
    as (s' & Hf & _ & Hk & _ & Hp).
  assert (Hs : s' = KMeansClustering.mk 10 42 (Some 3) (Some 3)
                      (Some (KMeans.mk (Some 3) 42 (Some [])))).
  { change s' with (fst (s', @Raise unit (ValueError "n_samples should be >= n_clusters."))).
    rewrite <- Hf. reflexivity. }
  subst s'. split; [exact Hf|]. apply (Hp [] Demo.X2). reflexivity.
Defined.

Ltac fin_refit H :=
  split; [reflexivity
         | first [discriminate
                 | intros _; unfold_setters; cbn; rewrite ?H; reflexivity]].

(** X4: [fit] starts from the configuration only.  Fitting a strategy that was
    fitted before gives the outcome of fitting a fresh strategy with the same
    configuration, and, when it returns, the very same object: nothing of the
    earlier fit survives. *)
Theorem refit_starts_afresh `{L : Sklearn} (X : Matrix) :
  (forall s,
     let fresh := KMeansClustering.init (KMeansClustering.max_clusters s)
                    (KMeansClustering.random_state s) (KMeansClustering.n_clusters s) in
     snd (KMeansClustering.fit X s) = snd (KMeansClustering.fit X fresh) /\
     (snd (KMeansClustering.fit X s) = Ok tt ->
      fst (KMeansClustering.fit X s) = fst (KMeansClustering.fit X fresh)))
  /\
  (forall s,
     let fresh := GMMClustering.init (GMMClustering.max_components s)
                    (GMMClustering.criterion s) (GMMClustering.n_components s)
                    (GMMClustering.random_state s) in
     snd (GMMClustering.fit X s) = snd (GMMClustering.fit X fresh) /\
     (snd (GMMClustering.fit X s) = Ok tt ->
      fst (GMMClustering.fit X s) = fst (GMMClustering.fit X fresh)))
  /\
  (forall s,
     let fresh := AgglomerativeClusteringOptimal.init
                    (AgglomerativeClusteringOptimal.max_clusters s)
                    (AgglomerativeClusteringOptimal.n_clusters s) in
     snd (AgglomerativeClusteringOptimal.fit X s)
     = snd (AgglomerativeClusteringOptimal.fit X fresh) /\
     (snd (AgglomerativeClusteringOptimal.fit X s) = Ok tt ->
      fst (AgglomerativeClusteringOptimal.fit X s)
      = fst (AgglomerativeClusteringOptimal.fit X fresh))).
Proof.
  split; [|split]; intros s fresh; subst fresh.
  - unfold KMeansClustering.fit, KMeansClustering.kmeans_fit, KMeans.fit,
      KMeansClustering.init. run_py. cbn.
    destruct (KMeansClustering.n_clusters s) as [n|] eqn:Hn; cbn.
    + destruct (sk_kmeans_fit (Some n) _ X); cbn; fin_refit Hn.
    + destruct (yb_elbow_value _ _ X) as [k|e]; cbn; [|fin_refit Hn].
      destruct (sk_kmeans_fit k _ X); cbn; fin_refit Hn.
  - unfold GMMClustering.fit, GMMClustering.gmm_fit, GaussianMixture.fit,
      GMMClustering.init, GMMClustering.criterions, GMMClustering.score. run_py. cbn.
    destruct (GMMClustering.n_components s) as [n|] eqn:Hn; cbn.
    + destruct (sk_gmm_fit n _ X); cbn; fin_refit Hn.
    + destruct (mapM _ _) as [cs|e]; cbn; [|fin_refit Hn].
      destruct (np_argmin cs) as [i|e]; cbn; [|fin_refit Hn].
      destruct (sk_gmm_fit (i + 1) _ X); cbn; fin_refit Hn.
  - unfold AgglomerativeClusteringOptimal.fit, AgglomerativeClusteringOptimal.model_fit,
      AgglomerativeClustering.fit, AgglomerativeClusteringOptimal.init,
      AgglomerativeClusteringOptimal.find_optimal_clusters,
      AgglomerativeClusteringOptimal.calculate_wcss. run_py. cbn.
    destruct (AgglomerativeClusteringOptimal.n_clusters s) as [n|] eqn:Hn; cbn.
    + destruct (sk_agglomerative_labels n X); cbn; fin_refit Hn.
    + destruct (mapM _ _) as [w|e]; cbn; [|fin_refit Hn].
      destruct (np_argmin _) as [i|e]; cbn; [|fin_refit Hn].
      destruct (sk_agglomerative_labels (i + 2) X); cbn; fin_refit Hn.
Qed.

Lemma refit_starts_afresh_witness :
  snd (KMeansClustering.fit Demo.X2
         (fst (KMeansClustering.fit Demo.X4 (KMeansClustering.init 10 42 (Some 2)))))
  = Ok tt
  /\ fst (KMeansClustering.fit Demo.X2
            (fst (KMeansClustering.fit Demo.X4 (KMeansClustering.init 10 42 (Some 2)))))
     = fst (KMeansClustering.fit Demo.X2 (KMeansClustering.init 10 42 (Some 2))).
Proof.
  destruct (proj1 (refit_starts_afresh (L := Demo.library) Demo.X2)
              (fst (KMeansClustering.fit Demo.X4 (KMeansClustering.init 10 42 (Some 2)))))
    as [_ H].
  split; [reflexivity|]. apply H. reflexivity.
Defined.

Lemma map_seq_offset {A : Type} (n : nat) :
  forall (f : nat -> A) a, map f (seq a n) = map (fun i => f (a + i)%nat) (seq 0 n).
Proof.
  induction n as [|n IH]; intros f a; [reflexivity|].
  cbn [seq map]. rewrite Nat.add_0_r. f_equal.
  rewrite (IH f (S a)), (IH (fun i => f (a + i)%nat) 1%nat).
  apply map_ext. intros i. f_equal. lia.
Qed.

Lemma py_range_split (a m b : Z) :
  a <= m < b -> py_range a b = py_range a m ++ m :: py_range (m + 1) b.
Proof.
  intros H. unfold py_range.
  replace (Z.to_nat (b - a)) with (Z.to_nat (m - a) + S (Z.to_nat (b - (m + 1))))%nat by lia.
  rewrite seq_app, map_app. cbn [seq map Nat.add]. f_equal. f_equal; [lia|].
  rewrite map_seq_offset. apply map_ext. intros i. lia.
Qed.

(** The sweep stops at the first turn that raises. *)
Lemma mapM_first_failure {A B : Type} (f : A -> res B) (a b : list A) (x : A) (e : exn) :
  (forall y, In y a -> exists z, f y = Ok z) ->
  f x = Raise e ->
  mapM f (a ++ x :: b) = Raise e.
Proof.
  intros Ha Hx. induction a as [|y a IH]; cbn.
  - now rewrite Hx.
  - destruct (Ha y (or_introl eq_refl)) as [z Hz]. rewrite Hz. cbn.
    rewrite IH by (intros w Hw; apply Ha; now right). reflexivity.
Qed.

Lemma py_range_In (a b x : Z) : In x (py_range a b) -> a <= x < b.
Proof.
  unfold py_range. intros H. apply in_map_iff in H. destruct H as (i & <- & Hi).
  apply in_seq in Hi. lia.
Qed.

(** X5: one count the library refuses aborts the automatic selection.  If,
    with no count given, the library fits every count below [n0] but raises for
    [n0] (a count within the sweep), [fit] raises that exception and the object
    is as before: no count selected, no model stored.  This holds for the
    mixture variant (criterion ['aic'] or ['bic']) and for the hierarchical
    one. *)
Theorem sweep_aborts_on_first_refusal `{L : Sklearn} (X : Matrix) (n0 : Z) (e : exn) :
  (forall s,
     GMMClustering.n_components s = None ->
     GMMClustering.criterion s = "aic"%string \/ GMMClustering.criterion s = "bic"%string ->
     1 <= n0 <= GMMClustering.max_components s ->
     (forall n, 1 <= n < n0 ->
        exists m, sk_gmm_fit n (GMMClustering.random_state s) X = Ok m) ->
     sk_gmm_fit n0 (GMMClustering.random_state s) X = Raise e ->
     GMMClustering.fit X s = (s, Raise e))
  /\
  (forall s,
     AgglomerativeClusteringOptimal.n_clusters s = None ->
     1 <= n0 <= AgglomerativeClusteringOptimal.max_clusters s ->
     (forall n, 1 <= n < n0 ->
        exists labels, sk_agglomerative_labels n X = Ok labels /\ length labels = length X) ->
     sk_agglomerative_labels n0 X = Raise e ->
     AgglomerativeClusteringOptimal.fit X s = (s, Raise e)).
Proof.
  split.
  - intros s Hn Hcrit Hn0 Hlow Hfail.
    assert (Hcs : GMMClustering.criterions s X = Raise e).
    { unfold GMMClustering.criterions.
      rewrite (py_range_split 1 n0) by lia.
      apply mapM_first_failure.
      - intros n Hin. apply py_range_In in Hin.
        destruct (Hlow n Hin) as [m Hm]. eapply gmm_score_total; eassumption.
      - unfold GMMClustering.score, GaussianMixture.fit, GaussianMixture.new.
        cbn [GaussianMixture.n_components GaussianMixture.random_state].
        now rewrite Hfail. }
    unfold GMMClustering.fit. run_py. now rewrite Hn, Hcs.
  - intros s Hn Hn0 Hlow Hfail.
    assert (Hw : AgglomerativeClusteringOptimal.calculate_wcss s X = Raise e).
    { unfold AgglomerativeClusteringOptimal.calculate_wcss.
      rewrite (py_range_split 1 n0) by lia.
      apply mapM_first_failure.
      - intros n Hin. apply py_range_In in Hin.
        destruct (Hlow n Hin) as (labels & Hl & Hlen).
        eexists. apply wcss_step_ok; eassumption.
      - unfold AgglomerativeClusteringOptimal.wcss_step, AgglomerativeClustering.fit,
          AgglomerativeClustering.new.
        cbn [AgglomerativeClustering.n_clusters]. now rewrite Hfail. }
    unfold AgglomerativeClusteringOptimal.fit,
      AgglomerativeClusteringOptimal.find_optimal_clusters. run_py.
    now rewrite Hn, Hw.
Qed.

Lemma sweep_aborts_on_first_refusal_witness :
  GMMClustering.fit Demo.X2 (GMMClustering.init 10 "bic" None 42)
  = (GMMClustering.init 10 "bic" None 42,
     Raise (ValueError "n_samples should be >= n_clusters."))
  /\ AgglomerativeClusteringOptimal.fit Demo.X2 (AgglomerativeClusteringOptimal.init 10 None)
     = (AgglomerativeClusteringOptimal.init 10 None,
        Raise (ValueError "n_samples should be >= n_clusters.")).
Proof.
  destruct (sweep_aborts_on_first_refusal (L := Demo.library) Demo.X2 3
              (ValueError "n_samples should be >= n_clusters.")) as [Hg Ha].
  split.
  - apply Hg.
    + reflexivity.
    + now right.
    + cbn. lia.
    + intros n Hn. assert (E : n = 1 \/ n = 2) by lia.
      destruct E as [-> | ->]; eexists; reflexivity.
    + reflexivity.
  - apply Ha.
    + reflexivity.
    + cbn. lia.
    + intros n Hn. assert (E : n = 1 \/ n = 2) by lia.
      destruct E as [-> | ->]; eexists; split; reflexivity.
    + reflexivity.
Defined.

(** X6: the criterion of the mixture variant is checked only inside the sweep.
    With no count given and at least one count to sweep, a criterion other than
    ['aic'] and ['bic'] makes [fit] raise and leave the object as it was; the
    exception is the [ValueError] about the criterion as soon as the library
    fits one component.  With a count given the criterion is never looked at:
    the outcome of [fit] is the same for every criterion and every
    [max_components]. *)
Theorem gmm_criterion_checked_in_sweep_only `{L : Sklearn} (X : Matrix) :
  (forall s,
     GMMClustering.n_components s = None ->
     1 <= GMMClustering.max_components s ->
     GMMClustering.criterion s <> "aic"%string ->
     GMMClustering.criterion s <> "bic"%string ->
     (exists e, GMMClustering.fit X s = (s, Raise e)) /\
     (forall m, sk_gmm_fit 1 (GMMClustering.random_state s) X = Ok m ->
        GMMClustering.fit X s
        = (s, Raise (ValueError "El criterio debe ser 'aic' o 'bic'"))))
  /\
  (forall mc mc' c c' n seed,
     snd (GMMClustering.fit X (GMMClustering.init mc c (Some n) seed))
     = snd (GMMClustering.fit X (GMMClustering.init mc' c' (Some n) seed))).
Proof.
  split.
  - intros s Hn Hmax Ha Hb.
    assert (Hscore : exists e, GMMClustering.score s X 1 = Raise e /\
              forall m, sk_gmm_fit 1 (GMMClustering.random_state s) X = Ok m ->
                        e = ValueError "El criterio debe ser 'aic' o 'bic'").
    { unfold GMMClustering.score, GaussianMixture.fit, GaussianMixture.new.
      cbn [GaussianMixture.n_components GaussianMixture.random_state].
      destruct (sk_gmm_fit 1 (GMMClustering.random_state s) X) as [m|e].
      - destruct (String.eqb_spec (GMMClustering.criterion s) "aic"); [contradiction|].
        destruct (String.eqb_spec (GMMClustering.criterion s) "bic"); [contradiction|].
        eexists. split; [reflexivity|]. intros _ _. reflexivity.
      - exists e. split; [reflexivity|]. intros m Hm. discriminate. }
    destruct Hscore as (e & He & Hmsg).
    assert (Hcs : GMMClustering.criterions s X = Raise e).
    { unfold GMMClustering.criterions. rewrite (py_range_split 1 1) by lia.
      apply (mapM_first_failure _ (py_range 1 1)); [|exact He].
      intros y Hy. apply py_range_In in Hy. lia. }
    assert (Hfit : GMMClustering.fit X s = (s, Raise e))
      by (unfold GMMClustering.fit; run_py; now rewrite Hn, Hcs).
    split; [now exists e|]. intros m Hm. rewrite Hfit, (Hmsg m Hm). reflexivity.
  - intros mc mc' c c' n seed.
    unfold GMMClustering.fit, GMMClustering.gmm_fit, GaussianMixture.fit,
      GMMClustering.init. run_py. cbn.
    destruct (sk_gmm_fit n seed X); reflexivity.
Qed.

Lemma gmm_criterion_checked_in_sweep_only_witness :
  GMMClustering.fit Demo.X4 (GMMClustering.init 10 "AIC" None 42)
  = (GMMClustering.init 10 "AIC" None 42,
     Raise (ValueError "El criterio debe ser 'aic' o 'bic'"))
  /\ snd (GMMClustering.fit Demo.X4 (GMMClustering.init 10 "AIC" (Some 2) 42)) = Ok tt.
Proof.
  destruct (gmm_criterion_checked_in_sweep_only (L := Demo.library) Demo.X4) as [H1 H2].
  split.
  - destruct (H1 (GMMClustering.init 10 "AIC" None 42)) as [_ H].
    + reflexivity.
    + cbn. lia.
    + discriminate.
    + discriminate.
    + eapply H. reflexivity.
  - rewrite (H2 10 10 "AIC"%string "bic"%string 2 42). reflexivity.
Defined.

(** X7: the hierarchical variant cannot select a count from fewer than three
    candidates.  With no count given and [max_clusters < 3], [fit] raises
    whatever the data and leaves the object as it was; with
    [max_clusters <= 0] nothing is swept and the exception is [argmin]'s
    complaint about an empty sequence. *)
Theorem agglomerative_fit_needs_three_counts `{L : Sklearn}
    (X : Matrix) (s : AgglomerativeClusteringOptimal.t) :
  AgglomerativeClusteringOptimal.n_clusters s = None ->
  AgglomerativeClusteringOptimal.max_clusters s < 3 ->
  (exists e, AgglomerativeClusteringOptimal.fit X s = (s, Raise e)) /\
  (AgglomerativeClusteringOptimal.max_clusters s <= 0 ->
   AgglomerativeClusteringOptimal.fit X s
   = (s, Raise (ValueError "attempt to get argmin of an empty sequence"))).
Proof.
  intros Hn Hmax.
  destruct (find_optimal_clusters_needs_three s X Hmax) as [e He].
  split.
  - exists e. unfold AgglomerativeClusteringOptimal.fit. run_py. now rewrite Hn, He.
  - intros H0. unfold AgglomerativeClusteringOptimal.fit,
      AgglomerativeClusteringOptimal.find_optimal_clusters,
      AgglomerativeClusteringOptimal.calculate_wcss, py_range. run_py.
    rewrite Hn. replace (Z.to_nat _) with 0%nat by lia. reflexivity.
Qed.

Lemma agglomerative_fit_needs_three_counts_witness :
  AgglomerativeClusteringOptimal.fit Demo.X4 (AgglomerativeClusteringOptimal.init 0 None)
  = (AgglomerativeClusteringOptimal.init 0 None,
     Raise (ValueError "attempt to get argmin of an empty sequence"))
  /\ exists e,
       AgglomerativeClusteringOptimal.fit Demo.X4 (AgglomerativeClusteringOptimal.init 2 None)
       = (AgglomerativeClusteringOptimal.init 2 None, Raise e).
Proof.
  split.
  - apply (agglomerative_fit_needs_three_counts (L := Demo.library) Demo.X4
             (AgglomerativeClusteringOptimal.init 0 None)); [reflexivity|cbn; lia|cbn; lia].
  - apply (agglomerative_fit_needs_three_counts (L := Demo.library) Demo.X4
             (AgglomerativeClusteringOptimal.init 2 None)); [reflexivity|cbn; lia].
Defined.

(* ------------------------------------------------------------------------- *)
(** ** The within-cluster sum of squares *)

Lemma fold_cadd_nonneg (l : list cell) :
  (forall c, In c l -> nonneg_number c) ->
  forall a, (0 <= a)%Q -> nonneg_number (fold_left cadd l (Flt a)).
Proof.
  induction l as [|c r IH]; intros H a Ha; cbn.
  - now exists a.
  - destruct (H c (or_introl eq_refl)) as (q & -> & Hq). cbn.
    apply IH; [intros x Hx; apply H; now right|].
    rewrite <- (Qplus_0_l 0). now apply Qplus_le_compat.
Qed.

Lemma csum_nonneg (l : list cell) :
  (forall c, In c l -> nonneg_number c) -> nonneg_number (csum l).
Proof. intros H. apply fold_cadd_nonneg; [exact H|apply Qle_refl]. Qed.

Lemma fold_cadd_number (l : list cell) :
  (forall c, In c l -> number c) -> forall a, number (fold_left cadd l (Flt a)).
Proof.
  induction l as [|c r IH]; intros H a; cbn.
  - now exists a.
  - destruct (H c (or_introl eq_refl)) as (q & ->). cbn.
    apply IH. intros x Hx. apply H. now right.
Qed.

Lemma csum_number (l : list cell) : (forall c, In c l -> number c) -> number (csum l).
Proof. intros H. now apply fold_cadd_number. Qed.

Lemma square_nonneg (c : cell) : number c -> nonneg_number (cmul c c).
Proof.
  intros (q & ->). exists (q * q)%Q. split; [reflexivity|].
  destruct q as [n d]. unfold Qle, Qmult. cbn. nia.
Qed.

Lemma mask_rows_In (data : Matrix) (labels : list Z) (i : Z) (r : list cell) :
  In r (mask_rows data labels i) -> In r data.
Proof.
  unfold mask_rows. intros H. apply in_map_iff in H. destruct H as ([r' l] & <- & H).
  apply filter_In in H. destruct H as [H _]. now apply in_combine_l in H.
Qed.

Lemma vsub_number (r c : list cell) :
  (forall x, In x r -> number x) -> (forall x, In x c -> number x) ->
  forall x, In x (vsub r c) -> number x.
Proof.
  revert c. induction r as [|a r IH]; intros [|b c] Hr Hc x Hx; cbn in Hx; try tauto.
  destruct Hx as [<-|Hx].
  - destruct (Hr a (or_introl eq_refl)) as (p & ->).
    destruct (Hc b (or_introl eq_refl)) as (q & ->). now eexists.
  - apply (IH c); auto; intros y Hy; [apply Hr|apply Hc]; now right.
Qed.

Lemma inject_Z_nonzero (n : nat) : (0 < n)%nat -> Qeq_bool (inject_Z (Z.of_nat n)) 0 = false.
Proof.
  intros H. destruct (Qeq_bool _ 0) eqn:E; [|reflexivity].
  apply Qeq_bool_iff in E. unfold Qeq in E. cbn in E. lia.
Qed.

(** The centroid of a non-empty set of clean rows is a row of numbers. *)
Lemma mean_axis0_number (d : nat) (rows : Matrix) :
  rows <> [] ->
  (forall r, In r rows -> length r = d /\ forall c, In c r -> number c) ->
  forall x, In x (mean_axis0 d rows) -> number x.
Proof.
  intros Hne Hrows x Hx. unfold mean_axis0 in Hx. apply in_map_iff in Hx.
  destruct Hx as (j & <- & Hj). apply in_seq in Hj.
  destruct (csum_number (column j rows)) as (q & ->).
  - intros c Hc. unfold column in Hc. apply in_map_iff in Hc.
    destruct Hc as (r & <- & Hr). destruct (Hrows r Hr) as [Hlen Hnum].
    apply Hnum, nth_In. lia.
  - cbn. rewrite inject_Z_nonzero; [now eexists|].
    destruct rows; [congruence|cbn; lia].
Qed.

Lemma frobenius_sq_nonneg (a : Matrix) :
  (forall r, In r a -> forall c, In c r -> number c) -> nonneg_number (frobenius_sq a).
Proof.
  intros H. unfold frobenius_sq. apply csum_nonneg. intros c Hc.
  apply in_map_iff in Hc. destruct Hc as (r & <- & Hr).
  apply csum_nonneg. intros x Hx. apply in_map_iff in Hx. destruct Hx as (y & <- & Hy).
  apply square_nonneg. now apply (H r).
Qed.

Lemma nth_map_py_range {A : Type} (f : Z -> A) (n i : Z) (d : A) :
  0 <= i < n -> nth (Z.to_nat i) (map f (py_range 0 n)) d = f i.
Proof.
  intros H. unfold py_range. rewrite map_map.
  rewrite nth_map_seq by lia. f_equal. lia.
Qed.

(** X8: on an array without NaN whose rows all have the width of the first, the
    within-cluster sum of squares of any labelling into any number of clusters
    is a number, and it is not negative. *)
Theorem wcss_is_a_nonnegative_number `{L : Sklearn}
    (data : Matrix) (n_clusters : Z) (cluster_labels : list Z) :
  (forall r, In r data -> length r = ncols data /\ forall c, In c r -> is_nan c = false) ->
  exists w,
    AgglomerativeClusteringOptimal.wcss_of data n_clusters cluster_labels = Flt w /\
    (0 <= w)%Q.
Proof.
  intros Hclean.
  assert (Hrows : forall r, In r data ->
            length r = ncols data /\ forall c, In c r -> number c).
  { intros r Hr. destruct (Hclean r Hr) as [Hlen Hnan]. split; [exact Hlen|].
    intros [|q] Hc; [specialize (Hnan _ Hc); discriminate|now exists q]. }
  unfold AgglomerativeClusteringOptimal.wcss_of.
  apply csum_nonneg. intros c Hc. apply in_map_iff in Hc.
  destruct Hc as (i & <- & Hi). apply py_range_In in Hi.
  unfold AgglomerativeClusteringOptimal.cluster_ss.
  rewrite nth_map_py_range by assumption.
  apply frobenius_sq_nonneg. intros r Hr x Hx.
  apply in_map_iff in Hr. destruct Hr as (r0 & <- & Hr0).
  apply (vsub_number r0 (mean_axis0 (ncols data) (mask_rows data cluster_labels i))).
  - apply Hrows. eapply mask_rows_In. exact Hr0.
  - apply mean_axis0_number.
    + intros E. rewrite E in Hr0. exact Hr0.
    + intros r Hr. apply Hrows. eapply mask_rows_In. exact Hr.
  - exact Hx.
Qed.

Lemma wcss_is_a_nonnegative_number_witness :
  exists w,
    AgglomerativeClusteringOptimal.wcss_of Demo.X4 2 [0; 0; 1; 1] = Flt w /\ (0 <= w)%Q.
Proof.
  apply (wcss_is_a_nonnegative_number (L := Demo.library)).
  intros r Hr. cbn in Hr.
  destruct Hr as [<-|[<-|[<-|[<-|[]]]]]; (split; [reflexivity|]);
    intros c [<-|[]]; reflexivity.
Defined.

(* ========================================================================= *)
(** * Further properties of the pipeline *)

Lemma keep_rows_nth {A : Type} (l : list A) :
  forall (keep : list bool) (x : A),
    In x (keep_rows keep l) ->
    exists i, nth_error l i = Some x /\ nth_error keep i = Some true.
Proof.
  unfold keep_rows. induction l as [|a l IH]; intros [|b keep] x Hx; cbn in Hx; try tauto.
  destruct b; cbn in Hx.
  - destruct Hx as [<-|Hx]; [now exists 0%nat|].
    destruct (IH keep x Hx) as (i & H1 & H2). now exists (S i).
  - destruct (IH keep x Hx) as (i & H1 & H2). now exists (S i).
Qed.

Lemma keep_rows_length {A : Type} (l : list A) :
  forall keep : list bool,
    length l = length keep ->
    length (keep_rows keep l) = length (filter (fun b => b) keep).
Proof.
  unfold keep_rows. induction l as [|a l IH]; intros [|b keep] H; cbn in *;
    try discriminate; [reflexivity|].
  destruct b; cbn; [f_equal|]; apply IH; lia.
Qed.

Lemma list_eqb_Z_eq (a b : list Z) : list_eqb Z.eqb a b = true -> a = b.
Proof.
  revert b. induction a as [|x a IH]; intros [|y b] H; cbn in H; try discriminate;
    [reflexivity|].
  apply andb_true_iff in H. destruct H as [Hx Hr].
  apply Z.eqb_eq in Hx. subst. f_equal. now apply IH.
Qed.

(** Every column of the joined close series is as long as the index. *)
Lemma concat_close_rectangular (frames : list (list (Z * cell))) (idx : list Z)
    (cols : list (list cell)) :
  concat_close frames = Ok (idx, cols) ->
  forall col, In col cols -> length col = length idx.
Proof.
  unfold concat_close. destruct frames as [|f r]; [discriminate|].
  destruct (same_timestamps (f :: r)) eqn:Hs; intros H; injection H as <- <-;
    intros col Hcol.
  - destruct Hcol as [<-|Hcol]; [now rewrite !length_map|].
    apply in_map_iff in Hcol. destruct Hcol as (g & <- & Hg). rewrite !length_map.
    cbn in Hs. rewrite forallb_forall in Hs. specialize (Hs g Hg).
    apply list_eqb_Z_eq in Hs. apply (f_equal (@length Z)) in Hs.
    now rewrite !length_map in Hs.
  - destruct Hcol as [<-|Hcol]; [now rewrite length_map|].
    apply in_map_iff in Hcol. destruct Hcol as (g & <- & _). now rewrite length_map.
Qed.

(** X9: the price table [load_data] returns is rectangular and has no undefined
    value: every column has as many entries as there are timestamps, and none
    of them is NaN. *)
Theorem load_data_is_aligned `{L : Sklearn} `{D : MarketData}
    (s : EfficiencyRatioAnalysis.t) (prices : PriceFrame) :
  EfficiencyRatioAnalysis.load_data s = Ok prices ->
  forall name col, In (name, col) (p_columns prices) ->
    length col = length (p_index prices) /\
    forall c, In c col -> is_nan c = false.
Proof.
  unfold EfficiencyRatioAnalysis.load_data.
  destruct (mapM _ (EfficiencyRatioAnalysis.tickers s)) as [frames|e] eqn:Hf;
    [|discriminate].
  cbn [rbind]. destruct (concat_close frames) as [[idx cols]|e] eqn:Hc; [|discriminate].
  cbn [rbind fst snd]. intros H. injection H as <-.
  intros name col Hin. unfold dropna in *. cbn [p_columns p_index] in *.
  apply in_map_iff in Hin. destruct Hin as ([name0 col0] & Heq & Hin0).
  cbn [fst snd] in Heq. injection Heq as <- <-.
  set (all := combine (EfficiencyRatioAnalysis.tickers s) cols) in *.
  set (keep := map (row_complete (map snd all)) (seq 0 (length idx))).
  assert (Hlen0 : length col0 = length idx).
  { apply (concat_close_rectangular _ _ _ Hc). now apply in_combine_r in Hin0. }
  assert (Hkeep : length keep = length idx)
    by (unfold keep; now rewrite length_map, length_seq).
  split.
  - rewrite !keep_rows_length by congruence. reflexivity.
  - intros c Hc0. apply keep_rows_nth in Hc0. destruct Hc0 as (i & Hi & Hk).
    assert (Hii : (i < length idx)%nat).
    { rewrite <- Hkeep. apply nth_error_Some. congruence. }
    unfold keep in Hk. rewrite nth_error_map, nth_error_seq in Hk.
    destruct (Nat.ltb_spec i (length idx)) as [_|]; [|lia].
    cbn in Hk. injection Hk as Hk. unfold row_complete in Hk.
    rewrite forallb_forall in Hk.
    specialize (Hk col0 (in_map snd _ _ Hin0)). cbn [snd] in Hk.
    rewrite (nth_error_nth _ _ NaN Hi) in Hk. now apply negb_true_iff in Hk.
Qed.

Lemma load_data_is_aligned_witness :
  length [Flt 10; Flt 11] = length [0; 1]
  /\ forall c, In c [Flt 10; Flt 11] -> is_nan c = false.
Proof.
  apply (load_data_is_aligned (L := Demo.library) (D := Demo.market)
           (EfficiencyRatioAnalysis.mk ["A"; "B"]%string "2015-01-01" "2015-01-02" "1h"
              2 4 (Some 2) None None None)
           (mkPriceFrame [0; 1] [("A"%string, [Flt 10; Flt 11]);
                                 ("B"%string, [Flt 20; Flt 21])])
           eq_refl "A"%string).
  now left.
Defined.

Lemma mapM_In {A B : Type} (f : A -> res B) (l : list A) (ys : list B) (x : A) :
  mapM f l = Ok ys -> In x l -> exists y, f x = Ok y /\ In y ys.
Proof.
  revert ys. induction l as [|a l IH]; intros ys H Hx; [destruct Hx|].
  cbn in H. destruct (f a) as [y|e] eqn:Ha; [|discriminate]. cbn in H.
  destruct (mapM f l) as [ys'|e]; [|discriminate]. cbn in H. injection H as <-.
  destruct Hx as [<-|Hx].
  - exists y. split; [exact Ha|now left].
  - destruct (IH ys' eq_refl Hx) as (z & Hz & Hin). exists z. split; [exact Hz|now right].
Qed.

Lemma map_snd_combine_eq {A B : Type} (a : list A) (b : list B) :
  length a = length b -> map snd (combine a b) = b.
Proof.
  revert b. induction a as [|x a IH]; intros [|y b] H; try discriminate; [reflexivity|].
  cbn. f_equal. apply IH. now injection H.
Qed.

(** A timestamp at which the joined column of a frame is defined is a timestamp
    of that frame, with that close. *)
Lemma concat_close_defined (frames : list (list (Z * cell))) (idx : list Z)
    (cols : list (list cell)) :
  concat_close frames = Ok (idx, cols) ->
  exists g : list (Z * cell) -> list cell,
    cols = map g frames /\
    forall fr i t, In fr frames -> nth_error idx i = Some t ->
      is_nan (nth i (g fr) NaN) = false ->
      exists c, In (t, Flt c) fr.
Proof.
  unfold concat_close. destruct frames as [|f r]; [discriminate|].
  destruct (same_timestamps (f :: r)) eqn:Hs; intros H; injection H as <- <-.
  - exists (map snd). split; [reflexivity|].
    intros fr i t Hfr Hi Hnan.
    assert (Hidx : map fst fr = map fst f).
    { destruct Hfr as [<-|Hfr]; [reflexivity|].
      cbn in Hs. rewrite forallb_forall in Hs. now apply list_eqb_Z_eq, Hs. }
    rewrite <- Hidx, nth_error_map in Hi.
    destruct (nth_error fr i) as [[t' c]|] eqn:Hp; [|discriminate].
    cbn in Hi. injection Hi as ->.
    set (f0 := @snd Z cell) in *.
    rewrite nth_indep with (d' := f0 (t, c)) in Hnan
      by (rewrite length_map; apply nth_error_Some; congruence).
    rewrite map_nth, (nth_error_nth _ _ _ Hp) in Hnan. unfold f0 in Hnan. cbn in Hnan.
    destruct c as [|q]; [discriminate|]. exists q. eapply nth_error_In. exact Hp.
  - exists (fun fr => map (fun t => lookup t fr) (union_index (f :: r))).
    split; [reflexivity|].
    intros fr i t Hfr Hi Hnan.
    set (h := fun t0 : Z => lookup t0 fr) in *.
    rewrite nth_indep with (d' := h t) in Hnan
      by (rewrite length_map; apply nth_error_Some; congruence).
    rewrite map_nth, (nth_error_nth _ _ _ Hi) in Hnan. unfold h, lookup in Hnan.
    destruct (find (fun p => fst p =? t) fr) as [[t' c]|] eqn:Hfind; [|discriminate].
    apply find_some in Hfind. destruct Hfind as [Hin Ht]. cbn in Ht, Hnan.
    apply Z.eqb_eq in Ht. subst t'.
    destruct c as [|q]; [discriminate|]. now exists q.
Qed.

(** X10: only common timestamps survive the alignment.  Every timestamp of the
    price table [load_data] returns is a timestamp at which the feed delivered
    a defined close for every ticker of the universe. *)
Theorem load_data_keeps_common_timestamps `{L : Sklearn} `{D : MarketData}
    (s : EfficiencyRatioAnalysis.t) (prices : PriceFrame) (t : Z) (symbol : string) :
  EfficiencyRatioAnalysis.load_data s = Ok prices ->
  In t (p_index prices) ->
  In symbol (EfficiencyRatioAnalysis.tickers s) ->
  exists fr c,
    load_close symbol (EfficiencyRatioAnalysis.start_date s)
               (EfficiencyRatioAnalysis.end_date s) (EfficiencyRatioAnalysis.time_frame s)
    = Ok fr /\
    In (t, Flt c) fr.
Proof.
  unfold EfficiencyRatioAnalysis.load_data.
  destruct (mapM _ (EfficiencyRatioAnalysis.tickers s)) as [frames|e] eqn:Hf;
    [|discriminate].
  cbn [rbind]. destruct (concat_close frames) as [[idx cols]|e] eqn:Hc; [|discriminate].
  cbn [rbind fst snd]. intros H Ht Hsym. injection H as <-.
  unfold dropna in Ht. cbn [p_columns p_index] in Ht.
  apply keep_rows_nth in Ht. destruct Ht as (i & Hi & Hk).
  assert (Hii : (i < length idx)%nat) by (apply nth_error_Some; congruence).
  rewrite nth_error_map, nth_error_seq in Hk.
  destruct (Nat.ltb_spec i (length idx)) as [_|]; [|lia].
  cbn in Hk. injection Hk as Hk. unfold row_complete in Hk.
  rewrite forallb_forall in Hk.
  rewrite map_snd_combine_eq in Hk
    by (rewrite (concat_close_width _ _ _ Hc); symmetry; exact (mapM_length _ _ _ Hf)).
  destruct (mapM_In _ _ _ _ Hf Hsym) as (fr & Hload & Hfr).
  destruct (concat_close_defined _ _ _ Hc) as (g & -> & Hg).
  specialize (Hk (g fr) (in_map g _ _ Hfr)). apply negb_true_iff in Hk.
  destruct (Hg fr i t Hfr Hi Hk) as [c Hc']. now exists fr, c.
Qed.

Lemma load_data_keeps_common_timestamps_witness :
  exists fr c,
    load_close "B" "2015-01-01" "2015-01-02" "1h" = Ok fr /\ In (1, Flt c) fr.
Proof.
  apply (load_data_keeps_common_timestamps (L := Demo.library) (D := Demo.market)
           (EfficiencyRatioAnalysis.mk ["A"; "B"]%string "2015-01-01" "2015-01-02" "1h"
              2 4 (Some 2) None None None)
           (mkPriceFrame [0; 1] [("A"%string, [Flt 10; Flt 11]);
                                 ("B"%string, [Flt 20; Flt 21])])
           1 "B"%string eq_refl).
  - cbn. tauto.
  - cbn. tauto.
Defined.

(** X11: the first ticker the feed cannot deliver ends the run.  If the feed
    delivers every ticker listed before [symbol] and fails on [symbol],
    [load_data] raises the feed's exception, and so does the construction of
    the analysis, with none of its three tables set. *)
Theorem first_unavailable_ticker_ends_the_run `{L : Sklearn} `{D : MarketData}
    (before after : list string) (symbol sd ed tf : string) (ip ep : Z) (nc : option Z)
    (e : exn) :
  (forall y, In y before -> exists fr, load_close y sd ed tf = Ok fr) ->
  load_close symbol sd ed tf = Raise e ->
  EfficiencyRatioAnalysis.init (before ++ symbol :: after) sd ed tf ip ep nc
  = (EfficiencyRatioAnalysis.mk (before ++ symbol :: after) sd ed tf ip ep nc
       None None None,
     Raise e).
Proof.
  intros Hbefore Hfail. rewrite init_unfold. cbv zeta.
  unfold EfficiencyRatioAnalysis.load_data. cbn [EfficiencyRatioAnalysis.tickers
    EfficiencyRatioAnalysis.start_date EfficiencyRatioAnalysis.end_date
    EfficiencyRatioAnalysis.time_frame].
  rewrite (mapM_first_failure _ before after symbol e Hbefore Hfail). reflexivity.
Qed.

Lemma first_unavailable_ticker_ends_the_run_witness :
  Demo.analysis ["A"; "Z"; "C"]%string 2 4 (Some 2)
  = (EfficiencyRatioAnalysis.mk ["A"; "Z"; "C"]%string "2015-01-01" "2015-01-02" "1h"
       2 4 (Some 2) None None None,
     Raise (ValueError "Failed to load data from Metatrader: no rates returned")).
Proof.
  apply (first_unavailable_ticker_ends_the_run (L := Demo.library) (D := Demo.market)
           ["A"%string] ["C"%string] "Z").
  - intros y [<-|[]]. eexists. reflexivity.
  - reflexivity.
Defined.

Lemma fold_set_col_distinct {A B : Type} (f : string * A -> B) (cols : list (string * A)) :
  forall acc : list (string * B),
    NoDup (map fst acc ++ map fst cols) ->
    fold_left (fun a kv => set_col (fst kv) (f kv) a) cols acc
    = acc ++ map (fun kv => (fst kv, f kv)) cols.
Proof.
  induction cols as [|kv r IH]; intros acc Hnd; cbn [fold_left map].
  - now rewrite app_nil_r.
  - cbn [map] in Hnd.
    rewrite set_col_fresh.
    2:{ apply NoDup_remove_2 in Hnd. intros Hin. apply Hnd. apply in_or_app. now left. }
    rewrite IH.
    + now rewrite <- app_assoc.
    + rewrite map_app. cbn [map fst]. rewrite <- app_assoc. exact Hnd.
Qed.

(** X12: the layout of the feature frame for distinct tickers.  On a price
    table whose columns carry distinct names and for a non-empty range of
    lookbacks, [calculate_er] returns the frame with one row per ticker, in the
    order of the price table, and one column [period_<length>] per length of
    [range(init_period, end_period)], in increasing order; the entry for a
    ticker and a length is the mean of the defined values of the efficiency
    ratio of that ticker's closes, rounded to five decimals. *)
Theorem calculate_er_layout `{L : Sklearn} `{D : MarketData}
    (s : EfficiencyRatioAnalysis.t) (prices : PriceFrame) :
  EfficiencyRatioAnalysis.df_tickers s = Some prices ->
  NoDup (map fst (p_columns prices)) ->
  EfficiencyRatioAnalysis.init_period s < EfficiencyRatioAnalysis.end_period s ->
  EfficiencyRatioAnalysis.calculate_er s
  = Ok (mkDataFrame
          (StrS (map fst (p_columns prices)))
          (map (fun length =>
                  (("period_" ++ str length)%string,
                   FloatS (map (fun kv => round5 (mean_skipna (ta_er (snd kv) length)))
                               (p_columns prices))))
               (py_range (EfficiencyRatioAnalysis.init_period s)
                         (EfficiencyRatioAnalysis.end_period s))))
  /\ length (py_range (EfficiencyRatioAnalysis.init_period s)
                      (EfficiencyRatioAnalysis.end_period s))
     = Z.to_nat (EfficiencyRatioAnalysis.end_period s - EfficiencyRatioAnalysis.init_period s).
Proof.
  intros Hdf Hnd Hrange. split; [|apply py_range_length].
  assert (Hframe : forall length,
            EfficiencyRatioAnalysis.er_frame prices length
            = map (fun kv => (fst kv, ta_er (snd kv) length)) (p_columns prices)).
  { intros length. unfold EfficiencyRatioAnalysis.er_frame.
    now rewrite (fold_set_col_distinct (fun kv => ta_er (snd kv) length)). }
  unfold EfficiencyRatioAnalysis.calculate_er. rewrite Hdf, er_mean_aligned.
  destruct (py_range _ _) as [|l0 r] eqn:Hr.
  { apply (f_equal (@length Z)) in Hr. rewrite py_range_length in Hr. cbn in Hr. lia. }
  f_equal. f_equal.
  - f_equal. rewrite <- (er_frame_keys prices l0), Hframe, map_map. reflexivity.
  - rewrite map_map. apply map_ext. intros length. cbn [fst snd]. f_equal. f_equal.
    rewrite Hframe, map_map. reflexivity.
Qed.

Lemma calculate_er_layout_witness :
  EfficiencyRatioAnalysis.calculate_er
    (EfficiencyRatioAnalysis.mk ["A"; "C"]%string "2015-01-01" "2015-01-02" "1h" 2 4 (Some 2)
       (Some (mkPriceFrame [0; 1; 2; 3; 4; 5]
                [("A"%string, map Demo.q [10; 11; 13; 12; 15; 16]);
                 ("C"%string, map Demo.q [5; 4; 6; 5; 7; 6])]))
       None None)
  = Ok (mkDataFrame (StrS ["A"; "C"]%string)
          [("period_2"%string, FloatS [Flt (70833 # 100000); Flt (33333 # 100000)]);
           ("period_3"%string, FloatS [Flt (58889 # 100000); Flt (20000 # 100000)])]).
Proof.
  destruct (calculate_er_layout (L := Demo.library) (D := Demo.market)
              (EfficiencyRatioAnalysis.mk ["A"; "C"]%string "2015-01-01" "2015-01-02" "1h"
                 2 4 (Some 2)
                 (Some (mkPriceFrame [0; 1; 2; 3; 4; 5]
                          [("A"%string, map Demo.q [10; 11; 13; 12; 15; 16]);
                           ("C"%string, map Demo.q [5; 4; 6; 5; 7; 6])]))
                 None None)
              (mkPriceFrame [0; 1; 2; 3; 4; 5]
                 [("A"%string, map Demo.q [10; 11; 13; 12; 15; 16]);
                  ("C"%string, map Demo.q [5; 4; 6; 5; 7; 6])]))
    as [H _].
  - reflexivity.
  - cbn. repeat constructor; cbn; intuition discriminate.
  - cbn. lia.
  - rewrite H. vm_compute. reflexivity.
Defined.

Lemma numbers_In_inv (l : list cell) (x : Q) : In x (numbers l) -> In (Flt x) l.
Proof.
  unfold numbers. intros H. apply in_flat_map in H. destruct H as (c & Hc & Hx).
  destruct c as [|q]; [destruct Hx|]. destruct Hx as [<-|[]]. exact Hc.
Qed.

Lemma fold_qmin_In (r : list Q) : forall x, In (fold_left qmin r x) (x :: r).
Proof.
  induction r as [|z r IH]; intros x; cbn; [now left|].
  destruct (IH (qmin x z)) as [H|H]; [|right; now right].
  rewrite <- H. unfold qmin. destruct (Qle_bool x z); [now left|right; now left].
Qed.

(** The minimum of a column is one of its entries. *)
Lemma min_skipna_In (l : list cell) (m : Q) : min_skipna l = Flt m -> In (Flt m) l.
Proof.
  unfold min_skipna. intros H. apply numbers_In_inv.
  destruct (numbers l) as [|x r]; [discriminate|]. injection H as <-.
  apply fold_qmin_In.
Qed.

(** X13: min-max normalisation of a column that is not constant.  Every number
    of the column becomes a number between 0 and 1, the minimum becomes 0 and
    the maximum 1; an undefined entry stays undefined. *)
Theorem minmax_column_unit_interval (l : list cell) (m M : Q) :
  min_skipna l = Flt m -> max_skipna l = Flt M -> ~ (M == m)%Q ->
  length (minmax_column l) = length l /\
  forall i,
    match nth_error l i with
    | Some (Flt x) =>
        exists y, nth_error (minmax_column l) i = Some (Flt y) /\
                  (0 <= y <= 1)%Q /\
                  ((x == m)%Q -> (y == 0)%Q) /\ ((x == M)%Q -> (y == 1)%Q)
    | Some NaN => nth_error (minmax_column l) i = Some NaN
    | None => nth_error (minmax_column l) i = None
    end.
Proof.
  intros Hmin Hmax Hne.
  assert (HmM : (m < M)%Q).
  { pose proof (max_skipna_ge _ _ _ Hmax (min_skipna_In _ _ Hmin)) as Hle.
    destruct (Qlt_le_dec m M) as [Hlt|Hge]; [exact Hlt|].
    exfalso. apply Hne. now apply Qle_antisym. }
  assert (Hd : Qeq_bool (M - m) 0 = false).
  { destruct (Qeq_bool (M - m) 0) eqn:E; [|reflexivity].
    apply Qeq_bool_iff in E. exfalso. apply Hne. lra. }
  unfold minmax_column. split; [apply length_map|].
  intros i. rewrite nth_error_map, Hmin, Hmax.
  destruct (nth_error l i) as [[|x]|] eqn:Hi; cbn; [reflexivity| |reflexivity].
  rewrite Hd. eexists. split; [reflexivity|].
  pose proof (min_skipna_le _ _ _ Hmin (nth_error_In _ _ Hi)) as H1.
  pose proof (max_skipna_ge _ _ _ Hmax (nth_error_In _ _ Hi)) as H2.
  assert (Hpos : (0 < M - m)%Q) by lra.
  split; [split|split].
  - apply Qle_shift_div_l; [exact Hpos|lra].
  - apply Qle_shift_div_r; [exact Hpos|lra].
  - intros Hx. rewrite Hx. field. lra.
  - intros Hx. rewrite Hx. field. lra.
Qed.

Lemma minmax_column_unit_interval_witness :
  exists y, nth_error (minmax_column [Flt (1 # 2); NaN; Flt (1 # 4); Flt 1]) 0
            = Some (Flt y) /\ (0 <= y <= 1)%Q.
Proof.
  destruct (minmax_column_unit_interval [Flt (1 # 2); NaN; Flt (1 # 4); Flt 1]
              (1 # 4) 1 eq_refl eq_refl) as [_ H].
  - intros E. vm_compute in E. discriminate.
  - destruct (H 0%nat) as (y & Hy & Hr & _). now exists y.
Defined.

(** X14: the aggregator can run once.  It rewrites [self.df_er] in place (label
    and mean columns, index turned into the string column [symbol]); a second
    call therefore fails in the normalisation, on the string column, with a
    [TypeError], and leaves the object as the first call left it. *)
Theorem tickers_clusters_er_runs_once `{L : Sklearn} `{D : MarketData}
    (s s' : EfficiencyRatioAnalysis.t) (table : DataFrame)
    (symbols : list string) (periods : list (string * list cell)) :
  EfficiencyRatioAnalysis.df_er s
    = Some (mkDataFrame (StrS symbols) (map (fun c => (fst c, FloatS (snd c))) periods)) ->
  ~ In "cluster_label"%string (map fst periods) ->
  ~ In "mean_er"%string (map fst periods) ->
  EfficiencyRatioAnalysis.tickers_clusters_er s = (s', Ok table) ->
  exists msg,
    EfficiencyRatioAnalysis.tickers_clusters_er s' = (s', Raise (TypeError msg)).
Proof.
  intros Hdf Hcl Hme Hrun.
  destruct (tickers_clusters_er_run s s' table symbols periods Hdf Hcl Hme Hrun)
    as (labels & _ & _ & _ & _ & Hstate).
  unfold EfficiencyRatioAnalysis.tickers_clusters_er. run_py. rewrite Hstate.
  eexists. reflexivity.
Qed.

Lemma tickers_clusters_er_runs_once_witness :
  exists msg,
    EfficiencyRatioAnalysis.tickers_clusters_er
      (fst (EfficiencyRatioAnalysis.tickers_clusters_er Demo.featured))
    = (fst (EfficiencyRatioAnalysis.tickers_clusters_er Demo.featured),
       Raise (TypeError msg)).
Proof.
  destruct (EfficiencyRatioAnalysis.tickers_clusters_er Demo.featured)
    as [s' [table|e]] eqn:E; [|vm_compute in E; discriminate].
  apply (tickers_clusters_er_runs_once Demo.featured s' table
           ["A"; "C"; "E"]%string Demo.periods3).
  - reflexivity.
  - cbn. intros [H|[H|[]]]; discriminate.
  - cbn. intros [H|[H|[]]]; discriminate.
  - exact E.
Defined.

Lemma fold_add_key_distinct (ks : list string) :
  forall acc, NoDup (acc ++ ks) -> fold_left add_key ks acc = acc ++ ks.
Proof.
  induction ks as [|k r IH]; intros acc Hnd; cbn [fold_left].
  - now rewrite app_nil_r.
  - unfold add_key at 2.
    destruct (existsb (String.eqb k) acc) eqn:E.
    + apply existsb_eqb_In in E. apply NoDup_remove_2 in Hnd.
      exfalso. apply Hnd. apply in_or_app. now left.
    + rewrite IH; rewrite <- app_assoc; [reflexivity|exact Hnd].
Qed.

Lemma unique_keys_distinct (ks : list string) : NoDup ks -> unique_keys ks = ks.
Proof. intros H. unfold unique_keys. now rewrite fold_add_key_distinct. Qed.

(** The table of a run that returned. *)
Lemma run_table `{L : Sklearn} `{D : MarketData}
    (tickers : list string) (sd ed tf : string) (ip ep : Z) (nc : option Z) :
  snd (EfficiencyRatioAnalysis.init tickers sd ed tf ip ep nc) = Ok tt ->
  exists means labels,
    EfficiencyRatioAnalysis.clusters_er
      (fst (EfficiencyRatioAnalysis.init tickers sd ed tf ip ep nc))
    = Some (mkDataFrame (IntS (py_range 0 (Z.of_nat (length (unique_keys tickers)))))
              [("symbol"%string, StrS (unique_keys tickers));
               ("mean_er"%string, FloatS means);
               ("cluster_label"%string, IntS labels)]).
Proof.
  rewrite init_unfold. cbv zeta.
  set (s0 := EfficiencyRatioAnalysis.mk tickers sd ed tf ip ep nc None None None).
  destruct (EfficiencyRatioAnalysis.load_data s0) as [prices|e0] eqn:Hload;
    [|discriminate].
  set (s1 := EfficiencyRatioAnalysis.set_df_tickers prices s0).
  destruct (EfficiencyRatioAnalysis.calculate_er s1) as [features|e1] eqn:Hcalc;
    [|discriminate].
  set (s2 := EfficiencyRatioAnalysis.set_df_er features s1).
  destruct (EfficiencyRatioAnalysis.tickers_clusters_er s2) as [s3 [table|e2]] eqn:Hrun;
    [|discriminate].
  intros _. cbn [fst].
  pose proof (load_data_columns s0 prices Hload) as Hcols. cbn in Hcols.
  unfold EfficiencyRatioAnalysis.calculate_er in Hcalc. cbn in Hcalc.
  rewrite er_mean_aligned in Hcalc.
  destruct (py_range ip ep) as [|l0 r] eqn:Hrange; [discriminate|].
  rewrite <- Hrange in Hcalc. injection Hcalc as Hfeat.
  destruct (tickers_clusters_er_run s2 s3 table _ _ (f_equal Some (eq_sym Hfeat)))
    as (labels & _ & _ & _ & Htable & _).
  - apply period_names_fresh. now left.
  - apply period_names_fresh. now right.
  - exact Hrun.
  - rewrite Hcols in Htable. eexists _, labels. cbn. rewrite Htable. reflexivity.
Qed.

(** X15: the rows of the result follow the list of tickers.  When the tickers
    are distinct and the run returns, the [symbol] column of the table is the
    list of tickers, in the order in which it was given. *)
Theorem rows_follow_the_ticker_list `{L : Sklearn} `{D : MarketData}
    (tickers : list string) (sd ed tf : string) (ip ep : Z) (nc : option Z) :
  NoDup tickers ->
  snd (EfficiencyRatioAnalysis.init tickers sd ed tf ip ep nc) = Ok tt ->
  exists table,
    EfficiencyRatioAnalysis.clusters_er
      (fst (EfficiencyRatioAnalysis.init tickers sd ed tf ip ep nc)) = Some table /\
    get_col "symbol" (columns table) = Some (StrS tickers) /\
    series_length (index table) = length tickers.
Proof.
  intros Hnd Hok. destruct (run_table tickers sd ed tf ip ep nc Hok) as (means & labels & Ht).
  rewrite (unique_keys_distinct _ Hnd) in Ht.
  eexists. split; [exact Ht|]. split; [reflexivity|].
  cbn. rewrite py_range_length. lia.
Qed.

Lemma rows_follow_the_ticker_list_witness :
  exists table,
    EfficiencyRatioAnalysis.clusters_er
      (fst (Demo.analysis ["E"; "A"; "C"]%string 2 4 (Some 2))) = Some table /\
    get_col "symbol" (columns table) = Some (StrS ["E"; "A"; "C"]%string) /\
    series_length (index table) = 3%nat.
Proof.
  apply (rows_follow_the_ticker_list (L := Demo.library) (D := Demo.market)).
  - repeat constructor; cbn; intuition discriminate.
  - vm_compute. reflexivity.
Defined.

(** X16: the colours of the chart.  [graph_clusters_er] has five colours.  For a
    cluster count between 0 and 5 the colour table gives label [l] the [l]-th
    colour, for every label below the count, and nothing else (any other label
    is a [KeyError]); the five colours are distinct.  For a count above 5
    building the table raises [IndexError], and for the count [None] (automatic
    selection) it raises [TypeError]: the chart cannot be drawn. *)
Theorem cluster_colors_cover_five (n : Z) :
  (0 <= n <= 5 ->
   exists d,
     cluster_colors (Some n) = Ok d /\
     length d = Z.to_nat n /\
     (forall l, 0 <= l < n ->
        exists c, dict_getitem d l = Ok c /\ nth_error colors (Z.to_nat l) = Some c) /\
     (forall l, ~ 0 <= l < n -> dict_getitem d l = Raise (KeyError (str l))))
  /\ (n < 0 -> cluster_colors (Some n) = Ok [])
  /\ (5 < n -> cluster_colors (Some n) = Raise (IndexError "list index out of range"))
  /\ cluster_colors None
     = Raise (TypeError "'NoneType' object cannot be interpreted as an integer")
  /\ NoDup colors.
Proof.
  split; [|split; [|split; [|split]]].
  - intros Hn.
    assert (E : n = 0 \/ n = 1 \/ n = 2 \/ n = 3 \/ n = 4 \/ n = 5) by lia.
    destruct E as [-> | [-> | [-> | [-> | [-> | ->]]]]];
      (eexists; split; [reflexivity|]; split; [reflexivity|]; split;
       [ intros l Hl;
         assert (E : l = 0 \/ l = 1 \/ l = 2 \/ l = 3 \/ l = 4) by lia;
         destruct E as [-> | [-> | [-> | [-> | ->]]]]; try lia;
         eexists; split; reflexivity
       | intros l Hl; cbn [dict_getitem];
         repeat match goal with
                | |- context [?k =? l] => destruct (Z.eqb_spec k l); [lia|]
                end; reflexivity ]).
  - intros Hn. unfold cluster_colors, py_range.
    replace (Z.to_nat (n - 0)) with 0%nat by lia. reflexivity.
  - intros Hn. unfold cluster_colors. rewrite (py_range_split 0 5 n) by lia.
    apply mapM_first_failure; [|reflexivity].
    intros y Hy. apply py_range_In in Hy.
    assert (E : y = 0 \/ y = 1 \/ y = 2 \/ y = 3 \/ y = 4) by lia.
    destruct E as [-> | [-> | [-> | [-> | ->]]]]; eexists; reflexivity.
  - reflexivity.
  - unfold colors. repeat constructor; cbn; intuition discriminate.
Qed.

Lemma cluster_colors_cover_five_witness :
  (exists d, cluster_colors (Some 3) = Ok d /\ length d = 3%nat)
  /\ cluster_colors (Some 6) = Raise (IndexError "list index out of range").
Proof.
  split.
  - destruct (proj1 (cluster_colors_cover_five 3)) as (d & Hd & Hlen & _); [lia|].
    exists d. split; [exact Hd|exact Hlen].
  - apply (proj1 (proj2 (proj2 (cluster_colors_cover_five 6)))). lia.
Defined.

(* ========================================================================= *)
(** * Properties of the loader *)

(** One case split on the innermost answer of the environment. *)
Ltac oracle_step :=
  match goal with
  | |- context [match ?x with Ok _ => _ | Raise _ => _ end] =>
      lazymatch x with
      | context [match _ with Ok _ => _ | Raise _ => _ end] => fail
      | context [match _ with Some _ => _ | None => _ end] => fail
      | context [if _ then _ else _] => fail
      | _ => destruct x eqn:?
      end
  | |- context [match ?x with Some _ => _ | None => _ end] =>
      lazymatch x with
      | context [match _ with Ok _ => _ | Raise _ => _ end] => fail
      | context [match _ with Some _ => _ | None => _ end] => fail
      | context [if _ then _ else _] => fail
      | _ => destruct x eqn:?
      end
  | |- context [if ?x then _ else _] =>
      lazymatch x with
      | context [match _ with Ok _ => _ | Raise _ => _ end] => fail
      | context [match _ with Some _ => _ | None => _ end] => fail
      | context [if _ then _ else _] => fail
      | _ => destruct x eqn:?
      end
  end; cbn.

Ltac unfold_loader :=
  unfold DataLoader.load_from_MT5, DataLoader.load_from_csv, DataLoader.load_from_yfinance,
    DataLoader.get_data, DataLoader.map_timeframes, DataLoader.update_data,
    DataLoader.set_data, DataLoader.emit, reraise_as_ValueError;
  run_py.

(** X17: how [load_from_MT5] ends.  It opens the terminal first.  When it
    returns, the loader holds a frame and the last thing it did was to shut
    the terminal down.  When it raises, the exception is a [ValueError] whose
    message starts with the loader's prefix, whatever went wrong inside; and
    if the terminal had come up, it has not been shut down. *)
Theorem load_from_MT5_outcomes `{E : LoaderEnv}
    (symbol start_date end_date time_frame : string) (w : DataLoader.t) :
  exists new,
    DataLoader.trace (fst (DataLoader.load_from_MT5 symbol start_date end_date time_frame w))
    = DataLoader.trace w ++ DataLoader.Mt5Initialize :: new /\
    match snd (DataLoader.load_from_MT5 symbol start_date end_date time_frame w) with
    | Ok _ =>
        DataLoader.data
          (fst (DataLoader.load_from_MT5 symbol start_date end_date time_frame w)) <> None /\
        exists before, new = before ++ [DataLoader.Mt5Shutdown]
    | Raise e =>
        (exists msg, e = ValueError ("Failed to load data from Metatrader: " ++ msg)) /\
        (mt5_initialize = true -> ~ In DataLoader.Mt5Shutdown new)
    end.
Proof.
  unfold_loader.
  destruct (get_col time_frame timeframe_mapping) as [tf|] eqn:Htf; repeat oracle_step.
  all: eexists; (split; [rewrite <- ?app_assoc; cbn [app]; reflexivity|]).
  all: try (split; [eexists; reflexivity|];
            first [discriminate | intros _; cbn; intuition discriminate]).
  all: split; [discriminate|];
    match goal with
    | |- exists before, ?l = before ++ [_] => exists (removelast l); reflexivity
    end.
Qed.

Lemma load_from_MT5_outcomes_witness :
  snd (DataLoader.load_from_MT5 (E := DemoLoader.env true)
         "EURUSD" "2015-01-01" "2015-02-01" "1h" DataLoader.init) = Ok tt
  /\ DataLoader.trace
       (fst (DataLoader.load_from_MT5 (E := DemoLoader.env true)
               "EURUSD" "2015-01-01" "2015-02-01" "1h" DataLoader.init))
     = [DataLoader.Mt5Initialize (E := DemoLoader.env true);
        DataLoader.Mt5CopyRatesRange (E := DemoLoader.env true) "EURUSD" (Some TIMEFRAME_H1) "2015-01-01"%string "2015-02-01"%string;
        DataLoader.Mt5Shutdown]
  /\ exists new msg,
       DataLoader.load_from_MT5 (E := DemoLoader.env true)
         "XXXXXX" "2015-01-01" "2015-02-01" "1h" DataLoader.init
       = (DataLoader.mk (E := DemoLoader.env true) (Some (None, [])) (DataLoader.Mt5Initialize :: new),
          Raise (ValueError ("Failed to load data from Metatrader: " ++ msg)))
       /\ ~ In DataLoader.Mt5Shutdown new.
Proof.
  split; [reflexivity|]. split; [reflexivity|].
  destruct (load_from_MT5_outcomes (E := DemoLoader.env true)
              "XXXXXX" "2015-01-01" "2015-02-01" "1h" DataLoader.init)
    as (new & Htrace & Hout).
  assert (Hrun : DataLoader.load_from_MT5 (E := DemoLoader.env true)
                   "XXXXXX" "2015-01-01" "2015-02-01" "1h" DataLoader.init
                 = (DataLoader.mk (E := DemoLoader.env true) (Some (None, []))
                      [DataLoader.Mt5Initialize;
                       DataLoader.Mt5CopyRatesRange (E := DemoLoader.env true) "XXXXXX" (Some TIMEFRAME_H1)
                         "2015-01-01"%string "2015-02-01"%string],
                    Raise (ValueError "Failed to load data from Metatrader: 'time'")))
    by reflexivity.
  rewrite Hrun in Htrace, Hout. cbn in Htrace, Hout.
  injection Htrace as <-. destruct Hout as [_ Hno].
  eexists _, "'time'"%string. split; [exact Hrun|]. apply Hno. reflexivity.
Defined.





(** X20: a load that fails half-way leaves half-made data behind.  When the
    rates arrived and were turned into a frame but the frame has no usable
    [time] column, [load_from_MT5] raises the wrapped [ValueError] and the
    loader keeps the raw frame of rates; [get_data] then hands out a copy of
    that frame as if it had been loaded. *)
Theorem failed_load_leaves_raw_rates `{E : LoaderEnv}
    (symbol start_date end_date time_frame : string) (w : DataLoader.t)
    (a b : Moment) (rates : Rates) (raw : Frame) (e : exn) :
  strptime_ymd start_date = Ok a ->
  strptime_ymd end_date = Ok b ->
  mt5_copy_rates_range symbol (get_col time_frame timeframe_mapping)
                       (astimezone_utc a) (astimezone_utc b) = Ok rates ->
  frame_of_rates rates = Ok raw ->
  with_date_column raw = Raise e ->
  snd (DataLoader.load_from_MT5 symbol start_date end_date time_frame w)
    = Raise (ValueError ("Failed to load data from Metatrader: " ++ exn_str e)) /\
  DataLoader.data (fst (DataLoader.load_from_MT5 symbol start_date end_date time_frame w))
    = Some raw /\
  DataLoader.get_data
    (fst (DataLoader.load_from_MT5 symbol start_date end_date time_frame w))
  = (fst (DataLoader.load_from_MT5 symbol start_date end_date time_frame w),
     Ok (frame_copy raw)).
Proof.
  intros Ha Hb Hrates Hraw Hdate.
  assert (Hrun : snd (DataLoader.load_from_MT5 symbol start_date end_date time_frame w)
                 = Raise (ValueError ("Failed to load data from Metatrader: " ++ exn_str e))
                 /\ DataLoader.data
                      (fst (DataLoader.load_from_MT5 symbol start_date end_date time_frame w))
                    = Some raw).
  { unfold_loader. rewrite Ha.
    destruct (get_col time_frame timeframe_mapping) as [tf|];
      destruct mt5_initialize; cbn; rewrite Hb; cbn; rewrite Hrates; cbn;
      rewrite Hraw; cbn; rewrite Hdate; cbn; split; reflexivity. }
  destruct Hrun as [Hr Hd]. split; [exact Hr|]. split; [exact Hd|].
  unfold DataLoader.get_data. run_py. now rewrite Hd.
Qed.

Lemma failed_load_leaves_raw_rates_witness :
  DataLoader.get_data
    (fst (DataLoader.load_from_MT5 (E := DemoLoader.env true)
            "XXXXXX" "2015-01-01" "2015-02-01" "1h" DataLoader.init))
  = (fst (DataLoader.load_from_MT5 (E := DemoLoader.env true)
            "XXXXXX" "2015-01-01" "2015-02-01" "1h" DataLoader.init),
     Ok (None, [])).
Proof.
  apply (failed_load_leaves_raw_rates (E := DemoLoader.env true)
           "XXXXXX" "2015-01-01" "2015-02-01" "1h" DataLoader.init
           "2015-01-01"%string "2015-02-01"%string None (None, []) (KeyError "time"));
    reflexivity.
Defined.

(** X21: how [load_from_csv] ends.  Whatever fails inside, the exception is a
    [ValueError] with the loader's prefix.  If the file cannot be read the
    loader holds what it held before, so [get_data] on a fresh loader raises
    [AttributeError]; if the file was read but the date column cannot be
    converted the loader keeps the raw table; and when every step succeeds
    [get_data] returns a copy of the table indexed by the date column. *)
Theorem load_from_csv_outcomes `{E : LoaderEnv} (filepath date_column : string)
    (w : DataLoader.t) :
  (forall e, pd_read_csv filepath = Raise e ->
     DataLoader.load_from_csv filepath date_column w
     = (w, Raise (ValueError ("Failed to load data from csv file: " ++ exn_str e))))
  /\ (forall raw e, pd_read_csv filepath = Ok raw ->
     to_datetime_column date_column raw = Raise e ->
     DataLoader.load_from_csv filepath date_column w
     = (DataLoader.mk (Some raw) (DataLoader.trace w),
        Raise (ValueError ("Failed to load data from csv file: " ++ exn_str e))))
  /\ (forall raw dated indexed, pd_read_csv filepath = Ok raw ->
     to_datetime_column date_column raw = Ok dated ->
     set_index_column date_column dated = Ok indexed ->
     DataLoader.load_from_csv filepath date_column w
     = (DataLoader.mk (Some indexed) (DataLoader.trace w), Ok tt) /\
     snd (DataLoader.get_data (fst (DataLoader.load_from_csv filepath date_column w)))
     = Ok (frame_copy indexed))
  /\ (forall r, snd (DataLoader.load_from_csv filepath date_column w) = r ->
     r = Ok tt \/
     exists msg, r = Raise (ValueError ("Failed to load data from csv file: " ++ msg)))
  /\ (forall e, pd_read_csv filepath = Raise e ->
     snd (DataLoader.get_data
            (fst (DataLoader.load_from_csv filepath date_column DataLoader.init)))
     = Raise (AttributeError "'NoneType' object has no attribute 'copy'")).
Proof.
  split; [|split; [|split; [|split]]].
  - intros e He. unfold_loader. rewrite He. destruct w. reflexivity.
  - intros raw e Hraw He. unfold_loader. rewrite Hraw. cbn. rewrite He. reflexivity.
  - intros raw dated indexed Hraw Hd Hi. unfold_loader. rewrite Hraw. cbn.
    rewrite Hd. cbn. rewrite Hi. cbn. split; reflexivity.
  - intros r <-. unfold_loader. repeat oracle_step;
      first [left; reflexivity | right; eexists; reflexivity].
  - intros e He. unfold_loader. rewrite He. reflexivity.
Qed.

Lemma load_from_csv_outcomes_witness :
  DataLoader.load_from_csv (E := DemoLoader.env true) "prices.csv" "Date" DataLoader.init
  = (DataLoader.mk (E := DemoLoader.env true)
       (Some (Some "Date"%string, ["Open"; "High"; "Low"; "Close"; "Volume"]%string)) [],
     Ok tt)
  /\ DataLoader.load_from_csv (E := DemoLoader.env true) "prices.csv" "date" DataLoader.init
     = (DataLoader.mk (E := DemoLoader.env true)
          (Some (None, ["Date"; "Open"; "High"; "Low"; "Close"; "Volume"]%string)) [],
        Raise (ValueError "Failed to load data from csv file: 'date'")).
Proof.
  destruct (load_from_csv_outcomes (E := DemoLoader.env true) "prices.csv" "Date"
              DataLoader.init) as (_ & _ & Hok & _).
  destruct (load_from_csv_outcomes (E := DemoLoader.env true) "prices.csv" "date"
              DataLoader.init) as (_ & Hraw & _).
  split.
  - apply (Hok (None, ["Date"; "Open"; "High"; "Low"; "Close"; "Volume"]%string)
               (None, ["Date"; "Open"; "High"; "Low"; "Close"; "Volume"]%string)
               (Some "Date"%string, ["Open"; "High"; "Low"; "Close"; "Volume"]%string));
      reflexivity.
  - apply (Hraw (None, ["Date"; "Open"; "High"; "Low"; "Close"; "Volume"]%string)
                (KeyError "date")); reflexivity.
Defined.

Lemma all_from_spec (check : Z -> bool) (fuel : nat) (lo : Z) :
  all_from check fuel lo = true ->
  forall n, lo <= n < lo + Z.of_nat fuel -> check n = true.
Proof.
  revert lo. induction fuel as [|f IH]; intros lo H n Hn; [lia|].
  cbn [all_from] in H. apply andb_prop in H. destruct H as [H0 H1].
  destruct (Z.eq_dec n lo) as [->|Hne]; [exact H0|].
  apply (IH (Z.succ lo) H1). lia.
Qed.

(** Every day from 1970-01-01 to 2099-12-31. *)
Lemma short_of_ten_years_checked :
  all_from short_of_ten_years (Z.to_nat 47482) 719163 = true.
Proof. vm_compute. reflexivity. Qed.

(** X22: which history [load_from_yfinance] asks for.  With a non-empty
    [period] the dates play no part: the outcome is the same whatever
    [start_date] and [end_date] are.  Without a period a date that is given is
    used as it is; a missing [end_date] is the date the clock reads, and a
    missing [start_date] is the date 3650 days before the date the clock reads
    (at its next reading, when both are missing).  For a clock that reads a
    date from 1970 to 2099 that start is later than the same day ten years
    earlier, by no more than three days.  Whatever fails, the exception is a
    [ValueError] with the loader's prefix. *)
Theorem yfinance_period_and_defaults `{E : LoaderEnv} (symbol interval : string)
    (w : DataLoader.t) :
  (forall p sd sd' ed ed', p <> ""%string ->
     DataLoader.load_from_yfinance symbol sd ed (Some p) interval w
     = DataLoader.load_from_yfinance symbol sd' ed' (Some p) interval w)
  /\ (forall period, DataLoader.truthy period = false ->
     (3650 < datetime_now 1 ->
      DataLoader.load_from_yfinance symbol None None period interval w
      = DataLoader.load_from_yfinance symbol
          (Some (strftime_ymd (datetime_now 1 - 3650)))
          (Some (strftime_ymd (datetime_now 0))) None interval w) /\
     (forall sd,
        DataLoader.load_from_yfinance symbol (Some sd) None period interval w
        = DataLoader.load_from_yfinance symbol (Some sd)
            (Some (strftime_ymd (datetime_now 0))) None interval w) /\
     (forall ed, 3650 < datetime_now 0 ->
        DataLoader.load_from_yfinance symbol None (Some ed) period interval w
        = DataLoader.load_from_yfinance symbol
            (Some (strftime_ymd (datetime_now 0 - 3650))) (Some ed) None interval w))
  /\ (forall k, 719163 <= datetime_now k <= 766644 ->
     ymd_ltb (ten_years_before (ord2ymd (datetime_now k)))
             (ord2ymd (datetime_now k - 3650)) = true /\
     ymd_ltb (ten_years_before (ord2ymd (datetime_now k)))
             (ord2ymd (datetime_now k - 3653)) = false)
  /\ (forall sd ed period r,
     snd (DataLoader.load_from_yfinance symbol sd ed period interval w) = r ->
     r = Ok tt \/
     exists msg, r = Raise (ValueError ("Failed to load data from Yahoo Finance: " ++ msg))).
Proof.
  split; [|split; [|split]].
  - intros p sd sd' ed ed' Hp. unfold DataLoader.load_from_yfinance, DataLoader.truthy.
    destruct (String.eqb_spec p ""); [contradiction|]. reflexivity.
  - intros period Hperiod. unfold DataLoader.load_from_yfinance, timedelta_sub.
    rewrite Hperiod. cbn [DataLoader.truthy]. change (10 * 365) with 3650.
    split; [|split].
    + intros Hnow.
      destruct (Z.leb_spec 1 (datetime_now 1 - 3650)) as [_|Hlt]; [reflexivity|lia].
    + intros sd. reflexivity.
    + intros ed Hnow.
      destruct (Z.leb_spec 1 (datetime_now 0 - 3650)) as [_|Hlt]; [reflexivity|lia].
  - intros k Hk.
    pose proof (all_from_spec _ _ _ short_of_ten_years_checked (datetime_now k)) as H.
    rewrite Z2Nat.id in H by lia. specialize (H ltac:(lia)).
    unfold short_of_ten_years in H. apply andb_prop in H. destruct H as [H1 H2].
    split; [exact H1|]. now apply negb_true_iff in H2.
  - intros sd ed period r <-. unfold_loader. unfold timedelta_sub.
    destruct (DataLoader.truthy period); [|destruct sd as [sd|]; cbn;
      [|destruct (1 <=? _); cbn]];
      repeat oracle_step;
      first [left; reflexivity | right; eexists; reflexivity].
Qed.

Lemma yfinance_period_and_defaults_witness :
  DataLoader.load_from_yfinance (E := DemoLoader.env true)
    "AAPL" (Some "2020-01-01"%string) None (Some "1mo"%string) "1d" DataLoader.init
  = DataLoader.load_from_yfinance (E := DemoLoader.env true)
      "AAPL" None (Some "1999-12-31"%string) (Some "1mo"%string) "1d" DataLoader.init
  /\ DataLoader.load_from_yfinance (E := DemoLoader.env true)
       "AAPL" None None (Some ""%string) "1d" DataLoader.init
     = DataLoader.load_from_yfinance (E := DemoLoader.env true)
         "AAPL" (Some "2016-11-06"%string) (Some "2026-11-04"%string) None "1d"
         DataLoader.init
  /\ ymd_ltb (2016, 11, 4) (ord2ymd (739924 - 3650)) = true.
Proof.
  destruct (yfinance_period_and_defaults (E := DemoLoader.env true) "AAPL" "1d"
              DataLoader.init) as (Hp & Hd & Hc & _).
  split; [|split].
  - exact (Hp "1mo"%string (Some "2020-01-01"%string) None None
              (Some "1999-12-31"%string) ltac:(discriminate)).
  - apply (proj1 (Hd (Some ""%string) eq_refl)). cbn. lia.
  - apply (Hc 0%nat). cbn. lia.
Defined.

Lemma get_col_In {A : Type} (k : string) (cols : list (string * A)) (v : A) :
  get_col k cols = Some v -> In (k, v) cols.
Proof.
  induction cols as [|[k' v'] r IH]; cbn; [discriminate|].
  destruct (String.eqb_spec k' k) as [->|Hne].
  - intros [= ->]. now left.
  - intros H. right. now apply IH.
Qed.

Lemma map_timeframes_value `{E : LoaderEnv} (time_frame : string) (w : DataLoader.t) :
  snd (DataLoader.map_timeframes time_frame w)
  = Ok (get_col time_frame timeframe_mapping).
Proof.
  unfold DataLoader.map_timeframes.
  destruct (get_col time_frame timeframe_mapping); reflexivity.
Qed.

(** X23: the terminal can tell the accepted time frames apart.
    [map_timeframes] never raises; and two strings that are both accepted and
    reach the terminal as the same integer are the same string: no two keys of
    the table share a constant, and no two constants share a value (['1m'] and
    ['1M'] differ, as 1 and 49153). *)
Theorem map_timeframes_one_to_one `{E : LoaderEnv} :
  (forall time_frame w, exists r, snd (DataLoader.map_timeframes time_frame w) = Ok r)
  /\ (forall a b w w' x y,
     snd (DataLoader.map_timeframes a w) = Ok (Some x) ->
     snd (DataLoader.map_timeframes b w') = Ok (Some y) ->
     mt5_value x = mt5_value y -> a = b).
Proof.
  split.
  - intros time_frame w. exists (get_col time_frame timeframe_mapping).
    apply map_timeframes_value.
  - intros a b w w' x y Ha Hb Hxy.
    rewrite map_timeframes_value in Ha, Hb.
    assert (Ha' : get_col a timeframe_mapping = Some x) by congruence.
    assert (Hb' : get_col b timeframe_mapping = Some y) by congruence.
    clear Ha Hb. apply get_col_In in Ha'. apply get_col_In in Hb'.
    rename Ha' into Ha, Hb' into Hb.
    unfold timeframe_mapping in Ha, Hb. cbn [In] in Ha, Hb.
    repeat (destruct Ha as [Ha|Ha]; [injection Ha as <- <-|]); [..|contradiction];
      repeat (destruct Hb as [Hb|Hb];
              [injection Hb as <- <-;
               first [reflexivity | vm_compute in Hxy; discriminate Hxy]|]);
      contradiction.
Qed.

Lemma map_timeframes_one_to_one_witness :
  snd (DataLoader.map_timeframes (E := DemoLoader.env true) "1M" DataLoader.init)
  = Ok (Some TIMEFRAME_MN1)
  /\ snd (DataLoader.map_timeframes (E := DemoLoader.env true) "1m" DataLoader.init)
     = Ok (Some TIMEFRAME_M1)
  /\ mt5_value TIMEFRAME_MN1 = 49153
  /\ "1M"%string = "1M"%string.
Proof.
  destruct (map_timeframes_one_to_one (E := DemoLoader.env true)) as (_ & Hinj).
  split; [reflexivity|]. split; [reflexivity|]. split; [reflexivity|].
  apply (Hinj "1M"%string "1M"%string DataLoader.init DataLoader.init
           TIMEFRAME_MN1 TIMEFRAME_MN1); reflexivity.
Defined.
